(** * mlprocess: the multi-label model-selection and evaluation harness

    A shallow embedding of [mlprocess.py].  The Python functions are
    translated one by one, keeping their names, their control flow and their
    order of effects.  Calls into pandas are modelled on a small column-major
    data frame; calls into scikit-learn, imbalanced-learn, numpy and requests
    are the fields of the class [Library], which every definition takes as a
    parameter: nothing is assumed about what those packages compute. *)

From Stdlib Require Import ZArith Ascii String.
From stdpp Require Import gmap strings list pretty.

Local Open Scope string_scope.
Local Open Scope list_scope.

(** ** Exceptions, outcomes and the world *)

(** The Python exceptions that the embedded code, or a package it calls, can
    raise. *)
Inductive exn : Type :=
| KeyError (key : string)
| TypeError (msg : string)
| ValueError (msg : string)
| IndexError (msg : string)
| AttributeError (attr : string)
| AssertionError
| HTTPError (msg : string)
| ConnectionError (msg : string).

(** A call either returns a value or raises. *)
Inductive outcome (A : Type) : Type :=
| Returned (a : A)
| Raised (e : exn).
Arguments Returned {A} a.
Arguments Raised {A} e.

Definition is_Returned {A} (o : outcome A) : Prop :=
  match o with Returned _ => True | Raised _ => False end.

Definition is_Raised {A} (o : outcome A) : Prop :=
  match o with Returned _ => False | Raised _ => True end.

Definition outcome_bind {A B} (o : outcome A) (f : A → outcome B) : outcome B :=
  match o with
  | Returned a => f a
  | Raised e => Raised e
  end.

(** ** Data frames

    A frame is the list of its named columns, in column order; the row index
    is the position in the column.  Descriptor and fingerprint frames of one
    partition share their row index, so [pd.concat(..., axis=1)] places the
    columns of its arguments side by side. *)
Definition DataFrame (V : Type) : Type := list (string * list V).

(** [df.columns.to_list()] *)
Definition columns {V} (df : DataFrame V) : list string := df.*1.

(** [df.shape[1]] *)
Definition n_columns {V} (df : DataFrame V) : nat := length df.

(** The columns of [df] kept by a boolean mask, position by position. *)
Fixpoint mask_columns {V} (df : DataFrame V) (mask : list bool) : DataFrame V :=
  match df, mask with
  | c :: df', b :: mask' =>
      if b then c :: mask_columns df' mask' else mask_columns df' mask'
  | _, _ => []
  end.

(** [df.loc[:, mask]] for a boolean mask: pandas refuses a mask whose length
    is not the number of columns. *)
Definition loc_mask {V} (df : DataFrame V) (mask : list bool) : outcome (DataFrame V) :=
  if decide (length mask = length df)
  then Returned (mask_columns df mask)
  else Raised (IndexError "Item wrong length").

(** The columns of [df] that carry the label [name], in column order. *)
Definition columns_named {V} (name : string) (df : DataFrame V) : DataFrame V :=
  filter (λ c, c.1 = name) df.

(** [df.loc[:, names]] for a list of labels: one after the other, each label
    contributes the columns that carry it; a label that no column carries is
    a [KeyError]. *)
Fixpoint loc_names {V} (df : DataFrame V) (names : list string) : outcome (DataFrame V) :=
  match names with
  | [] => Returned []
  | n :: names' =>
      match columns_named n df with
      | [] => Raised (KeyError n)
      | cs => outcome_bind (loc_names df names') (λ rest, Returned (cs ++ rest))
      end
  end.

(** [pd.concat([a, b], axis=1)] *)
Definition concat_columns {V} (a b : DataFrame V) : DataFrame V := a ++ b.

(** [df.copy()] *)
Definition copy {V} (df : DataFrame V) : DataFrame V := df.

(** A two-dimensional numpy array, stored column by column. *)
Definition ndarray (V : Type) : Type := list (list V).

(** [np.asarray(df)]: the values without the column labels. *)
Definition np_asarray {V} (df : DataFrame V) : ndarray V := df.*2.

(** [a[:, j]] *)
Definition column_at {V} (a : ndarray V) (j : nat) : outcome (list V) :=
  match a !! j with
  | Some c => Returned c
  | None => Raised (IndexError "index is out of bounds for axis 1")
  end.

(** What the fitting and scoring routines accept as a feature matrix: the
    code hands them frames in some places and arrays in others. *)
Inductive array_like (V : Type) : Type :=
| Frame (df : DataFrame V)
| Array (a : ndarray V).
Arguments Frame {V} df.
Arguments Array {V} a.

(** The number of feature columns of a matrix. *)
Definition width {V} (X : array_like V) : nat :=
  match X with
  | Frame df => length df
  | Array a => length a
  end.

(** A target vector: one 0/1 entry per compound. *)
Definition Series : Type := list Z.

(** [d[key]] on a dictionary with string keys. *)
Definition getitem {A} (d : gmap string A) (key : string) : outcome A :=
  match d !! key with
  | Some a => Returned a
  | None => Raised (KeyError key)
  end.

(** [{name: None for name in out_names}]: every key is there, bound to
    Python's [None]. *)
Definition dict_of_None {A} (out_names : list string) : gmap string (option A) :=
  foldl (λ d name, <[name := None]> d) ∅ out_names.

(** ** Boolean masks: [np.full] and slice assignment *)

(** [np.full((n,), v, dtype=bool)] *)
Definition np_full (n : nat) (v : bool) : list bool := replicate n v.

(** [a[-n:] = v]: the last [n] entries are overwritten, all of them when the
    array has fewer than [n]. *)
Definition set_last (n : nat) (v : bool) (a : list bool) : list bool :=
  take (length a - n) a ++ replicate (length a `min` n) v.

(** The mask that every balancing site builds:
    [cat_shape = np.full((1128,), True, dtype=bool); cat_shape[-3:] = False]. *)
Definition cat_shape : list bool := set_last 3 false (np_full 1128 true).

(** ** Selecting without repetition *)

(** [if s not in selected: selected.append(s)] *)
Definition append_if_new (selected : list string) (s : string) : list string :=
  if decide (s ∈ selected) then selected else selected ++ [s].

(** [for s in sel: if s not in selected: selected.append(s)] *)
Definition extend_selected (selected sel : list string) : list string :=
  foldl append_if_new selected sel.

(** The specification's reading of that loop: every name once, at the place
    of its first appearance. *)
Fixpoint first_appearance (l : list string) : list string :=
  match l with
  | [] => []
  | x :: l' => x :: filter (λ y, y ≠ x) (first_appearance l')
  end.

(** ** Values that the packages own *)

(** Floating-point numbers and hyper-parameter values are opaque: the code
    stores them, passes them on and prints them, and computes with them only
    through library calls. *)
Class Values : Type := {
  float : Type;
  pyval : Type;
  (** a scoring function for feature selection, such as [f_classif] *)
  score_function : Type;
  (** a parameter grid or a parameter distribution, as the searches take it *)
  param_space : Type;
  (** the state of everything outside the program that a library call can
      read or change: numpy's global random generator, the network, files *)
  ext : Type;
}.

(** One hyper-parameter configuration: parameter name to value. *)
Abbreviation config := (gmap string pyval).

(** ** Estimators, as the code builds them *)

#[local] Set Warnings "-register-all".

(** The three classifier families carry the arguments of their constructor
    call and, in [params], what [set_params] was given afterwards. *)
Inductive estimator {Vs : Values} : Type :=
| SVC (random_state : option Z) (probability : bool) (params : config)
| RandomForestClassifier (n_estimators : Z) (random_state : option Z) (params : config)
| XGBClassifier (objective : string) (random_state : option Z) (params : config)
| VotingClassifier (estimators : list (string * estimator)) (voting : string) (n_jobs : Z)
| SMOTENC (categorical_features : list bool) (random_state : option Z) (n_jobs : Z)
| Pipeline (steps : list estimator)
| UserModel (name : string)
| NoneModel.

(** [make_pipeline(a, b)] *)
Definition make_pipeline {Vs : Values} (a b : estimator) : estimator := Pipeline [a; b].

(** [StratifiedKFold(n_splits=..., random_state=...)]; shuffling is left at
    its default. *)
Record StratifiedKFold : Type := {
  n_splits : Z;
  kf_random_state : option Z;
}.

(** What a fitted estimator offers: [predict], and [predict_proba] when the
    estimator has it. *)
Record fitted {Vs : Values} : Type := {
  predict : array_like float → outcome Series;
  predict_proba : option (array_like float → outcome (ndarray float));
}.

(** [cv_results_] of a finished search, the three entries the code reads. *)
Record cv_results {Vs : Values} : Type := {
  mean_test_score : list float;
  std_test_score : list float;
  cv_params : list config;
}.

(** A fitted [GridSearchCV] or [RandomizedSearchCV]. *)
Record search {Vs : Values} : Type := {
  cv_results_ : cv_results;
  best_params_ : config;
  best_estimator_ : fitted;
  (** the search object predicts with its refitted best estimator *)
  search_predict : array_like float → outcome Series;
}.

(** A [requests.Response]. *)
Record response : Type := {
  status_code : Z;
  text : string;
}.

(** What the program does to the outside: lines written to the standard
    output, HTTP requests sent, figures drawn and saved. *)
Inductive event {Vs : Values} : Type :=
| Print (line : string)
| HttpGet (url : string)
| PlotStep (x y : list float)
| PlotFill (x y : list float)
| PlotTitle (title : string)
| SaveFig (path : string)
| ToCsv (path : string).

(** A library call reads and changes the outside state. *)
Definition lib {Vs : Values} (A : Type) : Type := ext → outcome A * ext.

(** ** The packages

    Every function that the code imports and calls, with the arguments in the
    order the code gives them. *)
Class Library {Vs : Values} : Type := {
  (** builtins and numpy *)
  py_round : float → Z → float;
  np_mean : list float → float;
  np_std : list float → float;
  float_mul : float → float → float;
  float_1_96 : float;
  (** ["%0.3f" % x] and [f"{x:.3f}"], by number of decimals *)
  format_float : nat → float → string;
  (** [repr] of a dictionary of parameters *)
  repr_config : config → string;
  (** [sorted(Counter(y).items())], printed *)
  repr_counts : Series → string;
  (** [str(e)] of an exception *)
  str_exn : exn → string;
  (** sklearn.feature_selection *)
  f_classif : score_function;
  (** [SelectKBest(score_func=f, k=k).fit(X, y).get_support()] *)
  SelectKBest_get_support :
    score_function → Z → DataFrame float → Series → outcome (list bool);
  (** imblearn: [sampler.fit_resample(X, y)] *)
  fit_resample :
    estimator → array_like float → Series → lib (array_like float * Series);
  (** [GridSearchCV(est, params, cv=kf, n_jobs=.., verbose=.., scoring=..).fit(X, y)] *)
  GridSearchCV_fit :
    estimator → param_space → StratifiedKFold → Z → bool → string →
    array_like float → Series → lib search;
  (** [RandomizedSearchCV(est, params, n_iter=.., cv=kf, n_jobs=.., verbose=..,
      scoring=.., random_state=..).fit(X, y)] *)
  RandomizedSearchCV_fit :
    estimator → param_space → Z → StratifiedKFold → Z → bool → string → option Z →
    array_like float → Series → lib search;
  (** [cross_validate(est, X, y, scoring=.., cv=kf, n_jobs=.., verbose=..,
      return_train_score=False)] *)
  cross_validate :
    estimator → array_like float → Series → list string → StratifiedKFold → Z → bool →
    lib (gmap string (list float));
  (** [est.fit(X, y)] *)
  fit : estimator → array_like float → Series → lib fitted;
  (** sklearn.metrics *)
  f1_score : Series → Series → string → outcome float;
  roc_auc_score : Series → Series → outcome float;
  recall_score : Series → Series → string → outcome float;
  precision_score : Series → Series → string → outcome float;
  average_precision_score : Series → list float → outcome float;
  precision_recall_curve :
    Series → list float → outcome (list float * list float * list float);
  classification_report : Series → Series → outcome string;
  (** [confusion_matrix(y_true, y_pred)], printed *)
  confusion_matrix : Series → Series → outcome string;
  (** requests *)
  requests_get : string → lib response;
  raise_for_status : response → outcome unit;
  (** [pd.read_csv("./datasets/offsides_socs.csv")[["stitch_id", "SOC"]]],
      row by row *)
  read_offsides : lib (list (string * string));
}.

(** ** The monad of the embedded code *)

(** The outside state and what the program has done so far, oldest first. *)
Record world {Vs : Values} : Type := {
  env : ext;
  trace : list event;
}.

Definition M {Vs : Values} (A : Type) : Type := world → outcome A * world.

#[export] Instance M_ret {Vs : Values} : MRet M := λ A a w, (Returned a, w).

#[export] Instance M_bind {Vs : Values} : MBind M := λ A B f m w,
  match m w with
  | (Returned a, w') => f a w'
  | (Raised e, w') => (Raised e, w')
  end.

#[export] Instance outcome_ret : MRet outcome := λ A a, Returned a.

#[export] Instance outcome_mbind : MBind outcome := λ A B f o, outcome_bind o f.

#[export] Instance outcome_fmap : FMap outcome := λ A B f o,
  outcome_bind o (λ a, Returned (f a)).

(** A pure step that may raise. *)
Definition lift {Vs : Values} {A} (o : outcome A) : M A := λ w, (o, w).

(** A library call. *)
Definition call {Vs : Values} {A} (c : lib A) : M A := λ w,
  let '(o, e) := c (env w) in (o, {| env := e; trace := trace w |}).

Definition emit {Vs : Values} (ev : event) : M unit := λ w,
  (Returned (), {| env := env w; trace := trace w ++ [ev] |}).

(** [print(line)] *)
Definition print {Vs : Values} (line : string) : M unit := emit (Print line).

(** [if c: body] *)
Definition when_ {Vs : Values} (c : bool) (body : M unit) : M unit :=
  if c then body else mret ().

(** A [for] loop over a list whose body updates the local variables [S]. *)
Fixpoint for_each {Vs : Values} {A S} (l : list A) (body : A → S → M S) (s : S) : M S :=
  match l with
  | [] => mret s
  | a :: l' => s' ← body a s; for_each l' body s'
  end.

(** How an iteration of a loop ends: it falls through to the next one, or
    the function returns from inside the loop. *)
Inductive flow (S R : Type) : Type :=
| Continue (s : S)
| Return (r : R).
Arguments Continue {S R} s.
Arguments Return {S R} r.

Fixpoint for_loop {Vs : Values} {A S R} (l : list A) (body : A → S → M (flow S R)) (s : S)
  : M (flow S R) :=
  match l with
  | [] => mret (Continue s)
  | a :: l' =>
      r ← body a s;
      match r with
      | Continue s' => for_loop l' body s'
      | Return v => mret (Return v)
      end
  end.

(** The same loop for code that neither prints nor calls out. *)
Fixpoint for_each_pure {A S} (l : list A) (body : A → S → outcome S) (s : S) : outcome S :=
  match l with
  | [] => Returned s
  | a :: l' => s' ← body a s; for_each_pure l' body s'
  end.

(** ** Feature selection *)

Section Harness.
Context {Vs : Values} {Lib : Library}.

(** One iteration of the loop of [select_best_descriptors_multi]: the
    selection for the label [n] is added to what was [selected] before. *)
Definition select_multi_body
    (df_desc : DataFrame float) (y_all : gmap string Series)
    (score_func : score_function) (k : Z) (n : string) (selected : list string)
  : M (list string) :=
  y ← lift (getitem y_all n);
  n_sel_bol ← lift (SelectKBest_get_support score_func k df_desc y);
  sel_df ← lift (loc_mask df_desc n_sel_bol);
  let sel := columns sel_df in
  mret (extend_selected selected sel).

(** [select_best_descriptors_multi(df_desc, y_all, out_names=[], score_func=f_classif, k=1)].
    The result is [None] when the function returns Python's [None]. *)
Definition select_best_descriptors_multi
    (df_desc : DataFrame float) (y_all : gmap string Series) (out_names : list string)
    (score_func : score_function) (k : Z) : M (option (list string)) :=
  if decide (out_names = []) then
    print "Column names necessary";;
    mret None
  else
    selected ← for_each out_names (select_multi_body df_desc y_all score_func k) [];
    mret (Some selected).

(** What one iteration selects for the label [n]: the names of
    the columns that [SelectKBest] keeps for the target vector of [n]. *)
Definition label_selection
    (df_desc : DataFrame float) (y_all : gmap string Series)
    (score_func : score_function) (k : Z) (n : string) : outcome (list string) :=
  y ← getitem y_all n;
  n_sel_bol ← SelectKBest_get_support score_func k df_desc y;
  sel_df ← loc_mask df_desc n_sel_bol;
  Returned (columns sel_df).

(** [select_best_descriptors(X, y, score_func=f_classif, k=2)] *)
Definition select_best_descriptors
    (X : DataFrame float) (y : Series) (score_func : score_function) (k : Z)
  : outcome (list string) :=
  n_sel_bol ← SelectKBest_get_support score_func k X y;
  sel_df ← loc_mask X n_sel_bol;
  let sel := columns sel_df in
  if decide (sel = []) then Raised AssertionError else Returned sel.

(** ** Per-label data sets *)

(** The three dictionaries that [create_dataframes_dic] fills. *)
Record dataframes_dic : Type := {
  train_series_dic : gmap string (option (DataFrame float));
  test_series_dic : gmap string (option (DataFrame float));
  selected_name : gmap string (option (list string));
}.

(** One iteration of the loop of [create_dataframes_dic]. *)
Definition create_dataframes_step
    (df_desc_base_train df_desc_base_test X_train_fp X_test_fp : DataFrame float)
    (y_train : gmap string Series) (score_func : score_function) (k : Z)
    (name : string) (d : dataframes_dic) : outcome dataframes_dic :=
  y ← getitem y_train name;
  sel_col ← select_best_descriptors df_desc_base_train y score_func k;
  let selected_name' := <[name := Some sel_col]> (selected_name d) in
  train_cols ← loc_names df_desc_base_train sel_col;
  let df_desc_train := copy train_cols in
  test_cols ← loc_names df_desc_base_test sel_col;
  let df_desc_test := copy test_cols in
  let X_train := concat_columns X_train_fp df_desc_train in
  let X_test := concat_columns X_test_fp df_desc_test in
  Returned {| train_series_dic := <[name := Some X_train]> (train_series_dic d);
              test_series_dic := <[name := Some X_test]> (test_series_dic d);
              selected_name := selected_name' |}.

(** [create_dataframes_dic(df_desc_base_train, df_desc_base_test, X_train_fp,
    X_test_fp, y_train, out_names, score_func=f_classif, k=3)] *)
Definition create_dataframes_dic
    (df_desc_base_train df_desc_base_test X_train_fp X_test_fp : DataFrame float)
    (y_train : gmap string Series) (out_names : list string)
    (score_func : score_function) (k : Z) : outcome dataframes_dic :=
  for_each_pure out_names
    (create_dataframes_step df_desc_base_train df_desc_base_test X_train_fp X_test_fp
       y_train score_func k)
    {| train_series_dic := dict_of_None out_names;
       test_series_dic := dict_of_None out_names;
       selected_name := dict_of_None out_names |}.

(** ** Balancing *)

(** The two dictionaries that [balance_dataset] fills. *)
Record balanced_dic : Type := {
  train_series_dic_bal : gmap string (option (array_like float));
  y_dic_bal : gmap string (option Series);
}.

(** [balance_dataset(X_train_dic, y_train_dic, out_names, random_state=0,
    n_jobs=-1, verbose=False)] *)
Definition balance_dataset
    (X_train_dic : gmap string (array_like float)) (y_train_dic : gmap string Series)
    (out_names : list string) (random_state : option Z) (n_jobs : Z) (verbose : bool)
  : M balanced_dic :=
  bal ← for_each out_names (λ label bal,
    X_imb ← lift (getitem X_train_dic label);
    y_imb ← lift (getitem y_train_dic label);
    '(X_bal, y_bal) ← call (fit_resample (SMOTENC cat_shape random_state n_jobs) X_imb y_imb);
    mret {| train_series_dic_bal := <[label := Some X_bal]> (train_series_dic_bal bal);
            y_dic_bal := <[label := Some y_bal]> (y_dic_bal bal) |})
    {| train_series_dic_bal := dict_of_None out_names;
       y_dic_bal := dict_of_None out_names |};
  when_ verbose (for_each out_names (λ label _,
    print ("For " +:+ label);;
    y ← lift (getitem y_train_dic label);
    print (repr_counts y);;
    y_b ← lift (getitem (y_dic_bal bal) label);
    print (match y_b with Some y' => repr_counts y' | None => "[]" end)) ());;
  mret bal.


(** ** Hyper-parameter search *)

(** The truth value of an optional frame in a condition: [None] is false,
    and pandas refuses to give a frame or a series a truth value. *)
Definition truth_of_frame {A} (x : option A) : outcome bool :=
  match x with
  | None => Returned false
  | Some _ => Raised (ValueError "The truth value of a DataFrame is ambiguous")
  end.

(** [X_test and y_test]: the second operand is evaluated only when the first
    is true. *)
Definition and_truth {A B} (X_test : option A) (y_test : option B) : outcome bool :=
  b ← truth_of_frame X_test;
  if b : bool then truth_of_frame y_test else Returned false.

(** [for mean, std, params in zip(means, stds, cv_results_["params"]):
      print("%0.3f (+/-%0.03f) for %r" % (mean, std * 1.96, params))] *)
Fixpoint print_scores (means stds : list float) (params : list config) : M unit :=
  match means, stds, params with
  | mean :: means', std :: stds', p :: params' =>
      print (format_float 3 mean +:+ " (+/-" +:+ format_float 3 (float_mul std float_1_96)
             +:+ ") for " +:+ repr_config p);;
      print_scores means' stds' params'
  | _, _, _ => mret ()
  end.

(** The text between the triple quotes that introduces a confusion matrix. *)
Definition confusion_legend : string := "
            TN FP
            FN TP
            ".

(** What both searches print under [verbose] once the search is fitted;
    [with_matrix] tells whether the confusion matrix is printed too. *)
Definition report_search (s : search) (X_test : option (DataFrame float))
    (y_test : option Series) (with_matrix : bool) : M unit :=
  let means := mean_test_score (cv_results_ s) in
  let stds := std_test_score (cv_results_ s) in
  print "";;
  print "Score for development set:";;
  print_scores means stds (cv_params (cv_results_ s));;
  print "";;
  print "";;
  print "Best parameters set found:";;
  print (repr_config (best_params_ s));;
  print "";;
  b ← lift (and_truth X_test y_test);
  match b, X_test, y_test with
  | true, Some X, Some y_true =>
      print "";;
      print "Detailed classification report:";;
      print "The model is trained on the full development set.";;
      print "The scores are computed on the full evaluation set.";;
      print "";;
      y_pred ← lift (search_predict s (Frame X));
      rep ← lift (classification_report y_true y_pred);
      print rep;;
      print "";;
      when_ with_matrix (
        print "Confusion Matrix as";;
        print confusion_legend;;
        cm ← lift (confusion_matrix y_true y_pred);
        print cm)
  | _, _, _ => mret ()
  end.

(** [grid_search(X_train, y_train, model, params_to_test, X_test=None,
    y_test=None, balancing=False, n_splits=5, scoring="f1", n_jobs=-1,
    verbose=False, random_state=None)] *)
Definition grid_search
    (X_train : array_like float) (y_train : Series) (model : estimator)
    (params_to_test : param_space) (X_test : option (DataFrame float))
    (y_test : option Series) (balancing : bool) (n_splits : Z) (scoring : string)
    (n_jobs : Z) (verbose : bool) (random_state : option Z) : M (config * fitted) :=
  let grid_search_fit :=
    if balancing then
      let smotenc := SMOTENC cat_shape random_state n_jobs in
      let pipeline := make_pipeline smotenc model in
      let kf := {| n_splits := n_splits; kf_random_state := random_state |} in
      GridSearchCV_fit pipeline params_to_test kf n_jobs verbose scoring
    else
      let kf := {| n_splits := n_splits; kf_random_state := random_state |} in
      GridSearchCV_fit model params_to_test kf n_jobs verbose scoring in
  grid_search ← call (grid_search_fit X_train y_train);
  when_ verbose (report_search grid_search X_test y_test true);;
  let best_estimator := best_estimator_ grid_search in
  let best_params := best_params_ grid_search in
  mret (best_params, best_estimator).

(** [np.asarray(X)] on what the caller passed. *)
Definition as_array (X : array_like float) : array_like float :=
  match X with
  | Frame df => Array (np_asarray df)
  | Array a => Array a
  end.

(** [random_search(X_train, y_train, model, params_to_test, X_test=None,
    y_test=None, balancing=False, n_iter=100, n_splits=5, scoring="f1",
    n_jobs=-1, verbose=False, random_state=None)].  The call that builds
    [RandomizedSearchCV] names no [random_state], which leaves the searcher's
    own at its default [None]. *)
Definition random_search
    (X_train : array_like float) (y_train : Series) (model : estimator)
    (params_to_test : param_space) (X_test : option (DataFrame float))
    (y_test : option Series) (balancing : bool) (n_iter : Z) (n_splits : Z)
    (scoring : string) (n_jobs : Z) (verbose : bool) (random_state : option Z)
  : M (config * fitted) :=
  let rs_fit :=
    if balancing then
      let smotenc := SMOTENC cat_shape random_state n_jobs in
      let pipeline := make_pipeline smotenc model in
      let kf := {| n_splits := n_splits; kf_random_state := random_state |} in
      RandomizedSearchCV_fit pipeline params_to_test n_iter kf n_jobs verbose scoring None
    else
      let kf := {| n_splits := n_splits; kf_random_state := random_state |} in
      RandomizedSearchCV_fit model params_to_test n_iter kf n_jobs verbose scoring None in
  rs ← call (rs_fit (as_array X_train) y_train);
  when_ verbose (report_search rs X_test y_test false);;
  let best_estimator := best_estimator_ rs in
  let best_params := best_params_ rs in
  mret (best_params, best_estimator).


(** ** Scoring a fitted estimator on held-out data *)

(** [estimator.predict_proba]: an estimator without the method has no such
    attribute. *)
Definition get_predict_proba (estimator : fitted)
  : outcome (array_like float → outcome (ndarray float)) :=
  match predict_proba estimator with
  | Some f => Returned f
  | None => Raised (AttributeError "predict_proba")
  end.

(** The text that introduces the confusion matrix in [score_report]. *)
Definition confusion_legend_report : string := "
               TN FP
               FN TP
               ".

(** [f"{name}"] for a name that may be [None] *)
Definition str_name (name : option string) : string := default "None" name.

(** [score_report(estimator, X_test, y_test, verbose=False, plot=False, name=None)].
    The axis labels and limits of the figure are not recorded. *)
Definition score_report
    (estimator : fitted) (X_test : array_like float) (y_test : Series)
    (verbose plot : bool) (name : option string) : M (gmap string float) :=
  let y_true := y_test in
  y_pred ← lift (predict estimator X_test);
  proba ← lift (get_predict_proba estimator);
  y_score ← lift (proba X_test);
  y_score ← lift (column_at y_score 1);
  f1_micr_score ← lift (f1_score y_true y_pred "micro");
  f1_macro_score ← lift (f1_score y_true y_pred "macro");
  f1_s_score ← lift (f1_score y_true y_pred "binary");
  auc ← lift (roc_auc_score y_true y_pred);
  rec ← lift (recall_score y_true y_pred "binary");
  prec ← lift (precision_score y_true y_pred "binary");
  average_precision ← lift (average_precision_score y_true y_score);
  when_ verbose (
    print "";;
    print "The scores are computed on the full evaluation set";;
    print "These are not used to train or optimize the model";;
    print "";;
    print "Detailed classification report:";;
    rep ← lift (classification_report y_true y_pred);
    print rep;;
    print "";;
    print "Confusion matrix as:";;
    print confusion_legend_report;;
    cm ← lift (confusion_matrix y_true y_pred);
    print cm;;
    print "";;
    print "Individual metrics:";;
    print ("F1 Micro score: " +:+ format_float 3 f1_micr_score);;
    print ("F1 Macro score: " +:+ format_float 3 f1_macro_score);;
    print ("F1 Binary score: " +:+ format_float 3 f1_s_score);;
    print ("AUROC score: " +:+ format_float 3 auc);;
    print ("Recall score: " +:+ format_float 3 rec);;
    print ("Precision score: " +:+ format_float 3 prec);;
    print ("Average precision-recall score: " +:+ format_float 3 average_precision);;
    print "");;
  when_ plot (
    '(precision, recall, _) ← lift (precision_recall_curve y_true y_score);
    emit (PlotStep recall precision);;
    emit (PlotFill recall precision);;
    emit (PlotTitle (str_name name +:+ " 
 Precision-Recall curve: AP=" +:+ format_float 2 average_precision));;
    emit (SaveFig ("./results/" +:+ str_name name +:+ " Precision-Recall curve.png")));;
  mret (<["f1_micr_score" := f1_micr_score]> (<["auc_score" := auc]> (
        <["rec_score" := rec]> (<["prec_score" := prec]> (
        <["f1_macro_score" := f1_macro_score]> (<["f1_s_score" := f1_s_score]> (
        <["prec_rec_score" := average_precision]> ∅))))))).

(** ** Cross-validated scores *)

(** [np.mean(scores[key])] *)
Definition mean_of (scores : gmap string (list float)) (key : string) : outcome float :=
  v ← getitem scores key; Returned (np_mean v).

(** [np.std(scores[key])] *)
Definition std_of (scores : gmap string (list float)) (key : string) : outcome float :=
  v ← getitem scores key; Returned (np_std v).

(** [f"{title}: Mean: {m:.3f} (Std: {s:.3f})"] *)
Definition mean_std_line (title : string) (m s : float) : string :=
  title +:+ ": Mean: " +:+ format_float 3 m +:+ " (Std: " +:+ format_float 3 s +:+ ")".

(** The default of [scoring_metrics], which [cv_multi_report] passes too. *)
Definition scoring_metrics_default : list string :=
  ["f1_micro"; "f1_macro"; "f1"; "roc_auc"; "recall"; "precision"; "average_precision"].

(** [cv_report(estimator, X_train, y_train, balancing=False, n_splits=5,
    scoring_metrics=(...), random_state=None, n_jobs=-1, verbose=False)] *)
Definition cv_report
    (estimator : estimator) (X_train : array_like float) (y_train : Series)
    (balancing : bool) (n_splits : Z) (scoring_metrics : list string)
    (random_state : option Z) (n_jobs : Z) (verbose : bool) : M (gmap string float) :=
  scores ←
    (if balancing then
       let smotenc := SMOTENC cat_shape random_state n_jobs in
       let pipeline := make_pipeline smotenc estimator in
       let kf := {| n_splits := n_splits; kf_random_state := random_state |} in
       call (cross_validate pipeline (as_array X_train) y_train scoring_metrics kf
               n_jobs verbose)
     else
       let kf := {| n_splits := n_splits; kf_random_state := random_state |} in
       call (cross_validate estimator (as_array X_train) y_train scoring_metrics kf
               n_jobs verbose));
  f1_s ← lift (mean_of scores "test_f1_micro");
  f1_ms ← lift (mean_of scores "test_f1_macro");
  f1_bs ← lift (mean_of scores "test_f1");
  auc_s ← lift (mean_of scores "test_roc_auc");
  rec_s ← lift (mean_of scores "test_recall");
  prec_s ← lift (mean_of scores "test_precision");
  avp_s ← lift (mean_of scores "test_average_precision");
  f1_std ← lift (std_of scores "test_f1_micro");
  f1_mstd ← lift (std_of scores "test_f1_macro");
  f1_bstd ← lift (std_of scores "test_f1");
  auc_std ← lift (std_of scores "test_roc_auc");
  rec_std ← lift (std_of scores "test_recall");
  prec_std ← lift (std_of scores "test_precision");
  avp_std ← lift (std_of scores "test_average_precision");
  when_ verbose (
    print "";;
    print "Individual metrics";;
    print (mean_std_line "F1 Micro Score" f1_s f1_std);;
    print (mean_std_line "F1 Macro Score" f1_ms f1_mstd);;
    print (mean_std_line "F1 Binary Score" f1_bs f1_bstd);;
    print (mean_std_line "AUROC score" auc_s auc_std);;
    print (mean_std_line "Recall score" rec_s rec_std);;
    print (mean_std_line "Precision score" prec_s prec_std);;
    print (mean_std_line "Average Precision score" avp_s avp_std);;
    print "");;
  mret (<["f1_micr_score" := f1_s]> (<["f1_micr_std" := f1_std]> (
        <["auc_score" := auc_s]> (<["auc_std" := auc_std]> (
        <["rec_score" := rec_s]> (<["rec_std" := rec_std]> (
        <["prec_score" := prec_s]> (<["prec_std" := prec_std]> (
        <["f1_macro_score" := f1_ms]> (<["f1_macro_std" := f1_mstd]> (
        <["f1_score" := f1_bs]> (<["f1_std" := f1_bstd]> (
        <["avp_score" := avp_s]> (<["avp_std" := avp_std]> ∅)))))))))))))).


(** ** The summary table *)

(** A table of scores: its row labels, its column labels, and the cells that
    have been given a value, by row and column label.  A cell without a value
    reads [NaN]. *)
Record table : Type := {
  index : list string;
  report_columns : list string;
  cells : gmap (string * string) float;
}.

(** [pd.DataFrame(columns=cols, index=out_names)] *)
Definition empty_report (cols out_names : list string) : table :=
  {| index := out_names; report_columns := cols; cells := ∅ |}.

(** [report.loc[name, col] = v]: a label that is not in the table yet is
    appended to its axis. *)
Definition loc_set (r : table) (name col : string) (v : float) : table :=
  {| index := append_if_new (index r) name;
     report_columns := append_if_new (report_columns r) col;
     cells := <[(name, col) := v]> (cells r) |}.

(** [report.apply(pd.to_numeric)]: the cells hold Python floats or [NaN],
    which [pd.to_numeric] keeps as they are while it gives their column a
    floating-point storage type. *)
Definition apply_to_numeric (r : table) : table := r.

(** [round(float(scores[key]), 3)] *)
Definition rounded (scores : gmap string float) (key : string) : outcome float :=
  v ← getitem scores key; Returned (py_round v 3).

(** One iteration of the loop of both reporting functions: the scores of
    the label are computed, and either the function returns [None] from inside
    the loop or the scores are written to the row of the label. *)
Definition label_step
    (scores_of : string → M (option (gmap string float)))
    (fill : table → string → gmap string float → outcome table)
    (name : string) (report : table) : M (flow table (option table)) :=
  scores ← scores_of name;
  match scores with
  | None => mret (Return None)
  | Some scores => report ← lift (fill report name scores); mret (Continue report)
  end.

(** ** Per-label estimators from a best-parameter map *)

(** The [spec_params] argument: [None], a dictionary from label to
    configuration, or (for the voting ensemble) a list of such dictionaries. *)
Inductive spec_params_t : Type :=
| NoParams
| ByLabel (d : gmap string config)
| ByFamily (l : list (gmap string config)).

(** [if spec_params:] *)
Definition truth_of_spec_params (sp : spec_params_t) : bool :=
  match sp with
  | NoParams => false
  | ByLabel d => bool_decide (d ≠ ∅)
  | ByFamily l => bool_decide (l ≠ [])
  end.

Definition not_subscriptable : exn := TypeError "'NoneType' object is not subscriptable".

(** [spec_params[name][key]] *)
Definition param (sp : spec_params_t) (name key : string) : outcome pyval :=
  match sp with
  | NoParams => Raised not_subscriptable
  | ByLabel d => c ← getitem d name; getitem c key
  | ByFamily _ => Raised (TypeError "list indices must be integers or slices, not str")
  end.

(** [spec_params[i][name][key]] *)
Definition param_of_family (sp : spec_params_t) (i : nat) (name key : string)
  : outcome pyval :=
  match sp with
  | NoParams => Raised not_subscriptable
  | ByLabel _ => Raised (KeyError (pretty i))
  | ByFamily l =>
      match l !! i with
      | Some d => c ← getitem d name; getitem c key
      | None => Raised (IndexError "list index out of range")
      end
  end.

(** [modelname[name]] *)
Definition modelname_at (modelname : option (gmap string string)) (name : string)
  : outcome string :=
  match modelname with
  | None => Raised not_subscriptable
  | Some d => getitem d name
  end.

(** [est.set_params(k1=v1, ...)] on one of the three classifier families. *)
Definition set_params (est : estimator) (kv : list (string * pyval)) : estimator :=
  let upd (p : config) := foldl (λ p kv, <[kv.1 := kv.2]> p) p kv in
  match est with
  | SVC rs pr p => SVC rs pr (upd p)
  | RandomForestClassifier n rs p => RandomForestClassifier n rs (upd p)
  | XGBClassifier o rs p => XGBClassifier o rs (upd p)
  | other => other
  end.

(** The support-vector classifier of a label; [get] reads a parameter of
    that label. *)
Definition svc_model (get : string → outcome pyval) (random_state : option Z)
  : outcome estimator :=
  let model := SVC random_state true ∅ in
  C ← get "svc__C";
  gamma ← get "svc__gamma";
  kernel ← get "svc__kernel";
  Returned (set_params model [("C", C); ("gamma", gamma); ("kernel", kernel)]).

(** The random forest of a label. *)
Definition rf_model (get : string → outcome pyval) (random_state : option Z)
  : outcome estimator :=
  let model := RandomForestClassifier 100 random_state ∅ in
  bootstrap ← get "randomforestclassifier__bootstrap";
  max_depth ← get "randomforestclassifier__max_depth";
  max_features ← get "randomforestclassifier__max_features";
  min_samples_leaf ← get "randomforestclassifier__min_samples_leaf";
  min_samples_split ← get "randomforestclassifier__min_samples_split";
  n_estimators ← get "randomforestclassifier__n_estimators";
  Returned (set_params model
    [("bootstrap", bootstrap); ("max_depth", max_depth); ("max_features", max_features);
     ("min_samples_leaf", min_samples_leaf); ("min_samples_split", min_samples_split);
     ("n_estimators", n_estimators)]).

(** The gradient-boosted trees of a label. *)
Definition xgb_model (get : string → outcome pyval) (random_state : option Z)
  : outcome estimator :=
  let model := XGBClassifier "binary:logistic" random_state ∅ in
  colsample_bytree ← get "xgbclassifier__colsample_bytree";
  eta ← get "xgbclassifier__eta";
  gamma ← get "xgbclassifier__gamma";
  max_depth ← get "xgbclassifier__max_depth";
  min_child_weight ← get "xgbclassifier__min_child_weight";
  subsample ← get "xgbclassifier__subsample";
  Returned (set_params model
    [("colsample_bytree", colsample_bytree); ("eta", eta); ("gamma", gamma);
     ("max_depth", max_depth); ("min_child_weight", min_child_weight);
     ("subsample", subsample)]).

(** The soft-voting ensemble of a label: the three models are built first,
    then each is given its parameters. *)
Definition voting_model (sp : spec_params_t) (name : string) (random_state : option Z)
    (n_jobs : Z) : outcome estimator :=
  model_svc ← svc_model (param_of_family sp 0 name) random_state;
  model_rf ← rf_model (param_of_family sp 1 name) random_state;
  model_xgb ← xgb_model (param_of_family sp 2 name) random_state;
  Returned (VotingClassifier [("svc", model_svc); ("rf", model_rf); ("xgb", model_xgb)]
              "soft" n_jobs).

(** The message of both reporting functions for a tag they do not know. *)
Definition specify_model : string := "Please specify used model (SVC, RF, XGB)".

(** The chain of comparisons on [modelname[name]] in [cv_multi_report]:
    the estimator of the label, or nothing when no comparison holds. *)
Definition model_temp_cv (tag : string) (sp : spec_params_t) (name : string)
    (random_state : option Z) (n_jobs : Z) : outcome (option estimator) :=
  if decide (tag = "SVC") then Some <$> svc_model (param sp name) random_state
  else if decide (tag = "RF") then Some <$> rf_model (param sp name) random_state
  else if decide (tag = "XGB") then Some <$> xgb_model (param sp name) random_state
  else if decide (tag = "VotingClassifier")
       then Some <$> voting_model sp name random_state n_jobs
  else Returned None.

(** The same chain in [test_score_multi_report], which has no branch for
    the voting ensemble. *)
Definition model_temp_test (tag : string) (sp : spec_params_t) (name : string)
    (random_state : option Z) : outcome (option estimator) :=
  if decide (tag = "SVC") then Some <$> svc_model (param sp name) random_state
  else if decide (tag = "RF") then Some <$> rf_model (param sp name) random_state
  else if decide (tag = "XGB") then Some <$> xgb_model (param sp name) random_state
  else Returned None.


(** ** The cross-validated report *)

(** The column labels that [cv_multi_report] creates its table with. *)
Definition cv_columns : list string :=
  ["F1 Binary"; "F1 Micro"; "F1 Macro"; "ROC_AUC"; "Recall"; "Precision";
   "Average Precision"].

(** The seven assignments [report.loc[name, ...] = round(float(scores[...]), 3)]
    of [cv_multi_report]. *)
Definition fill_cv (report : table) (name : string) (scores : gmap string float)
  : outcome table :=
  v ← rounded scores "f1_micr_score"; let report := loc_set report name "F1 Micro" v in
  v ← rounded scores "f1_macro_score"; let report := loc_set report name "F1 Macro" v in
  v ← rounded scores "f1_score"; let report := loc_set report name "F1 Binary" v in
  v ← rounded scores "auc_score"; let report := loc_set report name "ROC_AUC" v in
  v ← rounded scores "rec_score"; let report := loc_set report name "Recall" v in
  v ← rounded scores "prec_score"; let report := loc_set report name "Precision" v in
  v ← rounded scores "avp_score";
  let report := loc_set report name "Average Precision" v in
  Returned report.

(** What one iteration of [cv_multi_report] does before it writes to the
    table: the scores of the label, or nothing when the function prints its
    message and returns [None]. *)
Definition cv_label_scores
    (X_train_dic : gmap string (array_like float)) (y_train : gmap string Series)
    (model : estimator) (balancing : bool) (modelname : option (gmap string string))
    (spec_params : spec_params_t) (random_state : option Z) (n_splits n_jobs : Z)
    (verbose : bool) (name : string) : M (option (gmap string float)) :=
  let scoring_metrics := scoring_metrics_default in
  when_ verbose (print "";; print ("Scores for " +:+ name));;
  model_temp ←
    (if truth_of_spec_params spec_params then
       tag ← lift (modelname_at modelname name);
       lift (model_temp_cv tag spec_params name random_state n_jobs)
     else mret (Some model));
  match model_temp with
  | None => print specify_model;; mret None
  | Some estimator =>
      X ← lift (getitem X_train_dic name);
      y ← lift (getitem y_train name);
      scores ← cv_report estimator X y balancing n_splits scoring_metrics random_state
                 n_jobs verbose;
      mret (Some scores)
  end.

(** [cv_multi_report(X_train_dic, y_train, out_names, model=None,
    balancing=False, modelname=None, spec_params=None, random_state=None,
    n_splits=5, n_jobs=-1, verbose=False)] *)
Definition cv_multi_report
    (X_train_dic : gmap string (array_like float)) (y_train : gmap string Series)
    (out_names : list string) (model : estimator) (balancing : bool)
    (modelname : option (gmap string string)) (spec_params : spec_params_t)
    (random_state : option Z) (n_splits n_jobs : Z) (verbose : bool)
  : M (option table) :=
  let report := empty_report cv_columns out_names in
  r ← for_loop out_names
        (label_step
           (cv_label_scores X_train_dic y_train model balancing modelname spec_params
              random_state n_splits n_jobs verbose)
           fill_cv) report;
  match r with
  | Return v => mret v
  | Continue report => mret (Some (apply_to_numeric report))
  end.

(** ** The held-out report *)

(** The column labels that [test_score_multi_report] creates its table with. *)
Definition test_columns : list string :=
  ["F1 Binary"; "F1 Micro"; "F1 Macro"; "ROC_AUC"; "Recall"; "Precision"].

(** The seven assignments of [test_score_multi_report]. *)
Definition fill_test (report : table) (name : string) (scores : gmap string float)
  : outcome table :=
  v ← rounded scores "f1_micr_score"; let report := loc_set report name "F1 Micro" v in
  v ← rounded scores "f1_macro_score"; let report := loc_set report name "F1 Macro" v in
  v ← rounded scores "f1_s_score"; let report := loc_set report name "F1 Binary" v in
  v ← rounded scores "auc_score"; let report := loc_set report name "ROC_AUC" v in
  v ← rounded scores "rec_score"; let report := loc_set report name "Recall" v in
  v ← rounded scores "prec_score"; let report := loc_set report name "Precision" v in
  v ← rounded scores "prec_rec_score";
  let report := loc_set report name "Average Prec-Rec" v in
  Returned report.

(** The fitting and scoring of one label, the same text in both branches of
    [if spec_params:].  Without balancing the method [fit] of the model is
    looked up before the arguments of the call are evaluated, and Python's
    [None] has no such method. *)
Definition fit_and_score
    (X_train_dic : gmap string (array_like float)) (y_train : gmap string Series)
    (X_test : gmap string (array_like float)) (y_test : gmap string Series)
    (model : estimator) (balancing : bool) (random_state : option Z)
    (plot verbose : bool) (n_jobs : Z) (name : string) : M (gmap string float) :=
  if balancing then
    let smotenc := SMOTENC cat_shape random_state n_jobs in
    let pipeline := make_pipeline smotenc model in
    X ← lift (getitem X_train_dic name);
    y ← lift (getitem y_train name);
    pipeline ← call (fit pipeline (as_array X) y);
    Xt ← lift (getitem X_test name);
    yt ← lift (getitem y_test name);
    score_report pipeline (as_array Xt) yt verbose plot (Some name)
  else
    match model with
    | NoneModel => lift (Raised (AttributeError "fit"))
    | _ =>
        X ← lift (getitem X_train_dic name);
        y ← lift (getitem y_train name);
        fitted_model ← call (fit model (as_array X) y);
        Xt ← lift (getitem X_test name);
        yt ← lift (getitem y_test name);
        score_report fitted_model (as_array Xt) yt verbose plot (Some name)
    end.

(** What one iteration of [test_score_multi_report] does before it writes
    to the table. *)
Definition test_label_scores
    (X_train_dic : gmap string (array_like float)) (y_train : gmap string Series)
    (X_test : gmap string (array_like float)) (y_test : gmap string Series)
    (model : estimator) (modelname : option (gmap string string))
    (spec_params : spec_params_t) (balancing : bool) (random_state : option Z)
    (plot verbose : bool) (n_jobs : Z) (name : string) : M (option (gmap string float)) :=
  when_ verbose (print "";; print ("Scores for " +:+ name));;
  model_temp ←
    (if truth_of_spec_params spec_params then
       tag ← lift (modelname_at modelname name);
       lift (model_temp_test tag spec_params name random_state)
     else mret (Some model));
  match model_temp with
  | None => print specify_model;; mret None
  | Some estimator =>
      scores ← fit_and_score X_train_dic y_train X_test y_test estimator balancing
                 random_state plot verbose n_jobs name;
      mret (Some scores)
  end.

(** [test_score_multi_report(X_train_dic, y_train, X_test, y_test, out_names,
    model=None, modelname=None, spec_params=None, balancing=False,
    random_state=None, plot=False, verbose=False, n_jobs=-1)] *)
Definition test_score_multi_report
    (X_train_dic : gmap string (array_like float)) (y_train : gmap string Series)
    (X_test : gmap string (array_like float)) (y_test : gmap string Series)
    (out_names : list string) (model : estimator)
    (modelname : option (gmap string string)) (spec_params : spec_params_t)
    (balancing : bool) (random_state : option Z) (plot verbose : bool) (n_jobs : Z)
  : M (option table) :=
  let report := empty_report test_columns out_names in
  r ← for_loop out_names
        (label_step
           (test_label_scores X_train_dic y_train X_test y_test model modelname
              spec_params balancing random_state plot verbose n_jobs)
           fill_test) report;
  match r with
  | Return v => mret v
  | Continue report => mret (Some (apply_to_numeric report))
  end.


(** ** Remote lookup of SMILES strings *)

(** The longest prefix of zeros is dropped: the [[0]*] of the pattern. *)
Fixpoint strip_zeros (s : string) : string :=
  match s with
  | String "0"%char s' => strip_zeros s'
  | _ => s
  end.

(** [re.sub("^CID[0]*", "", cid)]: the pattern matches at the start of the
    string only, so at most one occurrence is replaced. *)
Definition trim_cid (cid : string) : string :=
  match cid with
  | String "C"%char (String "I"%char (String "D"%char rest)) => strip_zeros rest
  | _ => cid
  end.

(** The line-feed character. *)
Definition LF : ascii := Ascii.ascii_of_nat 10.

(** [s.lstrip("\n")] *)
Fixpoint lstrip_newlines (s : string) : string :=
  match s with
  | String c s' => if decide (c = LF) then lstrip_newlines s' else s
  | EmptyString => EmptyString
  end.

(** [s.rstrip("\n")] *)
Fixpoint rstrip_newlines (s : string) : string :=
  match s with
  | String c s' =>
      match rstrip_newlines s' with
      | EmptyString => if decide (c = LF) then EmptyString else String c EmptyString
      | t => String c t
      end
  | EmptyString => EmptyString
  end.

(** [s.strip("\n")] *)
Definition strip_newlines (s : string) : string := rstrip_newlines (lstrip_newlines s).

(** The address that [get_smile_from_cid] asks for a trimmed identifier. *)
Definition smiles_url (ct : string) : string :=
  "https://pubchem.ncbi.nlm.nih.gov/rest/pug/compound/cid/" +:+ ct
  +:+ "/property/CanonicalSMILES/txt".

(** [get_smile_from_cid(cid)] *)
Definition get_smile_from_cid (cid : string) : M string :=
  let ct := trim_cid cid in
  emit (HttpGet (smiles_url ct));;
  res ← call (requests_get (smiles_url ct));
  match raise_for_status res with
  | Returned _ => mret ()
  | Raised e => print ("Problem retrieving smile for " +:+ cid +:+ ": " +:+ str_exn e)
  end;;
  let res_t := strip_newlines (text res) in
  mret res_t.

(** A cell of the off-label table: a string or an integer. *)
Inductive obj : Type :=
| Str (s : string)
| Int (z : Z).

#[export] Instance obj_eq_dec : EqDecision obj.
Proof. solve_decision. Defined.

(** [stitch_id.unique()]: the distinct values in order of first appearance. *)
Definition unique (l : list string) : list string := extend_selected [] l.

(** [df[name]] *)
Definition column_of (df : DataFrame obj) (name : string) : outcome (list obj) :=
  match columns_named name df with
  | c :: _ => Returned c.2
  | [] => Raised (KeyError name)
  end.

(** [df[name] = col]: an existing column is replaced, a new one is appended. *)
Definition set_column (df : DataFrame obj) (name : string) (col : list obj) : DataFrame obj :=
  if decide (name ∈ columns df)
  then (λ c : string * list obj, if decide (c.1 = name) then (name, col) else c) <$> df
  else df ++ [(name, col)].

(** The number of rows of a frame that has at least one column. *)
Definition n_rows (df : DataFrame obj) : nat :=
  match df with
  | c :: _ => length c.2
  | [] => 0
  end.

(** [df.loc[mask, name] = v] for a column that exists. *)
Definition set_where (df : DataFrame obj) (mask : list bool) (name : string) (v : obj)
  : DataFrame obj :=
  (λ c : string * list obj,
     if decide (c.1 = name)
     then (c.1, zip_with (λ (b : bool) x, if b then v else x) mask c.2)
     else c) <$> df.

(** [df.drop(name, inplace=True, axis=1)] *)
Definition drop_column (df : DataFrame obj) (name : string) : outcome (DataFrame obj) :=
  if decide (name ∈ columns df)
  then Returned (filter (λ c, c.1 ≠ name) df)
  else Raised (KeyError name).

(** The dictionary comprehension
    [{stitch: get_smile_from_cid(stitch) for stitch in stitchs}]. *)
Definition smiles_of_stitchs (stitchs : list string) : M (gmap string string) :=
  for_each stitchs (λ stitch d,
    smile ← get_smile_from_cid stitch;
    mret (<[stitch := smile]> d)) ∅.

(** [create_offside_df(out_names, write=False)] *)
Definition create_offside_df (out_names : list string) (write : bool) : M (DataFrame obj) :=
  oss_df ← call read_offsides;
  let stitchs := unique oss_df.*1 in
  sti_to_smil ← smiles_of_stitchs stitchs;
  let mod_off : DataFrame obj := [("stitch_id", Str <$> stitchs)] in
  smiles ← for_each stitchs (λ x col,
    s ← lift (getitem sti_to_smil x); mret (col ++ [Str s])) [];
  let mod_off := set_column mod_off "smiles" smiles in
  let mod_off := foldl (λ df name, set_column df name (replicate (n_rows df) (Int 0)))
                   mod_off out_names in
  mod_off ← for_each oss_df (λ row mod_off,
    if decide (row.2 ∈ out_names) then
      ids ← lift (column_of mod_off "stitch_id");
      let mask := (λ x, bool_decide (x = Str row.1)) <$> ids in
      mret (set_where mod_off mask row.2 (Int 1))
    else mret mod_off) mod_off;
  mod_off ← lift (drop_column mod_off "stitch_id");
  when_ write (emit (ToCsv "./datasets/offside_socs_modified.csv"));;
  mret mod_off.


(** ** Notions that the properties are stated with *)

(** What [create_dataframes_dic] holds for a label once the label has been
    through the loop. *)
Definition label_entry
    (df_desc_base_train df_desc_base_test X_train_fp X_test_fp : DataFrame float)
    (y_train : gmap string Series) (score_func : score_function) (k : Z)
    (name : string) (d : dataframes_dic) : Prop :=
  ∃ y sel_col train_cols test_cols,
    y_train !! name = Some y ∧
    select_best_descriptors df_desc_base_train y score_func k = Returned sel_col ∧
    selected_name d !! name = Some (Some sel_col) ∧
    loc_names df_desc_base_train sel_col = Returned train_cols ∧
    loc_names df_desc_base_test sel_col = Returned test_cols ∧
    train_series_dic d !! name = Some (Some (concat_columns X_train_fp train_cols)) ∧
    test_series_dic d !! name = Some (Some (concat_columns X_test_fp test_cols)).

(** The mask that fits a matrix of [n_fp] fingerprint columns followed by
    [n_desc] descriptor columns: categorical on the former, continuous on the
    latter. *)
Definition layout_mask (n_fp n_desc : nat) : list bool :=
  replicate n_fp true ++ replicate n_desc false.

(** The rows of the table are written one label after the other. *)
Fixpoint fills (fill : table → string → gmap string float → outcome table)
    (report : table) (l : list (string * gmap string float)) : outcome table :=
  match l with
  | [] => Returned report
  | (name, scores) :: l' => report' ← fill report name scores; fills fill report' l'
  end.

(** The cell holds a float that was rounded to three decimals. *)
Definition rounded_cell (r : table) (name col : string) : Prop :=
  ∃ v, cells r !! (name, col) = Some (py_round v 3).

(** The world after some more events. *)
Definition after (w : world) (evs : list event) : world :=
  {| env := env w; trace := trace w ++ evs |}.

(** What both reporting functions print for a label under [verbose] before
    they look at its tag. *)
Definition heading (verbose : bool) (name : string) : list event :=
  if verbose then [Print ""; Print ("Scores for " +:+ name)] else [].

(** Two runs of a loop end the same way, up to the table they carry. *)
Definition same_flow {R} (a b : outcome (flow table R) * world) : Prop :=
  match a, b with
  | (Returned (Continue _), wa), (Returned (Continue _), wb) => wa = wb
  | (Returned (Return va), wa), (Returned (Return vb), wb) => va = vb ∧ wa = wb
  | (Raised ea, wa), (Raised eb, wb) => ea = eb ∧ wa = wb
  | _, _ => False
  end.

(** Whether writing a row succeeds does not depend on the table. *)
Definition fill_uniform (fill : table → string → gmap string float → outcome table) : Prop :=
  ∀ r1 r2 n s,
    match fill r1 n s, fill r2 n s with
    | Returned _, Returned _ => True
    | Raised e1, Raised e2 => e1 = e2
    | _, _ => False
    end.

(** [n] zeros in a row. *)
Fixpoint zeros (n : nat) : string :=
  match n with
  | O => ""
  | S n' => String "0"%char (zeros n')
  end.

(** What [get_smile_from_cid] prints for a response: nothing, or the
    problem with the identifier when [raise_for_status] raises. *)
Definition lookup_log (cid : string) (res : response) : list event :=
  match raise_for_status res with
  | Returned _ => []
  | Raised e => [Print ("Problem retrieving smile for " +:+ cid +:+ ": " +:+ str_exn e)]
  end.

(** The remote service answers every request, with whatever status. *)
Definition always_responds : Prop :=
  ∀ url e, is_Returned (requests_get url e).1.

(** ** The multi-label searches *)

(** The held-out targets that the multi-label searches may be given: a
    dictionary from label to target vector, or a frame with one column per
    label. *)
Inductive targets : Type :=
| TargetDict (d : gmap string Series)
| TargetFrame (d : gmap string Series).

(** [y_test[label]] *)
Definition targets_at (y : targets) (label : string) : outcome Series :=
  match y with
  | TargetDict d => getitem d label
  | TargetFrame d => getitem d label
  end.

(** The truth value of an optional dictionary: [None] and the empty
    dictionary are false. *)
Definition truth_of_dict {A} (d : option (gmap string A)) : bool :=
  match d with
  | None => false
  | Some d => bool_decide (d ≠ ∅)
  end.

(** The truth value of the held-out targets: a frame has none. *)
Definition truth_of_targets (y : option targets) : outcome bool :=
  match y with
  | None => Returned false
  | Some (TargetDict d) => Returned (bool_decide (d ≠ ∅))
  | Some (TargetFrame _) => Raised (ValueError "The truth value of a DataFrame is ambiguous")
  end.

(** [X_test and y_test] on the arguments of the multi-label searches. *)
Definition test_set_given {A} (X_test : option (gmap string A)) (y_test : option targets)
  : outcome bool :=
  if truth_of_dict X_test then truth_of_targets y_test else Returned false.

(** The loop of both multi-label searches: the label is announced, its
    search is run and its best parameters are stored.  [search] runs the
    search of one label on the training matrix, the training targets, the
    parameter space and the optional held-out pair. *)
Definition multi_label_loop
    (search : array_like float → Series → param_space → option (DataFrame float) →
              option Series → M (config * fitted))
    (X_train_dic : gmap string (array_like float)) (y_train : gmap string Series)
    (params_to_test : gmap string param_space)
    (test : option (gmap string (DataFrame float) * targets))
    (label : string) (best_params_by_label : gmap string (option config))
  : M (gmap string (option config)) :=
  print "";;
  print ("Scores for " +:+ label);;
  X ← lift (getitem X_train_dic label);
  y ← lift (getitem y_train label);
  params ← lift (getitem params_to_test label);
  held_out ←
    match test with
    | Some (X_test, y_test) =>
        Xt ← lift (getitem X_test label);
        yt ← lift (targets_at y_test label);
        mret (Some Xt, Some yt)
    | None => mret (None, None)
    end;
  '(best_params, _) ← search X y params held_out.1 held_out.2;
  mret (<[label := Some best_params]> best_params_by_label).

(** The two branches of [if X_test and y_test:] around that loop. *)
Definition multi_label_search
    (search : array_like float → Series → param_space → option (DataFrame float) →
              option Series → M (config * fitted))
    (X_train_dic : gmap string (array_like float)) (y_train : gmap string Series)
    (out_names : list string) (params_to_test : gmap string param_space)
    (X_test : option (gmap string (DataFrame float))) (y_test : option targets)
  : M (gmap string (option config)) :=
  let best_params_by_label := dict_of_None out_names in
  given ← lift (test_set_given X_test y_test);
  match given, X_test, y_test with
  | true, Some X_test, Some y_test =>
      for_each out_names
        (multi_label_loop search X_train_dic y_train params_to_test (Some (X_test, y_test)))
        best_params_by_label
  | _, _, _ =>
      for_each out_names
        (multi_label_loop search X_train_dic y_train params_to_test None)
        best_params_by_label
  end.

(** [multi_label_grid_search(X_train_dic, y_train, out_names, model,
    params_to_test, balancing=False, X_test=None, y_test=None, n_splits=5,
    scoring="f1", n_jobs=-1, verbose=False, random_state=None)] *)
Definition multi_label_grid_search
    (X_train_dic : gmap string (array_like float)) (y_train : gmap string Series)
    (out_names : list string) (model : estimator)
    (params_to_test : gmap string param_space) (balancing : bool)
    (X_test : option (gmap string (DataFrame float))) (y_test : option targets)
    (n_splits : Z) (scoring : string) (n_jobs : Z) (verbose : bool)
    (random_state : option Z) : M (gmap string (option config)) :=
  multi_label_search
    (λ X y params Xt yt,
       grid_search X y model params Xt yt balancing n_splits scoring n_jobs verbose
         random_state)
    X_train_dic y_train out_names params_to_test X_test y_test.

(** [multi_label_random_search(X_train_dic, y_train, out_names, model,
    params_to_test, balancing=False, X_test=None, y_test=None, n_iter=100,
    n_splits=5, scoring="f1", n_jobs=-1, verbose=False, random_state=None)] *)
Definition multi_label_random_search
    (X_train_dic : gmap string (array_like float)) (y_train : gmap string Series)
    (out_names : list string) (model : estimator)
    (params_to_test : gmap string param_space) (balancing : bool)
    (X_test : option (gmap string (DataFrame float))) (y_test : option targets)
    (n_iter n_splits : Z) (scoring : string) (n_jobs : Z) (verbose : bool)
    (random_state : option Z) : M (gmap string (option config)) :=
  multi_label_search
    (λ X y params Xt yt,
       random_search X y model params Xt yt balancing n_iter n_splits scoring n_jobs
         verbose random_state)
    X_train_dic y_train out_names params_to_test X_test y_test.

(** ** More notions that the properties are stated with *)

(** The lines of [print_scores]: one for every triple of [zip]. *)
Fixpoint score_lines (means stds : list float) (params : list config) : list event :=
  match means, stds, params with
  | mean :: means', std :: stds', p :: params' =>
      Print (format_float 3 mean +:+ " (+/-" +:+ format_float 3 (float_mul std float_1_96)
             +:+ ") for " +:+ repr_config p)
      :: score_lines means' stds' params'
  | _, _, _ => []
  end.

(** What a search prints under [verbose] before it looks at the held-out
    pair. *)
Definition search_lines (s : search) : list event :=
  [Print ""; Print "Score for development set:"]
  ++ score_lines (mean_test_score (cv_results_ s)) (std_test_score (cv_results_ s))
       (cv_params (cv_results_ s))
  ++ [Print ""; Print ""; Print "Best parameters set found:";
      Print (repr_config (best_params_ s)); Print ""].

(** The estimator that a search hands to the library. *)
Definition searched_estimator (balancing : bool) (model : estimator)
    (random_state : option Z) (n_jobs : Z) : estimator :=
  if balancing then make_pipeline (SMOTENC cat_shape random_state n_jobs) model else model.

(** The announcement of a label by the multi-label searches. *)
Definition announcement (label : string) : list event :=
  [Print ""; Print ("Scores for " +:+ label)].

(** The labels are scored one after the other, each from the world that the
    one before has left. *)
Inductive label_runs (scores_of : string → M (option (gmap string float)))
  : list string → world → list (string * gmap string float) → world → Prop :=
| label_runs_nil w : label_runs scores_of [] w [] w
| label_runs_cons name names w scores w1 scs w' :
    scores_of name w = (Returned (Some scores), w1) →
    label_runs scores_of names w1 scs w' →
    label_runs scores_of (name :: names) w ((name, scores) :: scs) w'.

(** Which score of [cv_report] goes to which column of the table. *)
Definition cv_mapping : list (string * string) :=
  [("F1 Micro", "f1_micr_score"); ("F1 Macro", "f1_macro_score"); ("F1 Binary", "f1_score");
   ("ROC_AUC", "auc_score"); ("Recall", "rec_score"); ("Precision", "prec_score");
   ("Average Precision", "avp_score")].

(** Which score of [score_report] goes to which column of the table. *)
Definition test_mapping : list (string * string) :=
  [("F1 Micro", "f1_micr_score"); ("F1 Macro", "f1_macro_score"); ("F1 Binary", "f1_s_score");
   ("ROC_AUC", "auc_score"); ("Recall", "rec_score"); ("Precision", "prec_score");
   ("Average Prec-Rec", "prec_rec_score")].

(** The keys of the dictionary that [cross_validate] must return for
    [cv_report] to go through, in the order in which they are read. *)
Definition cv_keys : list string :=
  ["test_f1_micro"; "test_f1_macro"; "test_f1"; "test_roc_auc"; "test_recall";
   "test_precision"; "test_average_precision"].

(** The event is an HTTP request. *)
Definition is_request (ev : event) : bool :=
  match ev with
  | HttpGet _ => true
  | _ => false
  end.

(** [n] line feeds in a row. *)
Fixpoint line_feeds (n : nat) : string :=
  match n with
  | O => ""
  | S n' => String LF (line_feeds n')
  end.

(** The first character of a string, if any. *)
Definition first_char (s : string) : option ascii :=
  match s with
  | String c _ => Some c
  | EmptyString => None
  end.

(** The last character of a string, if any. *)
Fixpoint last_char (s : string) : option ascii :=
  match s with
  | EmptyString => None
  | String c EmptyString => Some c
  | String _ s' => last_char s'
  end.

(** One iteration of the first loop of [balance_dataset]. *)
Definition balance_step
    (X_train_dic : gmap string (array_like float)) (y_train_dic : gmap string Series)
    (random_state : option Z) (n_jobs : Z) (label : string) (bal : balanced_dic)
  : M balanced_dic :=
  X_imb ← lift (getitem X_train_dic label);
  y_imb ← lift (getitem y_train_dic label);
  '(X_bal, y_bal) ← call (fit_resample (SMOTENC cat_shape random_state n_jobs) X_imb y_imb);
  mret {| train_series_dic_bal := <[label := Some X_bal]> (train_series_dic_bal bal);
          y_dic_bal := <[label := Some y_bal]> (y_dic_bal bal) |}.

(** One iteration of its second loop, which prints the class counts. *)
Definition counts_step (y_train_dic : gmap string Series) (bal : balanced_dic)
    (label : string) (_ : unit) : M unit :=
  print ("For " +:+ label);;
  y ← lift (getitem y_train_dic label);
  print (repr_counts y);;
  y_b ← lift (getitem (y_dic_bal bal) label);
  print (match y_b with Some y' => repr_counts y' | None => "[]" end).

(** What [balance_dataset] holds for a label that has been through the
    first loop: the pair that the sampler returned for the matrix and the
    targets of that label. *)
Definition balanced_entry
    (X_train_dic : gmap string (array_like float)) (y_train_dic : gmap string Series)
    (random_state : option Z) (n_jobs : Z) (label : string) (bal : balanced_dic) : Prop :=
  ∃ X_imb y_imb e X_bal y_bal e',
    X_train_dic !! label = Some X_imb ∧
    y_train_dic !! label = Some y_imb ∧
    fit_resample (SMOTENC cat_shape random_state n_jobs) X_imb y_imb e
      = (Returned (X_bal, y_bal), e') ∧
    train_series_dic_bal bal !! label = Some (Some X_bal) ∧
    y_dic_bal bal !! label = Some (Some y_bal).

(** What a multi-label search holds for a label that has been through its
    loop: the best parameters of a run of [search] on the matrix, the targets
    and the parameter space of that very label. *)
Definition searched_entry
    (search : array_like float → Series → param_space → option (DataFrame float) →
              option Series → M (config * fitted))
    (X_train_dic : gmap string (array_like float)) (y_train : gmap string Series)
    (params_to_test : gmap string param_space)
    (label : string) (best_params_by_label : gmap string (option config)) : Prop :=
  ∃ X y params Xt yt w1 best_params best_estimator w2,
    X_train_dic !! label = Some X ∧
    y_train !! label = Some y ∧
    params_to_test !! label = Some params ∧
    search X y params Xt yt w1 = (Returned (best_params, best_estimator), w2) ∧
    best_params_by_label !! label = Some (Some best_params).

(** A search that prints nothing when it returns. *)
Definition quiet
    (search : array_like float → Series → param_space → option (DataFrame float) →
              option Series → M (config * fitted)) : Prop :=
  ∀ X y params Xt yt w r w',
    search X y params Xt yt w = (Returned r, w') → trace w' = trace w.

(** A search that never returns when it is given a held-out matrix. *)
Definition refuses_held_out
    (search : array_like float → Series → param_space → option (DataFrame float) →
              option Series → M (config * fitted)) : Prop :=
  ∀ X y params Xt yt w, is_Raised (search X y params (Some Xt) yt w).1.

(** The outcome [o] is a value, and the dictionary holds it under [key]. *)
Definition holds (scores : gmap string float) (key : string) (o : outcome float) : Prop :=
  ∃ v, o = Returned v ∧ scores !! key = Some v.

(** The keys of the dictionary that [score_report] returns. *)
Definition score_keys : list string :=
  ["f1_micr_score"; "auc_score"; "rec_score"; "prec_score"; "f1_macro_score"; "f1_s_score";
   "prec_rec_score"].

(** The event is a printed line. *)
Definition is_print (ev : event) : Prop := ∃ line, ev = Print line.

(** Under which key [cv_report] returns the mean of which entry of the
    cross-validation scores. *)
Definition cv_means : list (string * string) :=
  [("f1_micr_score", "test_f1_micro"); ("f1_macro_score", "test_f1_macro");
   ("f1_score", "test_f1"); ("auc_score", "test_roc_auc"); ("rec_score", "test_recall");
   ("prec_score", "test_precision"); ("avp_score", "test_average_precision")].

(** The keys of the dictionary that [cv_report] returns. *)
Definition cv_report_keys : list string :=
  ["f1_micr_score"; "f1_micr_std"; "auc_score"; "auc_std"; "rec_score"; "rec_std";
   "prec_score"; "prec_std"; "f1_macro_score"; "f1_macro_std"; "f1_score"; "f1_std";
   "avp_score"; "avp_std"].

(** Under which key it returns the standard deviation of which entry. *)
Definition cv_stds : list (string * string) :=
  [("f1_micr_std", "test_f1_micro"); ("f1_macro_std", "test_f1_macro");
   ("f1_std", "test_f1"); ("auc_std", "test_roc_auc"); ("rec_std", "test_recall");
   ("prec_std", "test_precision"); ("avp_std", "test_average_precision")].

(** The row [name] of the table holds, under every column of [mapping], the
    score that the dictionary has under the key of that column, rounded to
    three decimals. *)
Definition row_of (mapping : list (string * string)) (scores : gmap string float)
    (report : table) (name : string) : Prop :=
  ∀ col key, (col, key) ∈ mapping →
    ∃ v, scores !! key = Some v ∧ cells report !! (name, col) = Some (py_round v 3).

(** The row [name] of the table has been written from the scores that
    [scores_of] returned for that label. *)
Definition written (scores_of : string → M (option (gmap string float)))
    (mapping : list (string * string)) (name : string) (report : table) : Prop :=
  ∃ w1 scores w2,
    scores_of name w1 = (Returned (Some scores), w2) ∧ row_of mapping scores report name.

(** The estimator that [cv_multi_report] scores for a label: the one that
    the chain of comparisons builds from [spec_params] when these are given,
    the argument [model] otherwise. *)
Definition estimator_of_label_cv (model : estimator)
    (modelname : option (gmap string string)) (spec_params : spec_params_t)
    (random_state : option Z) (n_jobs : Z) (name : string) (est : estimator) : Prop :=
  if truth_of_spec_params spec_params
  then ∃ tag, modelname_at modelname name = Returned tag ∧
              model_temp_cv tag spec_params name random_state n_jobs = Returned (Some est)
  else est = model.

(** The same for [test_score_multi_report]. *)
Definition estimator_of_label_test (model : estimator)
    (modelname : option (gmap string string)) (spec_params : spec_params_t)
    (random_state : option Z) (name : string) (est : estimator) : Prop :=
  if truth_of_spec_params spec_params
  then ∃ tag, modelname_at modelname name = Returned tag ∧
              model_temp_test tag spec_params name random_state = Returned (Some est)
  else est = model.

(** The cell that the off-label table should hold for a compound and a
    label: 1 when the file lists the pair, 0 otherwise. *)
Definition indicator (rows : list (string * string)) (name id : string) : obj :=
  Int (if bool_decide ((id, name) ∈ rows) then 1 else 0).

(** The file that [create_offside_df] writes. *)
Definition offside_csv : string := "./datasets/offside_socs_modified.csv".

End Harness.

(** * The study of fingerprint lengths *)

(** What [createfingerprints], [createdescriptors] and [test_fingerprint_size]
    take from the modules [create_fingerprints] and [create_descriptors] of
    the repository, which are not among the sources, and from numpy and
    scikit-learn.  The frame of molecules is opaque: the code only passes it
    on. *)
Class Chemistry {Vs : Values} : Type := {
  molecules : Type;
  (** [cf.create_ecfp4_fingerprint(df_mols, length, False)] *)
  create_ecfp4_fingerprint : molecules → Z → bool → lib (DataFrame float);
  (** [cf.create_maccs_fingerprint(df_mols, False)] *)
  create_maccs_fingerprint : molecules → bool → lib (DataFrame float);
  (** [cf.create_atompairs_fingerprint(df_mols, length, False)] *)
  create_atompairs_fingerprint : molecules → Z → bool → lib (DataFrame float);
  (** [cf.create_topological_torsion_fingerprint(df_mols, length, False)] *)
  create_topological_torsion_fingerprint : molecules → Z → bool → lib (DataFrame float);
  (** [cd.calc_descriptors(df_molecules, False)] *)
  calc_descriptors : molecules → bool → lib (DataFrame float);
  (** [np.linspace(start, stop, num, dtype=int)] *)
  np_linspace : Z → Z → Z → outcome (list Z);
  (** the entry [0.0] of [np.zeros] *)
  float_zero : float;
  (** [cross_validate(model, X, y, cv=cv, scoring=.., return_train_score=False,
      n_jobs=..)] for a number of folds *)
  cross_validate_folds :
    estimator → DataFrame float → Series → Z → list string → Z →
    lib (gmap string (list float));
}.

(** Besides an exception of a package, the study can fail on a local
    variable that was never assigned. *)
Inductive study_exn : Type :=
| Py (e : exn)
| UnboundLocalError (name : string).

Inductive result (A : Type) : Type :=
| Done (a : A)
| Failed (e : study_exn).
Arguments Done {A} a.
Arguments Failed {A} e.

Section Study.
Context {Vs : Values} {Lib : Library} {Chem : Chemistry}.

(** One library call after the other, on the outside state. *)
Definition lib_bind {A B} (c : lib A) (k : A → lib B) : lib B := λ e,
  match c e with
  | (Returned a, e') => k a e'
  | (Raised x, e') => (Raised x, e')
  end.

(** [createfingerprints(df_mols, length)]: the four kinds of fingerprint, in
    the order of the returned tuple.  The MACCS keys take no length. *)
Definition createfingerprints (df_mols : molecules) (length : Z)
  : lib (DataFrame float * DataFrame float * DataFrame float * DataFrame float) :=
  lib_bind (create_ecfp4_fingerprint df_mols length false) (λ ecfp_df,
  lib_bind (create_maccs_fingerprint df_mols false) (λ maccs_df,
  lib_bind (create_atompairs_fingerprint df_mols length false) (λ atom_pairs_df,
  lib_bind (create_topological_torsion_fingerprint df_mols length false) (λ tt_df,
  λ e, (Returned (ecfp_df, maccs_df, atom_pairs_df, tt_df), e))))).

(** [createdescriptors(df_molecules)] *)
Definition createdescriptors (df_molecules : molecules) : lib (DataFrame float) :=
  lib_bind (calc_descriptors df_molecules false) (λ df_mols_desc,
  λ e, (Returned df_mols_desc, e)).

(** [for fp in fingerprints]: the items of the tuple. *)
Definition fingerprint_list
    (fingerprints : DataFrame float * DataFrame float * DataFrame float * DataFrame float)
  : list (DataFrame float) :=
  let '(ecfp_df, maccs_df, atom_pairs_df, tt_df) := fingerprints in
  [ecfp_df; maccs_df; atom_pairs_df; tt_df].

(** ** Figures, files and failures of the study *)

(** What [test_fingerprint_size] does to the figure and to the disk, oldest
    first.  Figure sizes, font sizes and line styles are not recorded. *)
Inductive figure_event : Type :=
| Figure
| Plot (x : list Z) (y : list float)
| Title (text : string)
| YLabel (text : string)
| XLabel (text : string)
| Legend (names : list string)
| YLim
| Show
| WriteCsv (path : string).

Record study_world : Type := {
  outside : ext;
  figures : list figure_event;
}.

Definition Study (A : Type) : Type := study_world → result A * study_world.

#[export] Instance Study_ret : MRet Study := λ A a w, (Done a, w).

#[export] Instance Study_bind : MBind Study := λ A B f m w,
  match m w with
  | (Done a, w') => f a w'
  | (Failed e, w') => (Failed e, w')
  end.

(** A pure step that may raise. *)
Definition study_lift {A} (o : outcome A) : Study A := λ w,
  (match o with Returned a => Done a | Raised e => Failed (Py e) end, w).

(** A library call. *)
Definition study_call {A} (c : lib A) : Study A := λ w,
  let '(o, e) := c (outside w) in
  (match o with Returned a => Done a | Raised x => Failed (Py x) end,
   {| outside := e; figures := figures w |}).

Definition draw (ev : figure_event) : Study unit := λ w,
  (Done (), {| outside := outside w; figures := figures w ++ [ev] |}).

(** The value of a local variable that may not have been assigned yet. *)
Definition local {A} (name : string) (v : option A) : Study A := λ w,
  (match v with Some a => Done a | None => Failed (UnboundLocalError name) end, w).

(** [if c: body] *)
Definition study_when (c : bool) (body : Study unit) : Study unit :=
  if c then body else mret ().

(** A [for] loop whose body updates the local variables [S]. *)
Fixpoint study_for {A S} (l : list A) (body : A → S → Study S) (s : S) : Study S :=
  match l with
  | [] => mret s
  | a :: l' => s' ← body a s; study_for l' body s'
  end.

(** ** The arrays of results *)

(** A two-dimensional array of floats, row by row. *)
Definition matrix : Type := list (list float).

(** [np.zeros([rows, cols])] *)
Definition np_zeros (rows cols : nat) : matrix := replicate rows (replicate cols float_zero).

(** [m[r, c] = v] for indices counted from zero: numpy refuses an index
    outside the array. *)
Definition set_cell (m : matrix) (r c : nat) (v : float) : outcome matrix :=
  match m !! r with
  | Some row =>
      if decide (c < length row)
      then Returned (<[r := <[c := v]> row]> m)
      else Raised (IndexError "index is out of bounds for axis 1")
  | None => Raised (IndexError "index is out of bounds for axis 0")
  end.

(** [m[i, :]] *)
Definition row_at (m : matrix) (i : nat) : outcome (list float) :=
  match m !! i with
  | Some row => Returned row
  | None => Raised (IndexError "index is out of bounds for axis 0")
  end.

(** [t[m]] on a tuple of strings *)
Definition tuple_at (t : list string) (m : nat) : outcome string :=
  match t !! m with
  | Some s => Returned s
  | None => Raised (IndexError "tuple index out of range")
  end.

(** The seven arrays that the study fills. *)
Record results : Type := {
  results_f1 : matrix;
  results_rocauc : matrix;
  results_precision : matrix;
  results_recall : matrix;
  results_average_precision : matrix;
  results_f1_micro : matrix;
  results_f1_macro : matrix;
}.

Definition set_results_rocauc (m : matrix) (res : results) : results :=
  {| results_f1 := results_f1 res; results_rocauc := m;
     results_precision := results_precision res; results_recall := results_recall res;
     results_average_precision := results_average_precision res;
     results_f1_micro := results_f1_micro res; results_f1_macro := results_f1_macro res |}.

Definition set_results_precision (m : matrix) (res : results) : results :=
  {| results_f1 := results_f1 res; results_rocauc := results_rocauc res;
     results_precision := m; results_recall := results_recall res;
     results_average_precision := results_average_precision res;
     results_f1_micro := results_f1_micro res; results_f1_macro := results_f1_macro res |}.

Definition set_results_recall (m : matrix) (res : results) : results :=
  {| results_f1 := results_f1 res; results_rocauc := results_rocauc res;
     results_precision := results_precision res; results_recall := m;
     results_average_precision := results_average_precision res;
     results_f1_micro := results_f1_micro res; results_f1_macro := results_f1_macro res |}.

Definition set_results_average_precision (m : matrix) (res : results) : results :=
  {| results_f1 := results_f1 res; results_rocauc := results_rocauc res;
     results_precision := results_precision res; results_recall := results_recall res;
     results_average_precision := m;
     results_f1_micro := results_f1_micro res; results_f1_macro := results_f1_macro res |}.

Definition set_results_f1 (m : matrix) (res : results) : results :=
  {| results_f1 := m; results_rocauc := results_rocauc res;
     results_precision := results_precision res; results_recall := results_recall res;
     results_average_precision := results_average_precision res;
     results_f1_micro := results_f1_micro res; results_f1_macro := results_f1_macro res |}.

Definition set_results_f1_micro (m : matrix) (res : results) : results :=
  {| results_f1 := results_f1 res; results_rocauc := results_rocauc res;
     results_precision := results_precision res; results_recall := results_recall res;
     results_average_precision := results_average_precision res;
     results_f1_micro := m; results_f1_macro := results_f1_macro res |}.

Definition set_results_f1_macro (m : matrix) (res : results) : results :=
  {| results_f1 := results_f1 res; results_rocauc := results_rocauc res;
     results_precision := results_precision res; results_recall := results_recall res;
     results_average_precision := results_average_precision res;
     results_f1_micro := results_f1_micro res; results_f1_macro := m |}.

(** [if k == key: array[r, c] = v.mean()] *)
Definition record_if (k key : string) (get : results → matrix)
    (set : matrix → results → results) (r c : nat) (v : list float) (res : results)
  : outcome results :=
  if decide (k = key)
  then m ← set_cell (get res) r c (np_mean v); Returned (set m res)
  else Returned res.

(** The body of [for k, v in cv_scores.items()]: seven tests, one after the
    other. *)
Definition record_score (r c : nat) (kv : string * list float) (res : results)
  : outcome results :=
  let '(k, v) := kv in
  res ← record_if k "test_roc_auc" results_rocauc set_results_rocauc r c v res;
  res ← record_if k "test_precision" results_precision set_results_precision r c v res;
  res ← record_if k "test_recall" results_recall set_results_recall r c v res;
  res ← record_if k "test_average_precision" results_average_precision
          set_results_average_precision r c v res;
  res ← record_if k "test_f1" results_f1 set_results_f1 r c v res;
  res ← record_if k "test_f1_micro" results_f1_micro set_results_f1_micro r c v res;
  res ← record_if k "test_f1_macro" results_f1_macro set_results_f1_macro r c v res;
  Returned res.

(** [pd.DataFrame(array, columns=sizes)] *)
Record sized_frame : Type := {
  frame_columns : list Z;
  frame_values : matrix;
}.

(** The tuple [all_df_results], in its order. *)
Record study_frames : Type := {
  df_results_rocauc_size_SVC : sized_frame;
  df_results_precision_size_SVC : sized_frame;
  df_results_recall_size_SVC : sized_frame;
  df_results_av_prec_size_SVC : sized_frame;
  df_results_f1_size_SVC : sized_frame;
  df_results_f1_micro_size_SVC : sized_frame;
  df_results_f1_macro_size_SVC : sized_frame;
}.

(** The cross-validation of one kind of fingerprint at one length: the
    body of [for fp in fingerprints]. *)
Definition score_fingerprint (df_y : gmap string Series) (model : estimator)
    (colname : string) (cv : Z) (scoring_metrics : list string) (c : nat)
    (fp : DataFrame float) (st : results * nat) : Study (results * nat) :=
  let '(res, r) := st in
  let X := copy fp in
  y ← study_lift (getitem df_y colname);
  cv_scores ← study_call (cross_validate_folds model X y cv scoring_metrics (-1));
  res ← study_lift (for_each_pure (map_to_list cv_scores) (record_score r c) res);
  mret (res, S r).

(** The body of [for s in sizes]. *)
Definition score_size (df_mols : molecules) (df_y : gmap string Series) (model : estimator)
    (colname : string) (cv : Z) (scoring_metrics : list string) (s : Z)
    (st : results *
          option (DataFrame float * DataFrame float * DataFrame float * DataFrame float) *
          nat)
  : Study (results *
           option (DataFrame float * DataFrame float * DataFrame float * DataFrame float) *
           nat) :=
  let '(res, _, c) := st in
  fingerprints ← study_call (createfingerprints df_mols s);
  '(res, _) ← study_for (fingerprint_list fingerprints)
                (score_fingerprint df_y model colname cv scoring_metrics c) (res, 0);
  mret (res, Some fingerprints, S c).

(** The body of [for d in all_results] under [makeplots]. *)
Definition plot_metric (sizes : list Z) (scoring_metrics : list string)
    (fingerprints :
       option (DataFrame float * DataFrame float * DataFrame float * DataFrame float))
    (d : matrix) (m : nat) : Study nat :=
  let fp_names := ["ECFP-4"; "MACCS"; "Atom Pairs"; "Topological Torsion"] in
  draw Figure;;
  fps ← local "fingerprints" fingerprints;
  study_for (seq 0 (length (fingerprint_list fps)))
    (λ i _, row ← study_lift (row_at d i); draw (Plot sizes row)) ();;
  metric ← study_lift (tuple_at scoring_metrics m);
  draw (Title ("SVC, " +:+ metric +:+ " vs fingerprint length"));;
  metric ← study_lift (tuple_at scoring_metrics m);
  draw (YLabel metric);;
  draw (XLabel "Fingerprint Length");;
  draw (Legend fp_names);;
  draw YLim;;
  draw Show;;
  mret (S m).

(** [test_fingerprint_size(df_mols, df_y, model, colname="Hepatobiliary
    disorders", num_sizes_to_test=20, min_size=100, max_size=2048, cv=10,
    makeplots=False, write=False)] *)
Definition test_fingerprint_size (df_mols : molecules) (df_y : gmap string Series)
    (model : estimator) (colname : string) (num_sizes_to_test min_size max_size cv : Z)
    (makeplots write : bool) : Study study_frames :=
  let scoring_metrics :=
    ["f1_micro"; "f1_macro"; "f1"; "roc_auc"; "recall"; "precision"; "average_precision"] in
  sizes ← study_lift (np_linspace min_size max_size num_sizes_to_test);
  let zeros := np_zeros 4 (length sizes) in
  let res :=
    {| results_f1 := zeros; results_rocauc := zeros; results_precision := zeros;
       results_recall := zeros; results_average_precision := zeros;
       results_f1_micro := zeros; results_f1_macro := zeros |} in
  '(res, fingerprints, _) ←
    study_for sizes (score_size df_mols df_y model colname cv scoring_metrics)
      (res, None, 0);
  let all_results :=
    [results_rocauc res; results_precision res; results_recall res;
     results_average_precision res; results_f1 res; results_f1_micro res;
     results_f1_macro res] in
  let frame (m : matrix) := {| frame_columns := sizes; frame_values := m |} in
  let all_df_results :=
    {| df_results_rocauc_size_SVC := frame (results_rocauc res);
       df_results_precision_size_SVC := frame (results_precision res);
       df_results_recall_size_SVC := frame (results_recall res);
       df_results_av_prec_size_SVC := frame (results_average_precision res);
       df_results_f1_size_SVC := frame (results_f1 res);
       df_results_f1_micro_size_SVC := frame (results_f1_micro res);
       df_results_f1_macro_size_SVC := frame (results_f1_macro res) |} in
  study_when write (
    draw (WriteCsv "./results/df_results_rocauc_size_SVC.csv");;
    draw (WriteCsv "./results/df_results_precision_size_SVC.csv");;
    draw (WriteCsv "./results/df_results_recall_size_SVC.csv");;
    draw (WriteCsv "./results/df_results_av_prec_size_SVC.csv");;
    draw (WriteCsv "./results/df_results_f1_size_SVC.csv");;
    draw (WriteCsv "./results/df_results_f1_micro_size_SVC.csv");;
    draw (WriteCsv "./results/df_results_f1_macro_size_SVC.csv"));;
  study_when makeplots (
    study_for all_results (plot_metric sizes scoring_metrics fingerprints) 0;;
    mret ());;
  mret all_df_results.

(** ** Notions that the properties of the study are stated with *)

(** The files that the study writes under [write], in the order of the
    writing. *)
Definition written_files : list figure_event :=
  [WriteCsv "./results/df_results_rocauc_size_SVC.csv";
   WriteCsv "./results/df_results_precision_size_SVC.csv";
   WriteCsv "./results/df_results_recall_size_SVC.csv";
   WriteCsv "./results/df_results_av_prec_size_SVC.csv";
   WriteCsv "./results/df_results_f1_size_SVC.csv";
   WriteCsv "./results/df_results_f1_micro_size_SVC.csv";
   WriteCsv "./results/df_results_f1_macro_size_SVC.csv"].

(** One figure: the four rows of an array against the lengths, under the
    title and the axis label of a metric. *)
Definition figure_of (sizes : list Z) (d : matrix) (metric : string) : list figure_event :=
  Figure :: (Plot sizes <$> take 4 d)
  ++ [Title ("SVC, " +:+ metric +:+ " vs fingerprint length"); YLabel metric;
      XLabel "Fingerprint Length";
      Legend ["ECFP-4"; "MACCS"; "Atom Pairs"; "Topological Torsion"]; YLim; Show].

(** [m[r, c]] *)
Definition cell (m : matrix) (r c : nat) : option float := m !! r ≫= (.!! c).

(** Which entry of the cross-validation scores goes to which returned
    frame. *)
Definition study_mapping : list ((study_frames → sized_frame) * string) :=
  [(df_results_rocauc_size_SVC, "test_roc_auc");
   (df_results_precision_size_SVC, "test_precision");
   (df_results_recall_size_SVC, "test_recall");
   (df_results_av_prec_size_SVC, "test_average_precision");
   (df_results_f1_size_SVC, "test_f1");
   (df_results_f1_micro_size_SVC, "test_f1_micro");
   (df_results_f1_macro_size_SVC, "test_f1_macro")].

(** The seven arrays in the order of [all_results]. *)
Definition arrays (res : results) : list matrix :=
  [results_rocauc res; results_precision res; results_recall res;
   results_average_precision res; results_f1 res; results_f1_micro res;
   results_f1_macro res].

(** The entries of the cross-validation scores that fill them, in the same
    order. *)
Definition study_keys : list string :=
  ["test_roc_auc"; "test_precision"; "test_recall"; "test_average_precision"; "test_f1";
   "test_f1_micro"; "test_f1_macro"].

(** [scores] are the cross-validation scores of the model on the
    fingerprint of kind [r] at the length of position [c]. *)
Definition scored (df_mols : molecules) (df_y : gmap string Series) (model : estimator)
    (colname : string) (cv : Z) (scoring_metrics : list string) (sizes : list Z)
    (r c : nat) (scores : gmap string (list float)) : Prop :=
  ∃ s e1 fingerprints e2 fp y e3 e4,
    sizes !! c = Some s ∧
    createfingerprints df_mols s e1 = (Returned fingerprints, e2) ∧
    fingerprint_list fingerprints !! r = Some fp ∧
    df_y !! colname = Some y ∧
    cross_validate_folds model fp y cv scoring_metrics (-1) e3 = (Returned scores, e4).

(** The cells that the two loops have been through when the outer one is at
    position [c0] and the inner one at kind [r0]. *)
Definition visited (c0 r0 r c : nat) : Prop := c < c0 ∨ (c = c0 ∧ r < r0).

(** The arrays hold the mean scores in the visited cells and zero in the
    others. *)
Definition filled (df_mols : molecules) (df_y : gmap string Series) (model : estimator)
    (colname : string) (cv : Z) (scoring_metrics : list string) (sizes : list Z)
    (c0 r0 : nat) (res : results) : Prop :=
  ∀ r c, r < 4 → c < length sizes →
    (visited c0 r0 r c →
     ∃ scores,
       scored df_mols df_y model colname cv scoring_metrics sizes r c scores ∧
       ∀ i key m, study_keys !! i = Some key → arrays res !! i = Some m →
         cell m r c = Some (from_option np_mean float_zero (scores !! key))) ∧
    (¬ visited c0 r0 r c →
     ∀ i m, arrays res !! i = Some m → cell m r c = Some float_zero).

End Study.

(** * A small instance of the packages

    Stand-ins for the library calls, small enough to run the embedded code on
    concrete data.  Floats and parameter values are integers, a parameter
    space is the list of its candidate configurations, and the outside state
    is a counter that stands for numpy's global random generator (and decides
    whether the remote service answers with an error). *)
Module Sample.

Definition values : Values := {|
  float := Z;
  pyval := Z;
  score_function := unit;
  param_space := list (gmap string Z);
  ext := nat;
|}.
#[local] Existing Instance values.

(** Selects [k] adjacent columns, starting at the column that the first
    entry of the target vector points at. *)
Definition get_support (f : unit) (k : Z) (X : DataFrame Z) (y : Series)
  : outcome (list bool) :=
  let n := length X in
  let off := Z.to_nat (hd 0%Z y) `mod` n in
  Returned ((λ i, bool_decide ((i + n - off) `mod` n < Z.to_nat k)) <$> seq 0 n).

Definition a_fitted : fitted := {|
  predict := λ _, Returned [0; 1; 1]%Z;
  predict_proba := Some (λ _, Returned [[7; 2; 1]; [3; 8; 9]]%Z);
|}.

(** A classifier fitted without probability estimates. *)
Definition a_fitted_without_proba : fitted := {|
  predict := λ _, Returned [0; 1; 1]%Z;
  predict_proba := None;
|}.

Definition a_search (best : gmap string Z) (tried : list (gmap string Z)) : search := {|
  cv_results_ := {| mean_test_score := (λ _, 1%Z) <$> tried;
                    std_test_score := (λ _, 0%Z) <$> tried;
                    cv_params := tried |};
  best_params_ := best;
  best_estimator_ := a_fitted;
  search_predict := λ _, Returned [0; 1; 1]%Z;
|}.

(** The exhaustive search tries every candidate and keeps the first. *)
Definition grid_fit (space : list (gmap string Z)) : lib search := λ e,
  (match space with
   | c :: _ => Returned (a_search c space)
   | [] => Raised (ValueError "No fits were performed")
   end, e).

(** The randomised search draws one candidate: with its own seed when it
    was given one, from the global generator otherwise. *)
Definition randomized_fit (space : list (gmap string Z)) (random_state : option Z)
  : lib search := λ e,
  let draw := match random_state with Some s => Z.to_nat s | None => e end in
  (match space !! (draw `mod` length space) with
   | Some c => Returned (a_search c [c])
   | None => Raised (ValueError "No fits were performed")
   end, S e).

Definition cv_scores (metrics : list string) : gmap string (list Z) :=
  list_to_map ((λ m, ("test_" +:+ m, [1; 3]%Z)) <$> metrics).

(** The remote service answers 200 as long as the counter is zero and 404
    afterwards. *)
Definition get (url : string) : lib response := λ e,
  (Returned {| status_code := if decide (e = 0) then 200 else 404;
               text := "
CCO
" |}, e).

Definition check_status (r : response) : outcome unit :=
  if decide (400 ≤ status_code r < 600)%Z
  then Raised (HTTPError "404 Client Error")
  else Returned ().

Definition library : Library := {|
  py_round := λ x _, x;
  np_mean := λ l, hd 0%Z l;
  np_std := λ _, 0%Z;
  float_mul := Z.mul;
  float_1_96 := 2%Z;
  format_float := λ _ x, pretty x;
  repr_config := λ _, "{...}";
  repr_counts := λ y, pretty (length y);
  str_exn := λ e, match e with HTTPError m => m | _ => "error" end;
  f_classif := ();
  SelectKBest_get_support := get_support;
  fit_resample := λ _ X y e, (Returned (X, y), e);
  GridSearchCV_fit := λ _ space _ _ _ _ _ _, grid_fit space;
  RandomizedSearchCV_fit := λ _ space _ _ _ _ _ rs _ _, randomized_fit space rs;
  cross_validate := λ _ _ _ metrics _ _ _ e, (Returned (cv_scores metrics), e);
  fit := λ _ _ _ e, (Returned a_fitted, e);
  f1_score := λ _ _ _, Returned 1%Z;
  roc_auc_score := λ _ _, Returned 2%Z;
  recall_score := λ _ _ _, Returned 3%Z;
  precision_score := λ _ _ _, Returned 4%Z;
  average_precision_score := λ _ s, Returned (hd 0%Z s);
  precision_recall_curve := λ _ s, Returned (s, s, s);
  classification_report := λ _ _, Returned "report";
  confusion_matrix := λ _ _, Returned "[[1 0] [0 2]]";
  requests_get := get;
  raise_for_status := check_status;
  read_offsides := λ e, (Returned [("CID000085", "Cardiac disorders")], e);
|}.
#[local] Existing Instance library.

(** Three descriptor columns over three compounds, for training and for
    testing, and two fingerprint bits. *)
Definition desc_train : DataFrame Z :=
  [("MolWt", [180; 46; 78]); ("LogP", [1; 0; 2]); ("TPSA", [63; 20; 0])]%Z.

Definition desc_test : DataFrame Z :=
  [("MolWt", [151; 60]); ("LogP", [0; 1]); ("TPSA", [49; 37])]%Z.

Definition fp_train : DataFrame Z := [("bit0", [1; 0; 1]); ("bit1", [0; 0; 1])]%Z.

Definition fp_test : DataFrame Z := [("bit0", [1; 1]); ("bit1", [0; 1])]%Z.

Definition labels : list string := ["Cardiac disorders"; "Eye disorders"].

Definition y_train : gmap string Series :=
  {[ "Cardiac disorders" := [0; 1; 1]%Z; "Eye disorders" := [1; 0; 1]%Z ]}.

Definition y_test : gmap string Series :=
  {[ "Cardiac disorders" := [0; 1]%Z; "Eye disorders" := [1; 0]%Z ]}.

(** The per-label matrices are the fingerprint bits followed by the two
    selected descriptors of the label. *)
Definition X_train_dic : gmap string (array_like Z) :=
  {[ "Cardiac disorders" := Frame (fp_train ++ [("MolWt", [180; 46; 78]); ("LogP", [1; 0; 2])]%Z);
     "Eye disorders" := Frame (fp_train ++ [("LogP", [1; 0; 2]); ("TPSA", [63; 20; 0])]%Z) ]}.

Definition X_test_dic : gmap string (array_like Z) :=
  {[ "Cardiac disorders" := Frame (fp_test ++ [("MolWt", [151; 60]); ("LogP", [0; 1])]%Z);
     "Eye disorders" := Frame (fp_test ++ [("LogP", [0; 1]); ("TPSA", [49; 37])]%Z) ]}.

(** Two candidate configurations. *)
Definition two_configs : list (gmap string Z) := [{[ "C" := 1%Z ]}; {[ "C" := 10%Z ]}].

(** A tag that neither reporting function knows. *)
Definition unknown_tags : gmap string string :=
  {[ "Cardiac disorders" := "LogReg"; "Eye disorders" := "LogReg" ]}.

(** Best parameters of a support-vector classifier for both labels. *)
Definition svc_params : gmap string (gmap string Z) :=
  {[ "Cardiac disorders" := {[ "svc__C" := 1; "svc__gamma" := 2; "svc__kernel" := 3 ]}%Z;
     "Eye disorders" := {[ "svc__C" := 10; "svc__gamma" := 2; "svc__kernel" := 3 ]}%Z ]}.

(** The first label is tagged as a support-vector classifier, the second
    with a tag that the reporting functions do not know. *)
Definition second_tag_unknown : gmap string string :=
  {[ "Cardiac disorders" := "SVC"; "Eye disorders" := "LogReg" ]}.

(** The tag of the voting ensemble, which only [cv_multi_report] knows. *)
Definition voting_tags : gmap string string :=
  {[ "Cardiac disorders" := "VotingClassifier" ]}.

(** Best parameters of the three members of the ensemble, in the order in
    which [cv_multi_report] reads them: support-vector classifier, random
    forest, gradient-boosted trees. *)
Definition family_params : list (gmap string (gmap string Z)) :=
  [ {[ "Cardiac disorders" := {[ "svc__C" := 1; "svc__gamma" := 2; "svc__kernel" := 3 ]} ]};
    {[ "Cardiac disorders" :=
         {[ "randomforestclassifier__bootstrap" := 1;
            "randomforestclassifier__max_depth" := 4;
            "randomforestclassifier__max_features" := 2;
            "randomforestclassifier__min_samples_leaf" := 1;
            "randomforestclassifier__min_samples_split" := 2;
            "randomforestclassifier__n_estimators" := 100 ]} ]};
    {[ "Cardiac disorders" :=
         {[ "xgbclassifier__colsample_bytree" := 1;
            "xgbclassifier__eta" := 3;
            "xgbclassifier__gamma" := 0;
            "xgbclassifier__max_depth" := 6;
            "xgbclassifier__min_child_weight" := 1;
            "xgbclassifier__subsample" := 1 ]} ]} ]%Z.

(** The same library on a machine without a network: no request is
    answered, [requests.get] raises. *)
Definition offline : Library := {|
  py_round := py_round (Library := library);
  np_mean := np_mean (Library := library);
  np_std := np_std (Library := library);
  float_mul := float_mul (Library := library);
  float_1_96 := float_1_96 (Library := library);
  format_float := format_float (Library := library);
  repr_config := repr_config (Library := library);
  repr_counts := repr_counts (Library := library);
  str_exn := str_exn (Library := library);
  f_classif := f_classif (Library := library);
  SelectKBest_get_support := SelectKBest_get_support (Library := library);
  fit_resample := fit_resample (Library := library);
  GridSearchCV_fit := GridSearchCV_fit (Library := library);
  RandomizedSearchCV_fit := RandomizedSearchCV_fit (Library := library);
  cross_validate := cross_validate (Library := library);
  fit := fit (Library := library);
  f1_score := f1_score (Library := library);
  roc_auc_score := roc_auc_score (Library := library);
  recall_score := recall_score (Library := library);
  precision_score := precision_score (Library := library);
  average_precision_score := average_precision_score (Library := library);
  precision_recall_curve := precision_recall_curve (Library := library);
  classification_report := classification_report (Library := library);
  confusion_matrix := confusion_matrix (Library := library);
  requests_get := λ _ e, (Raised (ConnectionError "Max retries exceeded"), e);
  raise_for_status := raise_for_status (Library := library);
  read_offsides := read_offsides (Library := library);
|}.

(** The world before anything has happened; the counter starts at [n]. *)
Definition start (n : nat) : world := {| env := n; trace := [] |}.

End Sample.

(** * More of the small instance

    Stand-ins for the fingerprint module and for the numpy and scikit-learn
    calls of the study of fingerprint lengths, and some more data. *)
Module SampleStudy.

#[local] Existing Instances Sample.values Sample.library.

(** [num] evenly spaced integers from [start] to [stop]. *)
Definition linspace (start stop num : Z) : outcome (list Z) :=
  if decide (num < 0)%Z then Raised (ValueError "Number of samples must be non-negative")
  else if decide (num = 1)%Z then Returned [start]
  else Returned ((λ i : nat, start + ((stop - start) * Z.of_nat i) `quot` (num - 1))%Z
                   <$> seq 0 (Z.to_nat num)).

(** A fingerprint of one column, whose first bit tells the kind and the
    length apart. *)
Definition fingerprint (kind : Z) (length : Z) : lib (DataFrame Z) := λ e,
  (Returned [("bit0", [kind + length; 0; 1])]%Z, e).

(** The scores of a cross-validation are the first bit of the matrix, for
    every metric. *)
Definition folds_scores (X : DataFrame Z) (metrics : list string) : gmap string (list Z) :=
  list_to_map ((λ m, ("test_" +:+ m, [hd 0%Z (hd [] X.*2)])) <$> metrics).

Definition chemistry : Chemistry := {|
  molecules := unit;
  create_ecfp4_fingerprint := λ _ length _, fingerprint 1 length;
  create_maccs_fingerprint := λ _ _, fingerprint 2 167;
  create_atompairs_fingerprint := λ _ length _, fingerprint 3 length;
  create_topological_torsion_fingerprint := λ _ length _, fingerprint 4 length;
  calc_descriptors := λ _ _ e, (Returned Sample.desc_train, e);
  np_linspace := linspace;
  float_zero := 0%Z;
  cross_validate_folds := λ _ X _ _ metrics _ e, (Returned (folds_scores X metrics), S e);
|}.

(** Two candidate configurations for each label. *)
Definition params_by_label : gmap string (list (gmap string Z)) :=
  {[ "Cardiac disorders" := Sample.two_configs; "Eye disorders" := Sample.two_configs ]}.

(** Held-out frames by label. *)
Definition held_out_frames : gmap string (DataFrame Z) :=
  {[ "Cardiac disorders" := Sample.fp_test; "Eye disorders" := Sample.fp_test ]}.

(** Test descriptors that lack the column [LogP]. *)
Definition desc_test_without_LogP : DataFrame Z :=
  [("MolWt", [151; 60]); ("TPSA", [49; 37])]%Z.

(** The world of the study before anything has happened. *)
Definition study_start : study_world (Vs := Sample.values) := {| outside := 0; figures := [] |}.

End SampleStudy.

(** * Properties *)

Section Properties.
Context {Vs : Values} {Lib : Library}.

(** ** Running the monad *)

Lemma run_bind {A B} (m : M A) (k : A → M B) (w : world) :
  (m ≫= k) w =
  match m w with
  | (Returned a, w') => k a w'
  | (Raised e, w') => (Raised e, w')
  end.
Proof. reflexivity. Qed.

Lemma run_lift {A} (o : outcome A) (w : world) : lift o w = (o, w).
Proof. reflexivity. Qed.

Lemma run_ret {A} (a : A) (w : world) : (mret a : M A) w = (Returned a, w).
Proof. reflexivity. Qed.

Lemma run_print (line : string) (w : world) :
  print line w = (Returned (), {| env := env w; trace := trace w ++ [Print line] |}).
Proof. reflexivity. Qed.

Lemma world_eta (w : world) : {| env := env w; trace := trace w |} = w.
Proof. by destruct w. Qed.

(** ** First appearances *)

Lemma elem_of_first_appearance (l : list string) (x : string) :
  x ∈ first_appearance l ↔ x ∈ l.
Proof.
  induction l as [|y l IH]; simpl; [done|].
  rewrite !elem_of_cons, list_elem_of_filter, IH.
  destruct (decide (x = y)); tauto.
Qed.

Lemma NoDup_first_appearance (l : list string) : NoDup (first_appearance l).
Proof.
  induction l as [|y l IH]; simpl; [constructor|].
  constructor.
  - rewrite list_elem_of_filter. by intros [? _].
  - by apply NoDup_filter.
Qed.

Lemma elem_of_concat (ls : list (list string)) (x : string) :
  x ∈ concat ls ↔ ∃ l, l ∈ ls ∧ x ∈ l.
Proof.
  induction ls as [|l ls IH]; simpl.
  - split; [by intros ?%not_elem_of_nil|by intros (? & ?%not_elem_of_nil & _)].
  - rewrite elem_of_app, IH. split.
    + intros [Hx|(l' & Hl' & Hx)]; [exists l|exists l']; rewrite elem_of_cons; auto.
    + intros (l' & [->|Hl']%elem_of_cons & Hx); [by left|right; by exists l'].
Qed.

(** The loop of the code computes the specification's list, after what was
    selected before. *)
Lemma extend_selected_spec (sel acc : list string) :
  extend_selected acc sel = acc ++ filter (λ x, x ∉ acc) (first_appearance sel).
Proof.
  revert acc. induction sel as [|x sel IH]; intros acc.
  - simpl. by rewrite filter_nil, app_nil_r.
  - change (extend_selected acc (x :: sel))
      with (extend_selected (append_if_new acc x) sel).
    rewrite IH. simpl. unfold append_if_new.
    destruct (decide (x ∈ acc)) as [Hin|Hin].
    + rewrite filter_cons_False by (intros Hx; by apply Hx).
      f_equal. symmetry. apply list_filter_filter_l. by intros y Hy ->.
    + rewrite filter_cons_True by done.
      rewrite <- app_assoc. simpl. do 2 f_equal.
      rewrite list_filter_filter. apply list_filter_iff.
      intros y. rewrite elem_of_app, list_elem_of_singleton. tauto.
Qed.

Lemma extend_selected_nil (sel : list string) :
  extend_selected [] sel = first_appearance sel.
Proof.
  rewrite extend_selected_spec. simpl.
  induction (first_appearance sel) as [|x l IH]; [done|].
  rewrite filter_cons_True by apply not_elem_of_nil. by rewrite IH.
Qed.

Lemma extend_selected_app (acc l1 l2 : list string) :
  extend_selected acc (l1 ++ l2) = extend_selected (extend_selected acc l1) l2.
Proof. unfold extend_selected. apply foldl_app. Qed.

Lemma foldl_extend_selected (sels : list (list string)) (acc : list string) :
  foldl extend_selected acc sels = extend_selected acc (concat sels).
Proof.
  revert acc. induction sels as [|s sels IH]; intros acc; simpl; [done|].
  by rewrite IH, extend_selected_app.
Qed.

(** ** The multi-label feature selector *)

Lemma select_multi_body_run df_desc y_all score_func k n selected w :
  select_multi_body df_desc y_all score_func k n selected w =
  (match label_selection df_desc y_all score_func k n with
   | Returned sel => Returned (extend_selected selected sel)
   | Raised e => Raised e
   end, w).
Proof.
  unfold select_multi_body, label_selection.
  rewrite run_bind, run_lift.
  destruct (getitem y_all n) as [y|e]; [|done]. simpl.
  rewrite run_bind, run_lift.
  destruct (SelectKBest_get_support score_func k df_desc y) as [m|e]; [|done]. simpl.
  rewrite run_bind, run_lift.
  by destruct (loc_mask df_desc m) as [d|e].
Qed.

Lemma select_multi_loop_returns df_desc y_all score_func k names sels acc w :
  Forall2 (λ n s, label_selection df_desc y_all score_func k n = Returned s) names sels →
  for_each names (select_multi_body df_desc y_all score_func k) acc w =
  (Returned (foldl extend_selected acc sels), w).
Proof.
  intros Hsel. revert acc. induction Hsel as [|n s names sels Hn _ IH]; intros acc; [done|].
  simpl. rewrite run_bind, select_multi_body_run, Hn. apply IH.
Qed.

Lemma select_multi_loop_inv df_desc y_all score_func k names acc w sel w' :
  for_each names (select_multi_body df_desc y_all score_func k) acc w = (Returned sel, w') →
  w' = w ∧ ∃ sels,
    Forall2 (λ n s, label_selection df_desc y_all score_func k n = Returned s) names sels ∧
    sel = foldl extend_selected acc sels.
Proof.
  revert acc. induction names as [|n names IH]; intros acc; simpl.
  - rewrite run_ret. intros [= <- <-]. split; [done|]. exists []. by split; [constructor|].
  - rewrite run_bind, select_multi_body_run.
    destruct (label_selection df_desc y_all score_func k n) as [s|e] eqn:Hn; [|done].
    intros Hrun. destruct (IH _ Hrun) as (-> & sels & Hsels & ->).
    split; [done|]. exists (s :: sels). by split; [constructor|].
Qed.

(** C6.  For a non-empty [out_names], [select_best_descriptors_multi]
    returns the union of the per-label selections in order of first
    appearance: whenever every label has a selection, the function returns
    [first_appearance] of their concatenation and leaves the world as it
    was; and whatever list it returns is that list for some per-label
    selections, has no name twice, and holds exactly the names that occur in
    at least one per-label selection. *)
Theorem C6_union_in_order_of_first_appearance
    (df_desc : DataFrame float) (y_all : gmap string Series) (out_names : list string)
    (score_func : score_function) (k : Z) (w : world) :
  out_names ≠ [] →
  (∀ sels,
     Forall2 (λ n s, label_selection df_desc y_all score_func k n = Returned s)
       out_names sels →
     select_best_descriptors_multi df_desc y_all out_names score_func k w =
     (Returned (Some (first_appearance (concat sels))), w)) ∧
  (∀ selected w',
     select_best_descriptors_multi df_desc y_all out_names score_func k w =
     (Returned (Some selected), w') →
     ∃ sels,
       Forall2 (λ n s, label_selection df_desc y_all score_func k n = Returned s)
         out_names sels ∧
       selected = first_appearance (concat sels) ∧
       NoDup selected ∧
       (∀ c, c ∈ selected ↔ ∃ s, s ∈ sels ∧ c ∈ s)).
Proof.
  intros Hne. unfold select_best_descriptors_multi.
  destruct (decide (out_names = [])) as [|_]; [done|].
  split.
  - intros sels Hsels. rewrite run_bind.
    rewrite (select_multi_loop_returns _ _ _ _ _ sels) by done.
    by rewrite foldl_extend_selected, extend_selected_nil.
  - intros selected w'. rewrite run_bind.
    destruct (for_each out_names _ [] w) as [[sel|e] w1] eqn:Hloop; [|done].
    rewrite run_ret. intros [= <- <-].
    apply select_multi_loop_inv in Hloop as (_ & sels & Hsels & ->).
    exists sels. rewrite foldl_extend_selected, extend_selected_nil.
    split_and!; [done|done|apply NoDup_first_appearance|].
    intros c. rewrite elem_of_first_appearance. apply elem_of_concat.
Qed.

(** ** The per-label data sets *)

Lemma columns_named_NoDup {V} (df : DataFrame V) (n : string) c cs :
  NoDup (columns df) → columns_named n df = c :: cs → c.1 = n ∧ cs = [].
Proof.
  unfold columns, columns_named, DataFrame in *. induction df as [|a df IH]; [done|].
  rewrite fmap_cons, NoDup_cons. intros [Hnotin Hnd].
  destruct (decide (a.1 = n)) as [Ha|Ha].
  - rewrite filter_cons_True by done. intros [= <- <-]. split; [done|].
    destruct (filter _ df) as [|c' cs'] eqn:Hf; [done|]. exfalso. apply Hnotin.
    assert (c' ∈ filter (λ c : string * list V, c.1 = n) df) as Hc'
      by (rewrite Hf; apply list_elem_of_here).
    apply list_elem_of_filter in Hc' as [Hc'n Hc'].
    rewrite Ha, <- Hc'n. by apply list_elem_of_fmap_2.
  - rewrite filter_cons_False by done. by apply IH.
Qed.

(** Selecting by a list of labels from a frame whose labels are distinct
    gives columns that carry exactly those labels, in that order. *)
Lemma columns_loc_names {V} (df : DataFrame V) (names : list string) cols :
  NoDup (columns df) → loc_names df names = Returned cols → columns cols = names.
Proof.
  intros Hnd. revert cols. induction names as [|n names IH]; intros cols; simpl.
  - by intros [= <-].
  - destruct (columns_named n df) as [|c cs] eqn:Hn; [done|].
    destruct (columns_named_NoDup _ _ _ _ Hnd Hn) as [Hc ->].
    destruct (loc_names df names) as [rest|e]; [|done]. simpl.
    intros [= <-]. specialize (IH rest eq_refl). unfold columns, DataFrame in *.
    simpl. by f_equal.
Qed.

Section create_dataframes.
Variables df_desc_base_train df_desc_base_test X_train_fp X_test_fp : DataFrame float.
Variable y_train : gmap string Series.
Variable score_func : score_function.
Variable k : Z.

Local Abbreviation step := (create_dataframes_step df_desc_base_train df_desc_base_test
  X_train_fp X_test_fp y_train score_func k).
Local Abbreviation entry := (label_entry df_desc_base_train df_desc_base_test
  X_train_fp X_test_fp y_train score_func k).

Lemma create_dataframes_step_inv name d d' :
  step name d = Returned d' →
  ∃ y sel_col train_cols test_cols,
    y_train !! name = Some y ∧
    select_best_descriptors df_desc_base_train y score_func k = Returned sel_col ∧
    loc_names df_desc_base_train sel_col = Returned train_cols ∧
    loc_names df_desc_base_test sel_col = Returned test_cols ∧
    d' = {| train_series_dic :=
              <[name := Some (concat_columns X_train_fp train_cols)]> (train_series_dic d);
            test_series_dic :=
              <[name := Some (concat_columns X_test_fp test_cols)]> (test_series_dic d);
            selected_name := <[name := Some sel_col]> (selected_name d) |}.
Proof.
  unfold create_dataframes_step, getitem.
  destruct (y_train !! name) as [y|] eqn:Hy; [|done]. simpl.
  destruct (select_best_descriptors df_desc_base_train y score_func k)
    as [sel_col|e] eqn:Hsel; [|done]. simpl.
  destruct (loc_names df_desc_base_train sel_col) as [train_cols|e] eqn:Htr; [|done]. simpl.
  destruct (loc_names df_desc_base_test sel_col) as [test_cols|e] eqn:Hte; [|done]. simpl.
  intros [= <-]. by exists y, sel_col, train_cols, test_cols.
Qed.

Lemma create_dataframes_step_sets name d d' : step name d = Returned d' → entry name d'.
Proof.
  intros (y & sel & tr & te & Hy & Hsel & Htr & Hte & ->)%create_dataframes_step_inv.
  exists y, sel, tr, te. simpl. by rewrite !lookup_insert_eq.
Qed.

Lemma create_dataframes_step_keeps name other d d' :
  step name d = Returned d' → entry other d → entry other d'.
Proof.
  intros Hstep Hother. destruct (decide (name = other)) as [<-|Hne].
  - by eapply create_dataframes_step_sets.
  - apply create_dataframes_step_inv in Hstep as (y & sel & tr & te & _ & _ & _ & _ & ->).
    destruct Hother as (y' & sel' & tr' & te' & ? & ? & ? & ? & ? & ? & ?).
    exists y', sel', tr', te'. simpl. by rewrite !lookup_insert_ne.
Qed.

Lemma create_dataframes_loop names d d' :
  for_each_pure names step d = Returned d' →
  (∀ other, entry other d → entry other d') ∧ (∀ name, name ∈ names → entry name d').
Proof.
  revert d. induction names as [|n names IH]; intros d; simpl.
  - intros [= <-]. split; [done|]. by intros ? ?%not_elem_of_nil.
  - destruct (step n d) as [d1|e] eqn:Hstep; [|done]. simpl.
    intros [Hkeep Hall]%IH. split.
    + intros other Hother. apply Hkeep. by eapply create_dataframes_step_keeps.
    + intros name [->|Hin]%elem_of_cons; [|by apply Hall].
      apply Hkeep. by eapply create_dataframes_step_sets.
Qed.

End create_dataframes.

(** The record of selected columns does not depend on the test frames. *)
Lemma selected_name_loop
    train test test' Xtr Xte Xte' (y_train : gmap string Series) score_func k names d1 d2 d1' d2' :
  selected_name d1 = selected_name d2 →
  for_each_pure names (create_dataframes_step train test Xtr Xte y_train score_func k) d1
    = Returned d1' →
  for_each_pure names (create_dataframes_step train test' Xtr Xte' y_train score_func k) d2
    = Returned d2' →
  selected_name d1' = selected_name d2'.
Proof.
  revert d1 d2. induction names as [|n names IH]; intros d1 d2 Heq; simpl.
  - by intros [= <-] [= <-].
  - destruct (create_dataframes_step train test _ _ _ _ _ n d1) as [e1|] eqn:H1; [|done].
    destruct (create_dataframes_step train test' _ _ _ _ _ n d2) as [e2|] eqn:H2; [|done].
    simpl. apply IH.
    apply create_dataframes_step_inv in H1 as (y & sel & ? & ? & Hy & Hsel & _ & _ & ->).
    apply create_dataframes_step_inv in H2 as (y' & sel' & ? & ? & Hy' & Hsel' & _ & _ & ->).
    simpl. congruence.
Qed.

(** C1.  When [create_dataframes_dic] returns, then for every label of
    [out_names] the column list recorded in [selected_name] is what
    [select_best_descriptors] computes from the training descriptors and the
    label's training targets; the train matrix and the test matrix of the
    label are the fingerprint columns followed by the columns that this one
    list selects from the training and from the test descriptors (with
    distinct column labels these columns carry exactly the recorded names,
    in order); and the recorded lists are the same whatever test frames the
    function is given. *)
Theorem C1_test_columns_are_the_train_selection
    (df_desc_base_train df_desc_base_test X_train_fp X_test_fp : DataFrame float)
    (y_train : gmap string Series) (out_names : list string)
    (score_func : score_function) (k : Z) (d : dataframes_dic) :
  create_dataframes_dic df_desc_base_train df_desc_base_test X_train_fp X_test_fp
    y_train out_names score_func k = Returned d →
  (∀ name, name ∈ out_names →
     ∃ y sel_col train_cols test_cols,
       y_train !! name = Some y ∧
       select_best_descriptors df_desc_base_train y score_func k = Returned sel_col ∧
       selected_name d !! name = Some (Some sel_col) ∧
       loc_names df_desc_base_train sel_col = Returned train_cols ∧
       loc_names df_desc_base_test sel_col = Returned test_cols ∧
       train_series_dic d !! name = Some (Some (concat_columns X_train_fp train_cols)) ∧
       test_series_dic d !! name = Some (Some (concat_columns X_test_fp test_cols)) ∧
       (NoDup (columns df_desc_base_train) → columns train_cols = sel_col) ∧
       (NoDup (columns df_desc_base_test) → columns test_cols = sel_col)) ∧
  (∀ other_test other_fp d',
     create_dataframes_dic df_desc_base_train other_test X_train_fp other_fp
       y_train out_names score_func k = Returned d' →
     selected_name d' = selected_name d).
Proof.
  unfold create_dataframes_dic. intros Hrun. split.
  - intros name Hin.
    apply create_dataframes_loop in Hrun as [_ Hall].
    destruct (Hall name Hin) as (y & sel & tr & te & ? & ? & ? & Htr & Hte & ? & ?).
    exists y, sel, tr, te. split_and!; try done.
    + intros Hnd. by eapply columns_loc_names.
    + intros Hnd. by eapply columns_loc_names.
  - intros other_test other_fp d' Hrun'.
    by eapply selected_name_loop; [|exact Hrun'|exact Hrun].
Qed.

(** ** The categorical-feature mask *)

Lemma layout_mask_inj (a b c d : nat) :
  layout_mask a b = layout_mask c d → a = c ∧ b = d.
Proof.
  unfold layout_mask. revert c. induction a as [|a IH]; intros [|c]; simpl.
  - intros Heq. split; [done|].
    apply (f_equal length) in Heq. by rewrite !length_replicate in Heq.
  - destruct b; simpl; discriminate.
  - destruct d; simpl; discriminate.
  - intros [= Heq]. destruct (IH _ Heq) as [-> ->]. done.
Qed.

Lemma cat_shape_layout : cat_shape = layout_mask 1125 3.
Proof. vm_compute. reflexivity. Qed.

Lemma balance_dataset_unfold X_train_dic y_train_dic out_names random_state n_jobs verbose :
  balance_dataset X_train_dic y_train_dic out_names random_state n_jobs verbose =
  (bal ← for_each out_names (balance_step X_train_dic y_train_dic random_state n_jobs)
           {| train_series_dic_bal := dict_of_None out_names;
              y_dic_bal := dict_of_None out_names |};
   when_ verbose (for_each out_names (counts_step y_train_dic bal) ());;
   mret bal).
Proof. reflexivity. Qed.

Lemma balance_step_inv X_train_dic y_train_dic random_state n_jobs label bal bal' w w' :
  balance_step X_train_dic y_train_dic random_state n_jobs label bal w = (Returned bal', w') →
  ∃ X_imb y_imb X_bal y_bal,
    X_train_dic !! label = Some X_imb ∧
    y_train_dic !! label = Some y_imb ∧
    fit_resample (SMOTENC cat_shape random_state n_jobs) X_imb y_imb (env w)
      = (Returned (X_bal, y_bal), env w') ∧
    trace w' = trace w ∧
    bal' = {| train_series_dic_bal := <[label := Some X_bal]> (train_series_dic_bal bal);
              y_dic_bal := <[label := Some y_bal]> (y_dic_bal bal) |}.
Proof.
  unfold balance_step, getitem. rewrite run_bind, run_lift.
  destruct (X_train_dic !! label) as [X|]; [|done].
  rewrite run_bind, run_lift. destruct (y_train_dic !! label) as [y|]; [|done].
  rewrite run_bind. unfold call.
  destruct (fit_resample _ X y (env w)) as [[[X_bal y_bal]|x] e] eqn:Hfit; [|done].
  rewrite run_ret. intros [= <- <-]. by exists X, y, X_bal, y_bal.
Qed.

Lemma balance_loop X_train_dic y_train_dic random_state n_jobs names bal0 bal w w' :
  for_each names (balance_step X_train_dic y_train_dic random_state n_jobs) bal0 w
    = (Returned bal, w') →
  trace w' = trace w ∧
  dom (train_series_dic_bal bal) = list_to_set names ∪ dom (train_series_dic_bal bal0) ∧
  dom (y_dic_bal bal) = list_to_set names ∪ dom (y_dic_bal bal0) ∧
  (∀ label, balanced_entry X_train_dic y_train_dic random_state n_jobs label bal0 →
            balanced_entry X_train_dic y_train_dic random_state n_jobs label bal) ∧
  (∀ label, label ∈ names →
            balanced_entry X_train_dic y_train_dic random_state n_jobs label bal).
Proof.
  revert bal0 w. induction names as [|n names IH]; intros bal0 w; simpl.
  - rewrite run_ret. intros [= <- <-]. split_and!; [done|set_solver..|done|].
    by intros ? ?%not_elem_of_nil.
  - rewrite run_bind.
    destruct (balance_step _ _ _ _ n bal0 w) as [[bal1|x] w1] eqn:Hstep; [|done].
    intros (Htr & Hd1 & Hd2 & Hkeep & Hall)%IH.
    apply balance_step_inv in Hstep
      as (X & y & X_bal & y_bal & HX & Hy & Hfit & Htr1 & ->).
    simpl in Htr1.
    assert (balanced_entry X_train_dic y_train_dic random_state n_jobs n
              {| train_series_dic_bal := <[n := Some X_bal]> (train_series_dic_bal bal0);
                 y_dic_bal := <[n := Some y_bal]> (y_dic_bal bal0) |}) as Hn.
    { exists X, y, (env w), X_bal, y_bal, (env w1). simpl.
      by rewrite !lookup_insert_eq. }
    split_and!; [congruence| | | |].
    + rewrite Hd1. simpl. rewrite dom_insert_L. clear. set_solver.
    + rewrite Hd2. simpl. rewrite dom_insert_L. clear. set_solver.
    + intros label Hlabel. apply Hkeep.
      destruct (decide (n = label)) as [<-|Hne]; [done|].
      destruct Hlabel as (X' & y' & e & Xb & yb & e' & ? & ? & ? & ? & ?).
      exists X', y', e, Xb, yb, e'. simpl. by rewrite !lookup_insert_ne.
    + intros label [->|Hin]%elem_of_cons; [by apply Hkeep|by apply Hall].
Qed.

(** [balance_dataset] on a single label: the matrix of the label goes to the
    sampler with the mask of the function, and what the sampler does is what
    the function does. *)
Lemma balance_dataset_single X_train_dic y_train_dic label X_imb y_imb random_state n_jobs w :
  X_train_dic !! label = Some X_imb →
  y_train_dic !! label = Some y_imb →
  balance_dataset X_train_dic y_train_dic [label] random_state n_jobs false w =
  match fit_resample (SMOTENC cat_shape random_state n_jobs) X_imb y_imb (env w) with
  | (Returned (X_bal, y_bal), e) =>
      (Returned {| train_series_dic_bal := {[ label := Some X_bal ]};
                   y_dic_bal := {[ label := Some y_bal ]} |},
       {| env := e; trace := trace w |})
  | (Raised x, e) => (Raised x, {| env := e; trace := trace w |})
  end.
Proof.
  intros HX Hy. unfold balance_dataset, getitem, dict_of_None. simpl.
  rewrite !run_bind, HX, run_lift. cbv beta iota. rewrite run_bind, Hy, run_lift.
  cbv beta iota. rewrite run_bind. unfold call.
  destruct (fit_resample _ X_imb y_imb (env w)) as [[[X_bal y_bal]|x] e]; [|done].
  simpl. by rewrite !insert_insert_eq.
Qed.

Lemma for_loop_ext {A S R} (l : list A) (body1 body2 : A → S → M (flow S R)) s w :
  (∀ a s w, body1 a s w = body2 a s w) →
  for_loop l body1 s w = for_loop l body2 s w.
Proof.
  intros Hext. revert s w. induction l as [|a l IH]; intros s w; simpl; [done|].
  rewrite !run_bind, Hext.
  destruct (body2 a s w) as [[[s'|v]|e] w']; [apply IH|done|done].
Qed.

(** The fitting of one label in [test_score_multi_report]: with [balancing]
    it is the fitting without [balancing] of the pipeline that puts the
    sampler before the model. *)
Lemma fit_and_score_balancing
    X_train_dic y_train X_test y_test model random_state plot verbose n_jobs name :
  fit_and_score X_train_dic y_train X_test y_test model true random_state plot verbose
    n_jobs name =
  fit_and_score X_train_dic y_train X_test y_test
    (make_pipeline (SMOTENC (layout_mask 1125 3) random_state n_jobs) model) false
    random_state plot verbose n_jobs name.
Proof. unfold fit_and_score. rewrite cat_shape_layout. reflexivity. Qed.

(** The step of a label in [test_score_multi_report] when [spec_params] are
    given: with [balancing] it is the step without [balancing] and without
    [spec_params] on the pipeline of the sampler and the model that was
    built for the label. *)
Lemma test_label_scores_balancing
    X_train_dic y_train X_test y_test model modelname spec_params random_state plot verbose
    n_jobs name tag est w :
  truth_of_spec_params spec_params = true →
  modelname_at modelname name = Returned tag →
  model_temp_test tag spec_params name random_state = Returned (Some est) →
  test_label_scores X_train_dic y_train X_test y_test model modelname spec_params true
    random_state plot verbose n_jobs name w =
  test_label_scores X_train_dic y_train X_test y_test
    (make_pipeline (SMOTENC (layout_mask 1125 3) random_state n_jobs) est) modelname
    NoParams false random_state plot verbose n_jobs name w.
Proof.
  intros Htruth Htag Hest. unfold test_label_scores. rewrite Htruth.
  cbn [truth_of_spec_params]. rewrite !run_bind.
  destruct (when_ verbose _ w) as [[[]|x] u1]; [|done].
  rewrite !run_bind, run_lift, Htag, run_lift, Hest, run_ret.
  by rewrite fit_and_score_balancing.
Qed.

(** C7, as amended.  Every balancing site uses one and the same mask,
    whatever matrix it is applied to: 1128 entries, the first 1125
    categorical and the last 3 continuous.  It has the layout of a matrix of
    fingerprint columns followed by descriptor columns exactly when the
    matrix has 1125 fingerprint columns and 3 descriptor columns; no site
    looks at the matrix before it hands the mask to the library.
    [balance_dataset] gives every label's matrix to a sampler with this
    mask: on a single label its outcome is the outcome of that sampler, and
    on any list of labels every entry it returns was returned by such a
    sampler for the matrix of the label.  [grid_search], [random_search],
    [cv_report] and the fitting of a label in [test_score_multi_report] do
    with [balancing] what they do without it on the pipeline of a sampler
    with this mask and the model, whatever the training matrix is; for the
    two searches the call of the library is written out, and for
    [test_score_multi_report] the same is said of the whole report when no
    [spec_params] are given and of the step of a label when they are. *)
Theorem C7_mask_is_fixed_at_1125_plus_3 :
  length cat_shape = 1128 ∧
  cat_shape = layout_mask 1125 3 ∧
  (∀ fp desc : DataFrame float,
     cat_shape = layout_mask (n_columns fp) (n_columns desc) ↔
     n_columns fp = 1125 ∧ n_columns desc = 3) ∧
  (∀ X_train_dic y_train_dic label X_imb y_imb random_state n_jobs w,
     X_train_dic !! label = Some X_imb →
     y_train_dic !! label = Some y_imb →
     balance_dataset X_train_dic y_train_dic [label] random_state n_jobs false w =
     let sampler := SMOTENC (layout_mask 1125 3) random_state n_jobs in
     match fit_resample sampler X_imb y_imb (env w) with
     | (Returned (X_bal, y_bal), e) =>
         (Returned {| train_series_dic_bal := {[ label := Some X_bal ]};
                      y_dic_bal := {[ label := Some y_bal ]} |},
          {| env := e; trace := trace w |})
     | (Raised x, e) => (Raised x, {| env := e; trace := trace w |})
     end) ∧
  (∀ X_train_dic y_train_dic out_names random_state n_jobs verbose w bal w',
     balance_dataset X_train_dic y_train_dic out_names random_state n_jobs verbose w
       = (Returned bal, w') →
     ∀ label, label ∈ out_names →
       ∃ X_imb y_imb e X_bal y_bal e',
         X_train_dic !! label = Some X_imb ∧
         y_train_dic !! label = Some y_imb ∧
         fit_resample (SMOTENC (layout_mask 1125 3) random_state n_jobs) X_imb y_imb e
           = (Returned (X_bal, y_bal), e') ∧
         train_series_dic_bal bal !! label = Some (Some X_bal) ∧
         y_dic_bal bal !! label = Some (Some y_bal)) ∧
  (∀ X_train y_train model params_to_test n_splits scoring n_jobs random_state w,
     grid_search X_train y_train model params_to_test None None true n_splits scoring
       n_jobs false random_state w =
     let kf := {| n_splits := n_splits; kf_random_state := random_state |} in
     let sampler := SMOTENC (layout_mask 1125 3) random_state n_jobs in
     match GridSearchCV_fit (make_pipeline sampler model) params_to_test kf n_jobs false
             scoring X_train y_train (env w) with
     | (Returned s, e) =>
         (Returned (best_params_ s, best_estimator_ s), {| env := e; trace := trace w |})
     | (Raised x, e) => (Raised x, {| env := e; trace := trace w |})
     end) ∧
  (∀ X_train y_train model params_to_test n_iter n_splits scoring n_jobs random_state w,
     random_search X_train y_train model params_to_test None None true n_iter n_splits
       scoring n_jobs false random_state w =
     let kf := {| n_splits := n_splits; kf_random_state := random_state |} in
     let sampler := SMOTENC (layout_mask 1125 3) random_state n_jobs in
     match RandomizedSearchCV_fit (make_pipeline sampler model) params_to_test n_iter kf
             n_jobs false scoring None (as_array X_train) y_train (env w) with
     | (Returned s, e) =>
         (Returned (best_params_ s, best_estimator_ s), {| env := e; trace := trace w |})
     | (Raised x, e) => (Raised x, {| env := e; trace := trace w |})
     end) ∧
  (∀ X_train y_train model params_to_test X_test y_test n_splits scoring n_jobs verbose
     random_state,
     grid_search X_train y_train model params_to_test X_test y_test true n_splits scoring
       n_jobs verbose random_state =
     grid_search X_train y_train
       (make_pipeline (SMOTENC (layout_mask 1125 3) random_state n_jobs) model)
       params_to_test X_test y_test false n_splits scoring n_jobs verbose random_state) ∧
  (∀ X_train y_train model params_to_test X_test y_test n_iter n_splits scoring n_jobs
     verbose random_state,
     random_search X_train y_train model params_to_test X_test y_test true n_iter n_splits
       scoring n_jobs verbose random_state =
     random_search X_train y_train
       (make_pipeline (SMOTENC (layout_mask 1125 3) random_state n_jobs) model)
       params_to_test X_test y_test false n_iter n_splits scoring n_jobs verbose
       random_state) ∧
  (∀ estimator X_train y_train n_splits scoring_metrics random_state n_jobs verbose,
     cv_report estimator X_train y_train true n_splits scoring_metrics random_state n_jobs
       verbose =
     cv_report (make_pipeline (SMOTENC (layout_mask 1125 3) random_state n_jobs) estimator)
       X_train y_train false n_splits scoring_metrics random_state n_jobs verbose) ∧
  (∀ X_train_dic y_train X_test y_test model random_state plot verbose n_jobs name,
     fit_and_score X_train_dic y_train X_test y_test model true random_state plot verbose
       n_jobs name =
     fit_and_score X_train_dic y_train X_test y_test
       (make_pipeline (SMOTENC (layout_mask 1125 3) random_state n_jobs) model) false
       random_state plot verbose n_jobs name) ∧
  (∀ X_train_dic y_train X_test y_test out_names model modelname spec_params random_state
     plot verbose n_jobs w,
     truth_of_spec_params spec_params = false →
     test_score_multi_report X_train_dic y_train X_test y_test out_names model modelname
       spec_params true random_state plot verbose n_jobs w =
     test_score_multi_report X_train_dic y_train X_test y_test out_names
       (make_pipeline (SMOTENC (layout_mask 1125 3) random_state n_jobs) model) modelname
       spec_params false random_state plot verbose n_jobs w) ∧
  (∀ X_train_dic y_train X_test y_test model modelname spec_params random_state plot
     verbose n_jobs name tag est w,
     truth_of_spec_params spec_params = true →
     modelname_at modelname name = Returned tag →
     model_temp_test tag spec_params name random_state = Returned (Some est) →
     test_label_scores X_train_dic y_train X_test y_test model modelname spec_params true
       random_state plot verbose n_jobs name w =
     test_label_scores X_train_dic y_train X_test y_test
       (make_pipeline (SMOTENC (layout_mask 1125 3) random_state n_jobs) est) modelname
       NoParams false random_state plot verbose n_jobs name w).
Proof.
  split_and!.
  - vm_compute. reflexivity.
  - apply cat_shape_layout.
  - intros fp desc. rewrite cat_shape_layout. split.
    + by intros [-> ->]%layout_mask_inj.
    + by intros [-> ->].
  - intros X_train_dic y_train_dic label X_imb y_imb random_state n_jobs w HX Hy.
    rewrite <- cat_shape_layout. by apply balance_dataset_single.
  - intros X_train_dic y_train_dic out_names random_state n_jobs verbose w bal w'.
    rewrite balance_dataset_unfold, run_bind.
    destruct (for_each out_names _ _ w) as [[bal1|x] w1] eqn:Hloop; [|done].
    rewrite run_bind.
    destruct (when_ verbose _ w1) as [[[]|x] w2]; [|done].
    rewrite run_ret. intros [= <- _] label Hin.
    apply balance_loop in Hloop as (_ & _ & _ & _ & Hall).
    rewrite <- cat_shape_layout. apply (Hall label Hin).
  - intros. unfold grid_search. rewrite cat_shape_layout, run_bind. unfold call. simpl.
    by destruct (GridSearchCV_fit _ _ _ _ _ _ _ _ _) as [[s|x] e].
  - intros. unfold random_search. rewrite cat_shape_layout, run_bind. unfold call. simpl.
    by destruct (RandomizedSearchCV_fit _ _ _ _ _ _ _ _ _ _ _) as [[s|x] e].
  - intros. unfold grid_search. by rewrite cat_shape_layout.
  - intros. unfold random_search. by rewrite cat_shape_layout.
  - intros. unfold cv_report. by rewrite cat_shape_layout.
  - intros. apply fit_and_score_balancing.
  - intros X_train_dic y_train X_test y_test out_names model modelname spec_params
      random_state plot verbose n_jobs w Htruth.
    unfold test_score_multi_report. rewrite !run_bind.
    rewrite (for_loop_ext out_names _
               (label_step
                  (test_label_scores X_train_dic y_train X_test y_test
                     (make_pipeline (SMOTENC (layout_mask 1125 3) random_state n_jobs) model)
                     modelname spec_params false random_state plot verbose n_jobs)
                  fill_test)); [done|].
    intros name r u. unfold label_step, test_label_scores.
    rewrite Htruth, !run_bind.
    destruct (when_ verbose _ u) as [[[]|x] u1]; [|done].
    rewrite !run_bind, !run_ret. by rewrite fit_and_score_balancing.
  - intros. by eapply test_label_scores_balancing.
Qed.

(** ** What the searches leave to the library *)

(** Neither search looks at the parameter space or at the class counts
    itself: without [verbose], a search raises exactly when the library's
    [fit] raises on the estimator, the space and the fold splitter that the
    search hands over unchanged. *)
Lemma grid_search_raises_with_the_library
    X_train y_train model params_to_test X_test y_test balancing n_splits scoring n_jobs
    random_state w :
  is_Raised (grid_search X_train y_train model params_to_test X_test y_test balancing
               n_splits scoring n_jobs false random_state w).1 ↔
  is_Raised (GridSearchCV_fit
               (if balancing then make_pipeline (SMOTENC cat_shape random_state n_jobs) model
                else model)
               params_to_test {| n_splits := n_splits; kf_random_state := random_state |}
               n_jobs false scoring X_train y_train (env w)).1.
Proof.
  unfold grid_search. rewrite run_bind. unfold call.
  destruct balancing; simpl;
    by destruct (GridSearchCV_fit _ _ _ _ _ _ _ _ _) as [[s|x] e].
Qed.

Lemma random_search_raises_with_the_library
    X_train y_train model params_to_test X_test y_test balancing n_iter n_splits scoring
    n_jobs random_state w :
  is_Raised (random_search X_train y_train model params_to_test X_test y_test balancing
               n_iter n_splits scoring n_jobs false random_state w).1 ↔
  is_Raised (RandomizedSearchCV_fit
               (if balancing then make_pipeline (SMOTENC cat_shape random_state n_jobs) model
                else model)
               params_to_test n_iter
               {| n_splits := n_splits; kf_random_state := random_state |}
               n_jobs false scoring None (as_array X_train) y_train (env w)).1.
Proof.
  unfold random_search. rewrite run_bind. unfold call.
  destruct balancing; simpl;
    by destruct (RandomizedSearchCV_fit _ _ _ _ _ _ _ _ _ _ _) as [[s|x] e].
Qed.

(** ** The summary tables *)

Lemma append_if_new_elem (l : list string) (x : string) : x ∈ l → append_if_new l x = l.
Proof. intros Hx. unfold append_if_new. by destruct (decide (x ∈ l)). Qed.

Lemma elem_of_append_if_new (l : list string) (x : string) : x ∈ append_if_new l x.
Proof.
  unfold append_if_new. destruct (decide (x ∈ l)); [done|].
  apply elem_of_app. right. apply list_elem_of_here.
Qed.

Lemma append_if_new_twice (l : list string) (x : string) :
  append_if_new (append_if_new l x) x = append_if_new l x.
Proof. apply append_if_new_elem, elem_of_append_if_new. Qed.

Lemma for_loop_label_step_inv scores_of fill names r w r' w' :
  for_loop names (label_step scores_of fill) r w = (Returned (Continue r'), w') →
  ∃ scs, scs.*1 = names ∧ fills fill r scs = Returned r'.
Proof.
  revert r w. induction names as [|n names IH]; intros r w; simpl.
  - rewrite run_ret. intros [= <- <-]. by exists [].
  - rewrite run_bind. unfold label_step at 1. rewrite run_bind.
    destruct (scores_of n w) as [[[s|]|e] w1]; [|by rewrite run_ret|done].
    rewrite run_bind, run_lift.
    destruct (fill r n s) as [r1|e] eqn:Hfill; [|done].
    rewrite run_ret. intros (scs & <- & Hscs)%IH.
    exists ((n, s) :: scs). split; [done|]. simpl. by rewrite Hfill.
Qed.

(** The only value that the loop returns from inside is [None]. *)
Lemma for_loop_label_step_Return scores_of fill names r w v w' :
  for_loop names (label_step scores_of fill) r w = (Returned (Return v), w') → v = None.
Proof.
  revert r w. induction names as [|n names IH]; intros r w; simpl.
  - by rewrite run_ret.
  - rewrite run_bind. unfold label_step at 1. rewrite run_bind.
    destruct (scores_of n w) as [[[s|]|e] w1]; [|by rewrite !run_ret; intros [= <- _]|done].
    rewrite run_bind, run_lift. destruct (fill r n s); [|done].
    rewrite run_ret. apply IH.
Qed.

Lemma bind_Returned_inv {A B} (o : outcome A) (k : A → outcome B) (b : B) :
  o ≫= k = Returned b → ∃ a, o = Returned a ∧ k a = Returned b.
Proof. destruct o as [a|e]; [|done]. intros Hk. by exists a. Qed.

Lemma rounded_inv (s : gmap string float) (key : string) (v : float) :
  rounded s key = Returned v → ∃ x, s !! key = Some x ∧ v = py_round x 3.
Proof.
  unfold rounded, getitem. destruct (s !! key) as [x|]; [|done].
  intros [= <-]. by exists x.
Qed.

Ltac invert_rounded H :=
  repeat (apply bind_Returned_inv in H as (? & (? & _ & ->)%rounded_inv & H));
  injection H as <-.

Ltac keep_rounded :=
  repeat (rewrite lookup_insert; case_decide; [by eexists|]).

Ltac find_rounded :=
  repeat (rewrite lookup_insert_ne by (intros [=])); rewrite lookup_insert_eq; by eexists.

Lemma fill_cv_spec (r : table) (name : string) (s : gmap string float) (r' : table) :
  fill_cv r name s = Returned r' →
  index r' = append_if_new (index r) name ∧
  (report_columns r = cv_columns → report_columns r' = cv_columns) ∧
  (∀ col, col ∈ cv_columns → rounded_cell r' name col) ∧
  (∀ n c, rounded_cell r n c → rounded_cell r' n c).
Proof.
  unfold fill_cv. intros Hfill. invert_rounded Hfill. simpl. split_and!.
  - by rewrite !append_if_new_twice.
  - intros ->. vm_compute. reflexivity.
  - intros col Hcol. unfold rounded_cell. simpl.
    repeat (apply elem_of_cons in Hcol as [->|Hcol]; [find_rounded|]).
    by apply not_elem_of_nil in Hcol.
  - intros n c [v Hv]. unfold rounded_cell. simpl. keep_rounded. by exists v.
Qed.

Lemma fill_test_spec (r : table) (name : string) (s : gmap string float) (r' : table) :
  fill_test r name s = Returned r' →
  index r' = append_if_new (index r) name ∧
  (report_columns r = test_columns ∨
   report_columns r = test_columns ++ ["Average Prec-Rec"] →
   report_columns r' = test_columns ++ ["Average Prec-Rec"]) ∧
  (∀ col, col ∈ test_columns ++ ["Average Prec-Rec"] → rounded_cell r' name col) ∧
  (∀ n c, rounded_cell r n c → rounded_cell r' n c).
Proof.
  unfold fill_test. intros Hfill. invert_rounded Hfill. simpl. split_and!.
  - by rewrite !append_if_new_twice.
  - intros [-> | ->]; vm_compute; reflexivity.
  - intros col Hcol. unfold rounded_cell. simpl.
    repeat (apply elem_of_cons in Hcol as [->|Hcol]; [find_rounded|]).
    by apply not_elem_of_nil in Hcol.
  - intros n c [v Hv]. unfold rounded_cell. simpl. keep_rounded. by exists v.
Qed.

Lemma fills_cv_spec (scs : list (string * gmap string float)) (r r' : table) :
  fills fill_cv r scs = Returned r' →
  (∀ n, n ∈ scs.*1 → n ∈ index r) →
  report_columns r = cv_columns →
  index r' = index r ∧
  report_columns r' = cv_columns ∧
  (∀ n c, rounded_cell r n c → rounded_cell r' n c) ∧
  (∀ n c, n ∈ scs.*1 → c ∈ cv_columns → rounded_cell r' n c).
Proof.
  revert r. induction scs as [|[name s] scs IH]; intros r; simpl.
  - intros [= <-] _ Hcols. split_and!; try done. by intros n c ?%not_elem_of_nil.
  - intros (r1 & Hfill & Hrest)%bind_Returned_inv Hidx Hcols.
    apply fill_cv_spec in Hfill as (Hi1 & Hc1 & Hnew & Hkeep).
    rewrite append_if_new_elem in Hi1 by (apply Hidx, list_elem_of_here).
    destruct (IH r1 Hrest) as (Hi & Hc & Hkeep' & Hall).
    { intros n Hn. rewrite Hi1. apply Hidx. by apply list_elem_of_further. }
    { by apply Hc1. }
    split_and!; [congruence|done|by auto|].
    intros n c [->|Hn]%elem_of_cons Hcol; [by apply Hkeep', Hnew|by apply Hall].
Qed.

Lemma fills_test_spec (scs : list (string * gmap string float)) (r r' : table) :
  fills fill_test r scs = Returned r' →
  (∀ n, n ∈ scs.*1 → n ∈ index r) →
  report_columns r = test_columns ∨
  report_columns r = test_columns ++ ["Average Prec-Rec"] →
  index r' = index r ∧
  report_columns r' =
    (if decide (scs = []) then report_columns r
     else test_columns ++ ["Average Prec-Rec"]) ∧
  (∀ n c, rounded_cell r n c → rounded_cell r' n c) ∧
  (∀ n c, n ∈ scs.*1 → c ∈ test_columns ++ ["Average Prec-Rec"] → rounded_cell r' n c).
Proof.
  revert r. induction scs as [|[name s] scs IH]; intros r; simpl.
  - intros [= <-] _ Hcols. split_and!; try done. by intros n c ?%not_elem_of_nil.
  - intros (r1 & Hfill & Hrest)%bind_Returned_inv Hidx Hcols.
    apply fill_test_spec in Hfill as (Hi1 & Hc1 & Hnew & Hkeep).
    rewrite append_if_new_elem in Hi1 by (apply Hidx, list_elem_of_here).
    specialize (Hc1 Hcols).
    destruct (IH r1 Hrest) as (Hi & Hc & Hkeep' & Hall).
    { intros n Hn. rewrite Hi1. apply Hidx. by apply list_elem_of_further. }
    { by right. }
    split_and!; [congruence| |by auto|].
    + rewrite Hc. by destruct (decide (scs = [])).
    + intros n c [->|Hn]%elem_of_cons Hcol; [by apply Hkeep', Hnew|by apply Hall].
Qed.


(** ** Scoring on held-out data *)

Lemma run_emit (ev : event) (w : world) :
  emit ev w = (Returned (), {| env := env w; trace := trace w ++ [ev] |}).
Proof. reflexivity. Qed.

Ltac step :=
  rewrite run_bind;
  lazymatch goal with
  | |- context [lift ?o ?w] => rewrite (run_lift o w); destruct o eqn:?; [|try done]
  | |- context [print ?s ?w] => rewrite (run_print s w)
  | |- context [emit ?ev ?w] => rewrite (run_emit ev w)
  end.

(** C8.  [score_report] needs class probabilities.  On an estimator without
    [predict_proba] it raises, whatever the other arguments are.  When it
    returns a record of metrics, the estimator has [predict_proba]; the
    record's average precision is [average_precision_score] of the true
    labels and column 1 of the predicted probabilities (the scores of the
    positive class), and with [plot] the curve that is drawn is
    [precision_recall_curve] of the same two vectors: the hard predictions
    of [predict] enter neither. *)
Theorem C8_average_precision_from_probabilities
    (estimator : fitted) (X_test : array_like float) (y_test : Series)
    (verbose plot : bool) (name : option string) (w : world) :
  (predict_proba estimator = None →
   is_Raised (score_report estimator X_test y_test verbose plot name w).1) ∧
  (∀ scores w',
     score_report estimator X_test y_test verbose plot name w = (Returned scores, w') →
     ∃ proba probabilities y_score average_precision,
       predict_proba estimator = Some proba ∧
       proba X_test = Returned probabilities ∧
       column_at probabilities 1 = Returned y_score ∧
       average_precision_score y_test y_score = Returned average_precision ∧
       scores !! "prec_rec_score" = Some average_precision ∧
       (plot = true →
        ∃ precision recall thresholds,
          precision_recall_curve y_test y_score = Returned (precision, recall, thresholds) ∧
          PlotStep recall precision ∈ trace w' ∧
          PlotFill recall precision ∈ trace w')).
Proof.
  split.
  - intros Hnone. unfold score_report, get_predict_proba. rewrite Hnone.
    rewrite run_bind, run_lift. by destruct (predict estimator X_test).
  - intros scores w'. unfold score_report, get_predict_proba.
    step. destruct (predict_proba estimator) as [proba|]; [|done].
    rewrite run_bind, run_lift.
    rewrite run_bind, run_lift.
    destruct (proba X_test) as [probabilities|] eqn:Hproba; [|done].
    rewrite run_bind, run_lift.
    destruct (column_at probabilities 1) as [y_score|] eqn:Hcol; [|done].
    do 6 step.
    rewrite run_bind, run_lift.
    destruct (average_precision_score y_test y_score) as [ap|] eqn:Hap; [|done].
    rewrite run_bind.
    destruct (when_ verbose _ w) as [[[]|e] w1]; [|done].
    rewrite run_bind.
    destruct plot; unfold when_ at 1.
    + rewrite run_bind, run_lift.
      destruct (precision_recall_curve y_test y_score) as [[[precision recall] thr]|]
        eqn:Hcurve; [|done].
      do 3 step. rewrite run_emit, run_ret. intros [= <- <-].
      exists proba, probabilities, y_score, ap. split_and!; try done.
      intros _. exists precision, recall, thr. split; [done|]. simpl.
      rewrite !elem_of_app, !list_elem_of_singleton. split; auto.
    + rewrite !run_ret. intros [= <- <-].
      exists proba, probabilities, y_score, ap. by split_and!.
Qed.

(** ** Configuration errors *)

Lemma for_loop_app {A S R} (l1 l2 : list A) (body : A → S → M (flow S R)) s w :
  for_loop (l1 ++ l2) body s w =
  match for_loop l1 body s w with
  | (Returned (Continue s'), w') => for_loop l2 body s' w'
  | other => other
  end.
Proof.
  revert s w. induction l1 as [|a l1 IH]; intros s w; simpl; [done|].
  rewrite !run_bind. destruct (body a s w) as [[[s'|v]|e] w']; [apply IH|done|done].
Qed.

Lemma fill_cv_uniform : fill_uniform fill_cv.
Proof.
  intros r1 r2 n s. unfold fill_cv, mbind, outcome_mbind, outcome_bind.
  repeat (match goal with |- context [rounded s ?k] => destruct (rounded s k) end;
          [|done]).
  done.
Qed.

Lemma fill_test_uniform : fill_uniform fill_test.
Proof.
  intros r1 r2 n s. unfold fill_test, mbind, outcome_mbind, outcome_bind.
  repeat (match goal with |- context [rounded s ?k] => destruct (rounded s k) end;
          [|done]).
  done.
Qed.

Lemma for_loop_same scores_of fill names r1 r2 w :
  fill_uniform fill →
  same_flow (for_loop names (label_step scores_of fill) r1 w)
            (for_loop names (label_step scores_of fill) r2 w).
Proof.
  intros Hfill. revert r1 r2 w. induction names as [|n names IH]; intros r1 r2 w.
  - done.
  - cbn [for_loop]. rewrite !run_bind. unfold label_step at 1 3. rewrite !run_bind.
    destruct (scores_of n w) as [[[s|]|e] w1]; [|by rewrite !run_ret|done].
    rewrite !run_bind, !run_lift. specialize (Hfill r1 r2 n s).
    destruct (fill r1 n s), (fill r2 n s); try done.
    rewrite !run_ret. apply IH.
Qed.

(** The loop over [pre ++ name :: post] when the loop over [pre] falls
    through and the scores of [name] come back as [None]. *)
Lemma for_loop_aborts scores_of fill pre name post cols r w w1 w2 :
  fill_uniform fill →
  for_loop pre (label_step scores_of fill) (empty_report cols pre) w
    = (Returned (Continue r), w1) →
  scores_of name w1 = (Returned None, w2) →
  ∀ r0, for_loop (pre ++ name :: post) (label_step scores_of fill) r0 w
    = (Returned (Return None), w2).
Proof.
  intros Hfill Hpre Hname r0. rewrite for_loop_app.
  pose proof (for_loop_same scores_of fill pre (empty_report cols pre) r0 w Hfill) as Hsame.
  rewrite Hpre in Hsame.
  destruct (for_loop pre _ r0 w) as [[[r'|v]|e] w']; simpl in Hsame; try done.
  subst w'. simpl. rewrite run_bind. unfold label_step at 1.
  by rewrite run_bind, Hname, !run_ret.
Qed.

Lemma cv_label_scores_unknown_tag
    X_train_dic y_train model balancing modelname spec_params random_state n_splits n_jobs
    verbose name tag w :
  truth_of_spec_params spec_params = true →
  modelname_at modelname name = Returned tag →
  tag ∉ ["SVC"; "RF"; "XGB"; "VotingClassifier"] →
  cv_label_scores X_train_dic y_train model balancing modelname spec_params random_state
    n_splits n_jobs verbose name w
  = (Returned None, after w (heading verbose name ++ [Print specify_model])).
Proof.
  intros Htruth Htag Hunknown. unfold cv_label_scores. rewrite Htruth.
  assert (model_temp_cv tag spec_params name random_state n_jobs = Returned None) as Hnone.
  { unfold model_temp_cv. rewrite !not_elem_of_cons in Hunknown.
    destruct Hunknown as (? & ? & ? & ? & _). by rewrite !decide_False. }
  rewrite run_bind.
  assert (when_ verbose (print "";; print ("Scores for " +:+ name)) w
          = (Returned (), after w (heading verbose name))) as ->.
  { destruct verbose; unfold after; simpl; [|by rewrite app_nil_r, world_eta].
    rewrite run_bind, !run_print. simpl. by rewrite <- app_assoc. }
  rewrite !run_bind, run_lift, Htag. cbv beta iota.
  rewrite run_lift, Hnone. cbv beta iota. rewrite run_bind, run_print, run_ret.
  unfold after. simpl. by rewrite <- app_assoc.
Qed.

Lemma test_label_scores_unknown_tag
    X_train_dic y_train X_test y_test model modelname spec_params balancing random_state
    plot verbose n_jobs name tag w :
  truth_of_spec_params spec_params = true →
  modelname_at modelname name = Returned tag →
  tag ∉ ["SVC"; "RF"; "XGB"] →
  test_label_scores X_train_dic y_train X_test y_test model modelname spec_params
    balancing random_state plot verbose n_jobs name w
  = (Returned None, after w (heading verbose name ++ [Print specify_model])).
Proof.
  intros Htruth Htag Hunknown. unfold test_label_scores. rewrite Htruth.
  assert (model_temp_test tag spec_params name random_state = Returned None) as Hnone.
  { unfold model_temp_test. rewrite !not_elem_of_cons in Hunknown.
    destruct Hunknown as (? & ? & ? & _). by rewrite !decide_False. }
  rewrite run_bind.
  assert (when_ verbose (print "";; print ("Scores for " +:+ name)) w
          = (Returned (), after w (heading verbose name))) as ->.
  { destruct verbose; unfold after; simpl; [|by rewrite app_nil_r, world_eta].
    rewrite run_bind, !run_print. simpl. by rewrite <- app_assoc. }
  rewrite !run_bind, run_lift, Htag. cbv beta iota.
  rewrite run_lift, Hnone. cbv beta iota. rewrite run_bind, run_print, run_ret.
  unfold after. simpl. by rewrite <- app_assoc.
Qed.


(** ** Remote lookups *)

Lemma strip_zeros_zeros (n : nat) (rest : string) :
  strip_zeros (zeros n +:+ rest) = strip_zeros rest.
Proof. induction n as [|n IH]; [done|]. simpl. apply IH. Qed.

Lemma get_smile_from_cid_run (cid : string) (w : world) (res : response) (e' : ext) :
  requests_get (smiles_url (trim_cid cid)) (env w) = (Returned res, e') →
  get_smile_from_cid cid w =
  (Returned (strip_newlines (text res)),
   {| env := e';
      trace := trace w ++ HttpGet (smiles_url (trim_cid cid)) :: lookup_log cid res |}).
Proof.
  intros Hget. unfold get_smile_from_cid, lookup_log.
  rewrite run_bind, run_emit, run_bind. unfold call. simpl. rewrite Hget.
  rewrite run_bind.
  destruct (raise_for_status res) as [[]|e].
  - by rewrite !run_ret.
  - rewrite run_print, run_ret. simpl. by rewrite <- app_assoc.
Qed.

(** An exception of the request itself is not caught: the [try] of the code
    covers [raise_for_status] only. *)
Lemma get_smile_from_cid_propagates (cid : string) (w : world) (x : exn) (e' : ext) :
  requests_get (smiles_url (trim_cid cid)) (env w) = (Raised x, e') →
  (get_smile_from_cid cid w).1 = Raised x.
Proof.
  intros Hget. unfold get_smile_from_cid.
  rewrite run_bind, run_emit, run_bind. unfold call. simpl. by rewrite Hget.
Qed.

Lemma get_smile_from_cid_returns (cid : string) (w : world) :
  always_responds → ∃ s w', get_smile_from_cid cid w = (Returned s, w').
Proof.
  intros Hresp. specialize (Hresp (smiles_url (trim_cid cid)) (env w)).
  destruct (requests_get _ (env w)) as [[res|e] e'] eqn:Hget; [|done].
  erewrite get_smile_from_cid_run by done. eauto.
Qed.

Lemma smiles_of_stitchs_loop (stitchs : list string) (d : gmap string string) (w : world) :
  always_responds →
  ∃ d' w',
    for_each stitchs (λ stitch d,
      smile ← get_smile_from_cid stitch; mret (<[stitch := smile]> d)) d w
    = (Returned d', w') ∧
    ∀ s, is_Some (d !! s) ∨ s ∈ stitchs → is_Some (d' !! s).
Proof.
  intros Hresp. revert d w. induction stitchs as [|c stitchs IH]; intros d w; simpl.
  - exists d, w. rewrite run_ret. split; [done|].
    intros s [?|?%not_elem_of_nil]; done.
  - rewrite !run_bind.
    destruct (get_smile_from_cid_returns c w Hresp) as (smile & w1 & ->).
    rewrite run_ret.
    destruct (IH (<[c := smile]> d) w1) as (d' & w' & -> & Hd').
    exists d', w'. split; [done|]. intros s Hs. apply Hd'.
    rewrite elem_of_cons in Hs. destruct (decide (s = c)) as [->|Hne].
    + left. rewrite lookup_insert_eq. by eexists.
    + rewrite lookup_insert_ne by done. tauto.
Qed.

Lemma get_smile_from_cid_inv (cid : string) (w : world) (s : string) (w' : world) :
  get_smile_from_cid cid w = (Returned s, w') →
  ∃ res,
    requests_get (smiles_url (trim_cid cid)) (env w) = (Returned res, env w') ∧
    s = strip_newlines (text res) ∧
    trace w' = trace w ++ HttpGet (smiles_url (trim_cid cid)) :: lookup_log cid res.
Proof.
  destruct (requests_get (smiles_url (trim_cid cid)) (env w)) as [[res|x] e'] eqn:Hget.
  - rewrite (get_smile_from_cid_run _ _ _ _ Hget). intros [= <- <-]. by exists res.
  - intros Hrun. apply get_smile_from_cid_propagates in Hget. by rewrite Hrun in Hget.
Qed.

Lemma lookup_log_no_request (cid : string) (res : response) :
  filter (λ ev, is_request ev) (lookup_log cid res) = [] ∧
  ∀ path, ToCsv path ∉ lookup_log cid res.
Proof.
  unfold lookup_log. destruct (raise_for_status res); [split; [done|]|split; [done|]].
  - intros path. apply not_elem_of_nil.
  - intros path [?|?%not_elem_of_nil]%elem_of_cons; done.
Qed.

Lemma smiles_loop_log (stitchs : list string) (d d' : gmap string string) (w w' : world) :
  for_each stitchs (λ stitch d,
    smile ← get_smile_from_cid stitch; mret (<[stitch := smile]> d)) d w
  = (Returned d', w') →
  (∀ id s, d !! id = Some s → ∃ w1 w2, get_smile_from_cid id w1 = (Returned s, w2)) →
  (∀ id s, d' !! id = Some s → ∃ w1 w2, get_smile_from_cid id w1 = (Returned s, w2)) ∧
  (∀ id, id ∈ stitchs → is_Some (d' !! id)) ∧
  (∀ id, is_Some (d !! id) → is_Some (d' !! id)) ∧
  ∃ evs,
    trace w' = trace w ++ evs ∧
    filter (λ ev, is_request ev) evs
    = (λ s, HttpGet (smiles_url (trim_cid s))) <$> stitchs ∧
    ∀ path, ToCsv path ∉ evs.
Proof.
  revert d w. induction stitchs as [|c stitchs IH]; intros d w; cbn [for_each].
  { rewrite run_ret. intros [= <- <-] Hd. split_and!; [done| |done|].
    - by intros ? ?%not_elem_of_nil.
    - exists []. rewrite app_nil_r. split_and!; [done..|]. intros ?. apply not_elem_of_nil. }
  rewrite !run_bind.
  destruct (get_smile_from_cid c w) as [[smile|x] w1] eqn:Hget; [|done].
  rewrite run_ret. intros Hloop Hd.
  apply IH in Hloop as (Hd' & Hin & Hkeep & evs & Htr & Hreq & Hcsv).
  2:{ intros id s. destruct (decide (id = c)) as [->|Hne].
      - rewrite lookup_insert_eq. intros [= <-]. by exists w, w1.
      - rewrite lookup_insert_ne by done. apply Hd. }
  apply get_smile_from_cid_inv in Hget as (res & _ & _ & Htr1).
  destruct (lookup_log_no_request c res) as [Hlog Hlog'].
  split_and!; [done| | |].
  - intros id [->|?]%elem_of_cons; [|by apply Hin].
    apply Hkeep. rewrite lookup_insert_eq. by eexists.
  - intros id Hid. apply Hkeep. destruct (decide (id = c)) as [->|Hne].
    + rewrite lookup_insert_eq. by eexists.
    + by rewrite lookup_insert_ne.
  - exists ((HttpGet (smiles_url (trim_cid c)) :: lookup_log c res) ++ evs).
    split_and!.
    + by rewrite Htr, Htr1, <- app_assoc.
    + rewrite filter_app, filter_cons_True by done. rewrite Hlog, Hreq. done.
    + intros path [[?|?]%elem_of_cons|?]%elem_of_app; [done|by eapply Hlog'|by eapply Hcsv].
Qed.

Lemma for_each_app {A S} (l1 l2 : list A) (body : A → S → M S) s w :
  for_each (l1 ++ l2) body s w =
  match for_each l1 body s w with
  | (Returned s', w') => for_each l2 body s' w'
  | (Raised e, w') => (Raised e, w')
  end.
Proof.
  revert s w. induction l1 as [|a l1 IH]; intros s w; simpl; [done|].
  rewrite !run_bind. destruct (body a s w) as [[s'|e] w']; [apply IH|done].
Qed.

(** A request that raises is the end of the lookup: the exception leaves
    [get_smile_from_cid] as it is, after the request and before anything is
    printed. *)
Lemma get_smile_from_cid_raises (cid : string) (w : world) (x : exn) (e' : ext) :
  requests_get (smiles_url (trim_cid cid)) (env w) = (Raised x, e') →
  get_smile_from_cid cid w =
  (Raised x, {| env := e'; trace := trace w ++ [HttpGet (smiles_url (trim_cid cid))] |}).
Proof.
  intros Hget. unfold get_smile_from_cid.
  rewrite run_bind, run_emit, run_bind. unfold call. simpl. by rewrite Hget.
Qed.

(** The comprehension over a service that answers: it returns, every
    identifier has the stripped body of a response to its own request, and
    the requests that were sent are those of the identifiers, one each, in
    order. *)
Lemma smiles_of_stitchs_answered (stitchs : list string) (w : world) :
  always_responds →
  ∃ sti_to_smil w',
    smiles_of_stitchs stitchs w = (Returned sti_to_smil, w') ∧
    (∀ stitch, stitch ∈ stitchs →
       ∃ e res e1,
         requests_get (smiles_url (trim_cid stitch)) e = (Returned res, e1) ∧
         sti_to_smil !! stitch = Some (strip_newlines (text res))) ∧
    ∃ evs,
      trace w' = trace w ++ evs ∧
      filter (λ ev, is_request ev) evs
      = (λ s, HttpGet (smiles_url (trim_cid s))) <$> stitchs.
Proof.
  intros Hresp. unfold smiles_of_stitchs.
  destruct (smiles_of_stitchs_loop stitchs ∅ w Hresp) as (d & w' & Hrun & _).
  exists d, w'. split; [done|].
  apply smiles_loop_log in Hrun as (Hd & Hin & _ & evs & Htr & Hreq & _); [|done].
  split; [|by exists evs].
  intros stitch [s Hs]%Hin.
  destruct (Hd stitch s Hs) as (w1 & w2 & (res & Hget & -> & _)%get_smile_from_cid_inv).
  by exists (env w1), res, (env w2).
Qed.


End Properties.

(** * The properties on the small instance *)

#[local] Existing Instances Sample.values Sample.library.

(** The instance satisfies the hypotheses of C6: the two labels select
    [MolWt, LogP] and [LogP, TPSA], and the union has [LogP] once. *)
Lemma C6_witness :
  Sample.labels ≠ [] ∧
  select_best_descriptors_multi (Vs := Sample.values) Sample.desc_train Sample.y_train Sample.labels
    () 2 (Sample.start 0)
  = (Returned (Some ["MolWt"; "LogP"; "TPSA"]), Sample.start 0).
Proof.
  split; [discriminate|].
  destruct (C6_union_in_order_of_first_appearance (Vs := Sample.values)
              Sample.desc_train Sample.y_train Sample.labels () 2 (Sample.start 0)) as [Hret _];
    [discriminate|].
  apply (Hret [["MolWt"; "LogP"]; ["LogP"; "TPSA"]]).
  repeat constructor.
Defined.

(** The instance satisfies the hypothesis of C1. *)
Lemma C1_witness :
  ∃ d,
    create_dataframes_dic (Vs := Sample.values) Sample.desc_train Sample.desc_test Sample.fp_train
      Sample.fp_test Sample.y_train Sample.labels () 2 = Returned d ∧
    selected_name d !! "Eye disorders" = Some (Some ["LogP"; "TPSA"]) ∧
    ∃ test_cols,
      test_series_dic d !! "Eye disorders"
        = Some (Some (concat_columns Sample.fp_test test_cols)) ∧
      columns test_cols = ["LogP"; "TPSA"].
Proof.
  eexists.
  match goal with
  | |- ?run ∧ _ => assert run as Hrun by reflexivity; split; [exact Hrun|]
  end.
  destruct (C1_test_columns_are_the_train_selection _ _ _ _ _ _ _ _ _ Hrun) as [Hall _].
  destruct (Hall "Eye disorders")
    as (y & sel & tr & te & Hy & Hsel & Hname & _ & _ & _ & Hte & _ & Hcols).
  { apply list_elem_of_further, list_elem_of_here. }
  assert (sel = ["LogP"; "TPSA"]) as ->.
  { vm_compute in Hy. injection Hy as <-. vm_compute in Hsel. by injection Hsel. }
  split; [exact Hname|]. exists te. split; [exact Hte|].
  apply Hcols. apply (bool_decide_unpack _). by vm_compute.
Defined.

(** The instance satisfies the hypotheses under which C7 speaks of a single
    label of [balance_dataset] and of the step of a label of
    [test_score_multi_report] with [spec_params]. *)
Lemma C7_witness :
  Sample.X_train_dic !! "Eye disorders"
    = Some (Frame (Sample.fp_train ++ [("LogP", [1; 0; 2]); ("TPSA", [63; 20; 0])]%Z)) ∧
  Sample.y_train !! "Eye disorders" = Some [1; 0; 1]%Z ∧
  (∀ (Lib : Library) (w : world),
     balance_dataset (Vs := Sample.values) (Lib := Lib) Sample.X_train_dic Sample.y_train
       ["Eye disorders"] (Some 0%Z) (-1) false w =
     match fit_resample (Library := Lib) (SMOTENC (layout_mask 1125 3) (Some 0%Z) (-1))
             (Frame (Sample.fp_train ++ [("LogP", [1; 0; 2]); ("TPSA", [63; 20; 0])]%Z))
             [1; 0; 1]%Z (env w) with
     | (Returned (X_bal, y_bal), e) =>
         (Returned {| train_series_dic_bal := {[ "Eye disorders" := Some X_bal ]};
                      y_dic_bal := {[ "Eye disorders" := Some y_bal ]} |},
          {| env := e; trace := trace w |})
     | (Raised x, e) => (Raised x, {| env := e; trace := trace w |})
     end) ∧
  truth_of_spec_params (Vs := Sample.values) (ByLabel Sample.svc_params) = true ∧
  modelname_at (Some Sample.second_tag_unknown) "Cardiac disorders" = Returned "SVC" ∧
  ∃ est,
    model_temp_test (Vs := Sample.values) "SVC" (ByLabel Sample.svc_params) "Cardiac disorders"
      (Some 0%Z) = Returned (Some est) ∧
    ∀ (Lib : Library) (w : world),
      test_label_scores (Vs := Sample.values) (Lib := Lib) Sample.X_train_dic Sample.y_train
        Sample.X_test_dic Sample.y_test NoneModel (Some Sample.second_tag_unknown)
        (ByLabel Sample.svc_params) true (Some 0%Z) false false (-1) "Cardiac disorders" w =
      test_label_scores (Vs := Sample.values) (Lib := Lib) Sample.X_train_dic Sample.y_train
        Sample.X_test_dic Sample.y_test
        (make_pipeline (SMOTENC (layout_mask 1125 3) (Some 0%Z) (-1)) est)
        (Some Sample.second_tag_unknown) NoParams false (Some 0%Z) false false (-1)
        "Cardiac disorders" w.
Proof.
  assert (Sample.X_train_dic !! "Eye disorders"
          = Some (Frame (Sample.fp_train ++ [("LogP", [1; 0; 2]); ("TPSA", [63; 20; 0])]%Z)))
    as HX by (vm_compute; reflexivity).
  assert (Sample.y_train !! "Eye disorders" = Some [1; 0; 1]%Z) as Hy
    by (vm_compute; reflexivity).
  assert (truth_of_spec_params (Vs := Sample.values) (ByLabel Sample.svc_params) = true)
    as Htruth by (vm_compute; reflexivity).
  assert (modelname_at (Some Sample.second_tag_unknown) "Cardiac disorders" = Returned "SVC")
    as Htag by (vm_compute; reflexivity).
  split_and!; [exact HX|exact Hy| |exact Htruth|exact Htag|].
  - intros Lib' w.
    destruct (C7_mask_is_fixed_at_1125_plus_3 (Vs := Sample.values) (Lib := Lib'))
      as (_ & _ & _ & Hone & _).
    exact (Hone _ _ _ _ _ _ _ w HX Hy).
  - eexists. split; [reflexivity|]. intros Lib' w.
    destruct (C7_mask_is_fixed_at_1125_plus_3 (Vs := Sample.values) (Lib := Lib'))
      as (_ & _ & _ & _ & _ & _ & _ & _ & _ & _ & _ & _ & Hstep).
    apply (Hstep _ _ _ _ _ _ _ _ _ _ _ _ "SVC"); [exact Htruth|exact Htag|reflexivity].
Defined.

(** C7 fails as stated: the matrix of the label ["Cardiac disorders"], two
    fingerprint bits followed by two selected descriptors, is handed to the
    sampler with the mask of 1128 entries by [balance_dataset], whatever the
    library is and whatever the sampler then does with the two. *)
Lemma C7_counterexample :
  ∃ X y,
    Sample.X_train_dic !! "Cardiac disorders" = Some X ∧
    Sample.y_train !! "Cardiac disorders" = Some y ∧
    width X = 4 ∧
    length cat_shape = 1128 ∧
    length cat_shape ≠ width X ∧
    ∀ (Lib : Library) (random_state : option Z) (n_jobs : Z) (w : world),
      balance_dataset (Vs := Sample.values) (Lib := Lib) Sample.X_train_dic Sample.y_train
        ["Cardiac disorders"] random_state n_jobs false w =
      match fit_resample (Library := Lib) (SMOTENC cat_shape random_state n_jobs) X y (env w) with
      | (Returned (X_bal, y_bal), e) =>
          (Returned {| train_series_dic_bal := {[ "Cardiac disorders" := Some X_bal ]};
                       y_dic_bal := {[ "Cardiac disorders" := Some y_bal ]} |},
           {| env := e; trace := trace w |})
      | (Raised x, e) => (Raised x, {| env := e; trace := trace w |})
      end.
Proof.
  eexists _, _. split_and!; [reflexivity..|by vm_compute|by vm_compute|].
  intros Lib' random_state n_jobs w.
  by apply (balance_dataset_single (Vs := Sample.values) (Lib := Lib')).
Defined.



(** The instance shows both halves of C8: a classifier without
    [predict_proba] makes [score_report] raise, and for one with
    probabilities the average precision is computed from column 1 of
    them. *)
Lemma C8_witness :
  is_Raised (score_report (Vs := Sample.values) Sample.a_fitted_without_proba (Frame Sample.fp_test)
               [0; 1]%Z false false None (Sample.start 0)).1 ∧
  ∃ scores w',
    score_report (Vs := Sample.values) Sample.a_fitted (Frame Sample.fp_test) [0; 1]%Z false true
      (Some "Eye disorders") (Sample.start 0) = (Returned scores, w') ∧
    scores !! "prec_rec_score" = Some 3%Z ∧
    PlotStep (Vs := Sample.values) [3; 8; 9]%Z [3; 8; 9]%Z ∈ trace w'.
Proof.
  split.
  - by apply (C8_average_precision_from_probabilities (Vs := Sample.values)).
  - eexists _, _.
    match goal with
    | |- ?run ∧ _ => assert run as Hrun by reflexivity; split; [exact Hrun|]
    end.
    destruct (C8_average_precision_from_probabilities (Vs := Sample.values) Sample.a_fitted
                (Frame Sample.fp_test) [0; 1]%Z false true (Some "Eye disorders")
                (Sample.start 0)) as [_ Hret].
    destruct (Hret _ _ Hrun)
      as (proba & pr & ys & ap & Hp & Hpr & Hys & Hap & Hscore & Hplot).
    injection Hp as <-. vm_compute in Hpr. injection Hpr as <-.
    vm_compute in Hys. injection Hys as <-. vm_compute in Hap. injection Hap as <-.
    split; [exact Hscore|].
    destruct (Hplot eq_refl) as (p & r & th & Hcurve & Hstep & _).
    vm_compute in Hcurve. injection Hcurve as <- <- <-. exact Hstep.
Defined.





(** C4, the run that shows the defect.  For every library and every
    [random_state], [random_search] builds its searcher with the searcher's
    own [random_state] left at [None]; the seed that the caller fixed goes
    to the sampler of the balancing step and to the fold splitter only.  On
    the small instance, whose searcher then draws from the global generator
    as scikit-learn's does, two runs in a row on the same data with the same
    [random_state = 0] return different best parameters. *)
Theorem C4_random_search_does_not_seed_its_sampler :
  (∀ (Vs : Values) (Lib : Library) X_train y_train model params_to_test n_iter n_splits
     scoring n_jobs random_state w,
     random_search X_train y_train model params_to_test None None false n_iter n_splits
       scoring n_jobs false random_state w =
     let kf := {| n_splits := n_splits; kf_random_state := random_state |} in
     match RandomizedSearchCV_fit model params_to_test n_iter kf n_jobs false scoring None
             (as_array X_train) y_train (env w) with
     | (Returned s, e) =>
         (Returned (best_params_ s, best_estimator_ s), {| env := e; trace := trace w |})
     | (Raised x, e) => (Raised x, {| env := e; trace := trace w |})
     end) ∧
  ∃ first second est1 est2 w1 w2,
    random_search (Vs := Sample.values) (Frame Sample.fp_train) [0; 1; 1]%Z (UserModel "model")
      Sample.two_configs None None false 1 5 "f1" (-1) false (Some 0%Z) (Sample.start 0)
    = (Returned (first, est1), w1) ∧
    random_search (Vs := Sample.values) (Frame Sample.fp_train) [0; 1; 1]%Z (UserModel "model")
      Sample.two_configs None None false 1 5 "f1" (-1) false (Some 0%Z) w1
    = (Returned (second, est2), w2) ∧
    first !! "C" = Some 1%Z ∧
    second !! "C" = Some 10%Z.
Proof.
  split.
  - intros. unfold random_search. rewrite run_bind. unfold call. simpl.
    by destruct (RandomizedSearchCV_fit _ _ _ _ _ _ _ _ _ _ _) as [[s|x] e].
  - eexists _, _, _, _, _, _. split_and!; reflexivity.
Qed.

(** * Further properties of the code *)

Section Coverage.
Context {Vs : Values} {Lib : Library}.

#[local] Set Warnings "-clear-no-such-hyp".

(** ** Feature selection *)

Lemma mask_columns_sublist {V} (df : DataFrame V) (mask : list bool) :
  sublist (columns (mask_columns df mask)) (columns df).
Proof.
  unfold columns, DataFrame in *. revert mask.
  induction df as [|c df IH]; intros [|b mask]; simpl; try apply sublist_nil_l.
  destruct b; simpl; [apply sublist_skip|apply sublist_cons]; apply IH.
Qed.

Lemma mask_columns_length {V} (df : DataFrame V) (mask : list bool) :
  length mask = length df →
  length (columns (mask_columns df mask)) = length (filter (eq true) mask).
Proof.
  unfold columns, DataFrame in *. revert mask.
  induction df as [|c df IH]; intros [|b mask]; simpl; try done.
  intros [= Hlen]. destruct b.
  - rewrite filter_cons_True by done. simpl. f_equal. by apply IH.
  - rewrite filter_cons_False by done. by apply IH.
Qed.

Lemma select_best_descriptors_masked
    (X : DataFrame float) (y : Series) (score_func : score_function) (k : Z)
    (mask : list bool) :
  SelectKBest_get_support score_func k X y = Returned mask →
  length mask = n_columns X → filter (eq true) mask ≠ [] →
  ∃ sel,
    select_best_descriptors X y score_func k = Returned sel ∧
    sel = columns (mask_columns X mask) ∧
    sel ≠ [] ∧
    sublist sel (columns X) ∧
    length sel = length (filter (eq true) mask).
Proof.
  intros Hmask Hlen Hsome. unfold select_best_descriptors, loc_mask, n_columns in *.
  rewrite Hmask. simpl. rewrite decide_True by done. simpl.
  pose proof (mask_columns_length X mask Hlen) as Hn.
  assert (columns (mask_columns X mask) ≠ []) as Hne.
  { intros Heq. rewrite Heq in Hn. by destruct (filter (eq true) mask). }
  rewrite decide_False by done. eexists. split_and!; try done.
  apply mask_columns_sublist.
Qed.

(** X1.  How [select_best_descriptors] ends, by the support mask that the
    selector returns.  A mask that is not as long as the frame is wide is an
    [IndexError]; a mask that keeps no column trips the assertion; any other
    mask gives the labels of the kept columns: a list that is not empty, in
    the column order of the frame, with one name for every [True] of the
    mask. *)
Theorem select_best_descriptors_by_mask
    (X : DataFrame float) (y : Series) (score_func : score_function) (k : Z)
    (mask : list bool) :
  SelectKBest_get_support score_func k X y = Returned mask →
  (length mask ≠ n_columns X →
   select_best_descriptors X y score_func k = Raised (IndexError "Item wrong length")) ∧
  (length mask = n_columns X → filter (eq true) mask = [] →
   select_best_descriptors X y score_func k = Raised AssertionError) ∧
  (length mask = n_columns X → filter (eq true) mask ≠ [] →
   ∃ sel,
     select_best_descriptors X y score_func k = Returned sel ∧
     sel = columns (mask_columns X mask) ∧
     sel ≠ [] ∧
     sublist sel (columns X) ∧
     length sel = length (filter (eq true) mask)).
Proof.
  intros Hmask. split_and!.
  - intros Hlen. unfold select_best_descriptors, loc_mask, n_columns in *.
    rewrite Hmask. simpl. by rewrite decide_False.
  - intros Hlen Hnone. unfold select_best_descriptors, loc_mask, n_columns in *.
    rewrite Hmask. simpl. rewrite decide_True by done. simpl.
    pose proof (mask_columns_length X mask Hlen) as Hn. rewrite Hnone in Hn.
    destruct (columns (mask_columns X mask)); [|done]. by rewrite decide_True.
  - intros Hlen Hsome. by apply select_best_descriptors_masked.
Qed.

(** A selection is made of column labels of the frame. *)
Lemma label_selection_columns df_desc y_all score_func k n sel c :
  label_selection df_desc y_all score_func k n = Returned sel →
  c ∈ sel → c ∈ columns df_desc.
Proof.
  unfold label_selection, loc_mask.
  intros (y & _ & (mask & _ & Hloc)%bind_Returned_inv)%bind_Returned_inv.
  destruct (decide (length mask = length df_desc)); [|done]. simpl in Hloc.
  injection Hloc as <-. intros Hc.
  by eapply elem_of_sublist; [|apply mask_columns_sublist].
Qed.

(** X2.  Every name that [select_best_descriptors_multi] returns is a column
    label of the descriptor frame it was given. *)
Theorem select_best_descriptors_multi_within_columns
    (df_desc : DataFrame float) (y_all : gmap string Series) (out_names : list string)
    (score_func : score_function) (k : Z) (w w' : world) (selected : list string) :
  select_best_descriptors_multi df_desc y_all out_names score_func k w
    = (Returned (Some selected), w') →
  ∀ c, c ∈ selected → c ∈ columns df_desc.
Proof.
  unfold select_best_descriptors_multi.
  destruct (decide (out_names = [])); [by rewrite run_bind, run_print, run_ret|].
  rewrite run_bind.
  destruct (for_each out_names _ [] w) as [[sel|e] w1] eqn:Hloop; [|done].
  rewrite run_ret. intros [= <- <-].
  apply select_multi_loop_inv in Hloop as (_ & sels & Hsels & ->).
  intros c. rewrite foldl_extend_selected, extend_selected_nil, elem_of_first_appearance.
  rewrite elem_of_concat. intros (s & Hs & Hc).
  apply list_elem_of_lookup in Hs as [i Hi].
  destruct (Forall2_lookup_r _ _ _ _ _ Hsels Hi) as (label & _ & Hlabel).
  by eapply label_selection_columns.
Qed.

(** X3.  A label of [out_names] without a target vector in [y_all] makes
    [select_best_descriptors_multi] raise; nothing is printed and the world
    is as before. *)
Theorem select_best_descriptors_multi_missing_label
    (df_desc : DataFrame float) (y_all : gmap string Series) (out_names : list string)
    (score_func : score_function) (k : Z) (w : world) (label : string) :
  label ∈ out_names →
  y_all !! label = None →
  ∃ e, select_best_descriptors_multi df_desc y_all out_names score_func k w = (Raised e, w).
Proof.
  intros Hin Hnone. unfold select_best_descriptors_multi.
  destruct (decide (out_names = [])) as [->|_]; [by apply not_elem_of_nil in Hin|].
  rewrite run_bind.
  cut (∀ acc, ∃ e, for_each out_names (select_multi_body df_desc y_all score_func k) acc w
                   = (Raised e, w)).
  { intros Hloop. destruct (Hloop []) as [e ->]. by exists e. }
  induction out_names as [|n names IH]; [by apply not_elem_of_nil in Hin|].
  intros acc. simpl. rewrite run_bind, select_multi_body_run.
  destruct (label_selection df_desc y_all score_func k n) as [s|e] eqn:Hn; [|by exists e].
  apply elem_of_cons in Hin as [->|Hin]; [|by apply IH].
  unfold label_selection, getitem in Hn. by rewrite Hnone in Hn.
Qed.

(** ** The per-label data sets *)

Lemma dom_dict_of_None {A} (names : list string) :
  dom (dict_of_None (A := A) names) = list_to_set names.
Proof.
  unfold dict_of_None.
  cut (∀ d : gmap string (option A),
         dom (foldl (λ d name, <[name := None]> d) d names) = list_to_set names ∪ dom d).
  { intros Hd. rewrite Hd, dom_empty_L. set_solver. }
  induction names as [|n names IH]; intros d; simpl; [set_solver|].
  rewrite IH, dom_insert_L. set_solver.
Qed.

Lemma columns_named_nonempty {V} (df : DataFrame V) (n : string) :
  n ∈ columns df ↔ columns_named n df ≠ [].
Proof.
  unfold columns, columns_named, DataFrame in *. split.
  - intros (c & -> & Hc)%list_elem_of_fmap Hnil.
    assert (c ∈ filter (λ c' : string * list V, c'.1 = c.1) df) as Hin
      by (by apply list_elem_of_filter).
    rewrite Hnil in Hin. by apply not_elem_of_nil in Hin.
  - destruct (filter _ df) as [|c cs] eqn:Hf; [done|]. intros _.
    assert (c ∈ filter (λ c' : string * list V, c'.1 = n) df) as Hin
      by (rewrite Hf; apply list_elem_of_here).
    apply list_elem_of_filter in Hin as [<- Hin]. by apply list_elem_of_fmap_2.
Qed.

(** Selecting by labels goes through exactly when every label is carried by
    a column. *)
Lemma loc_names_returns {V} (df : DataFrame V) (names : list string) :
  (∀ n, n ∈ names → n ∈ columns df) ↔ ∃ cols, loc_names df names = Returned cols.
Proof.
  induction names as [|n names IH]; simpl.
  - split; [by eexists|]. by intros _ n ?%not_elem_of_nil.
  - split.
    + intros Hall.
      assert (columns_named n df ≠ []) as Hn
        by (apply columns_named_nonempty, Hall, list_elem_of_here).
      destruct (columns_named n df) as [|c cs]; [done|].
      destruct (proj1 IH) as [rest ->]; [|by eexists].
      intros m Hm. by apply Hall, list_elem_of_further.
    + intros [cols Hcols] m Hm.
      destruct (columns_named n df) as [|c cs] eqn:Hn; [done|].
      destruct (loc_names df names) as [rest|e] eqn:Hrest; [|done].
      apply elem_of_cons in Hm as [->|Hm].
      * apply columns_named_nonempty. by rewrite Hn.
      * apply (proj2 IH); by eauto.
Qed.

Lemma select_best_descriptors_columns X y score_func k sel c :
  select_best_descriptors X y score_func k = Returned sel → c ∈ sel → c ∈ columns X.
Proof.
  unfold select_best_descriptors, loc_mask.
  intros (mask & _ & (df & Hloc & Hsel)%bind_Returned_inv)%bind_Returned_inv.
  destruct (decide (length mask = length X)); [|done]. injection Hloc as <-.
  destruct (decide (columns (mask_columns X mask) = [])); [done|].
  injection Hsel as <-. intros Hc.
  by eapply elem_of_sublist; [|apply mask_columns_sublist].
Qed.

(** X4.  The three dictionaries of [create_dataframes_dic] have the labels of
    [out_names] as their keys and no other key. *)
Theorem create_dataframes_dic_keys
    (df_desc_base_train df_desc_base_test X_train_fp X_test_fp : DataFrame float)
    (y_train : gmap string Series) (out_names : list string)
    (score_func : score_function) (k : Z) (d : dataframes_dic) :
  create_dataframes_dic df_desc_base_train df_desc_base_test X_train_fp X_test_fp
    y_train out_names score_func k = Returned d →
  dom (train_series_dic d) = list_to_set out_names ∧
  dom (test_series_dic d) = list_to_set out_names ∧
  dom (selected_name d) = list_to_set out_names.
Proof.
  unfold create_dataframes_dic.
  assert (∀ names d0 d1,
    for_each_pure names
      (create_dataframes_step df_desc_base_train df_desc_base_test X_train_fp X_test_fp
         y_train score_func k) d0 = Returned d1 →
    dom (train_series_dic d1) = list_to_set names ∪ dom (train_series_dic d0) ∧
    dom (test_series_dic d1) = list_to_set names ∪ dom (test_series_dic d0) ∧
    dom (selected_name d1) = list_to_set names ∪ dom (selected_name d0)) as Hloop.
  { induction names as [|n names IH]; intros d0 d1; simpl.
    - intros [= <-]. set_solver.
    - intros (d' & Hstep & Hrest)%bind_Returned_inv.
      apply create_dataframes_step_inv in Hstep as (? & ? & ? & ? & _ & _ & _ & _ & ->).
      destruct (IH _ _ Hrest) as (-> & -> & ->). simpl. rewrite !dom_insert_L. set_solver. }
  intros (H1 & H2 & H3)%Hloop. simpl in H1, H2, H3.
  rewrite H1, H2, H3, !dom_dict_of_None. split_and!; apply (idemp_L (∪)).
Qed.

(** X5.  [create_dataframes_dic] returns whenever every label has a target
    vector, the selector gives for it a mask as long as the training frame is
    wide with at least one [True], and every column label of the training
    descriptors is a column label of the test descriptors. *)
Theorem create_dataframes_dic_returns
    (df_desc_base_train df_desc_base_test X_train_fp X_test_fp : DataFrame float)
    (y_train : gmap string Series) (out_names : list string)
    (score_func : score_function) (k : Z) :
  (∀ name, name ∈ out_names →
     ∃ y mask,
       y_train !! name = Some y ∧
       SelectKBest_get_support score_func k df_desc_base_train y = Returned mask ∧
       length mask = n_columns df_desc_base_train ∧
       filter (eq true) mask ≠ []) →
  (∀ c, c ∈ columns df_desc_base_train → c ∈ columns df_desc_base_test) →
  ∃ d, create_dataframes_dic df_desc_base_train df_desc_base_test X_train_fp X_test_fp
         y_train out_names score_func k = Returned d.
Proof.
  intros Hlabels Htest. unfold create_dataframes_dic.
  generalize (Build_dataframes_dic (dict_of_None out_names) (dict_of_None out_names)
                (dict_of_None out_names)) as d0.
  induction out_names as [|n names IH]; intros d0; [by eexists|].
  cbn [for_each_pure].
  destruct (Hlabels n) as (y & mask & Hy & Hmask & Hlen & Htrue);
    [apply list_elem_of_here|].
  destruct (select_best_descriptors_masked _ _ _ _ _ Hmask Hlen Htrue) as (sel & Hrun & _).
  assert (∀ c, c ∈ sel → c ∈ columns df_desc_base_train) as Hcols
    by (intros c; by eapply select_best_descriptors_columns).
  destruct (proj1 (loc_names_returns df_desc_base_train sel) Hcols) as [tr Htr].
  destruct (proj1 (loc_names_returns df_desc_base_test sel)) as [te Hte]; [by auto|].
  assert (∃ d1, create_dataframes_step df_desc_base_train df_desc_base_test X_train_fp
                  X_test_fp y_train score_func k n d0 = Returned d1) as [d1 Hstep].
  { unfold create_dataframes_step, getitem. rewrite Hy. simpl.
    rewrite Hrun. simpl. rewrite Htr. simpl. rewrite Hte. simpl. by eexists. }
  rewrite Hstep. simpl.
  apply IH. intros name Hname. by apply Hlabels, list_elem_of_further.
Qed.

(** X6.  A label whose selected columns are not all in the test descriptors
    makes [create_dataframes_dic] raise: no dictionary is returned, whatever
    the other labels are. *)
Theorem create_dataframes_dic_test_lacks_column
    (df_desc_base_train df_desc_base_test X_train_fp X_test_fp : DataFrame float)
    (y_train : gmap string Series) (out_names : list string)
    (score_func : score_function) (k : Z) (label : string) (y : Series)
    (sel_col : list string) (c : string) :
  label ∈ out_names →
  y_train !! label = Some y →
  select_best_descriptors df_desc_base_train y score_func k = Returned sel_col →
  c ∈ sel_col →
  c ∉ columns df_desc_base_test →
  is_Raised (create_dataframes_dic df_desc_base_train df_desc_base_test X_train_fp
               X_test_fp y_train out_names score_func k).
Proof.
  intros Hin Hy Hsel Hc Hmissing. unfold create_dataframes_dic.
  generalize (Build_dataframes_dic (dict_of_None out_names) (dict_of_None out_names)
                (dict_of_None out_names)) as d0.
  induction out_names as [|n names IH]; intros d0; [by apply not_elem_of_nil in Hin|].
  simpl.
  destruct (create_dataframes_step _ _ _ _ _ _ _ n d0) as [d1|e] eqn:Hstep; [|done].
  simpl. apply elem_of_cons in Hin as [<-|Hin]; [|by apply IH].
  exfalso.
  apply create_dataframes_step_inv in Hstep as (y' & sel & tr & te & Hy' & Hsel' & _ & Hte & _).
  assert (sel = sel_col) as -> by congruence.
  apply Hmissing. eapply (proj2 (loc_names_returns df_desc_base_test sel_col)); by eauto.
Qed.

(** ** Balancing *)

(** X7.  When [balance_dataset] returns without [verbose], nothing has been
    printed; its two dictionaries have the labels of [out_names] as their
    keys and no other; and under every label they hold the matrix and the
    targets that the sampler, built with the fixed mask and the given
    [random_state] and [n_jobs], returned for the matrix and the targets of
    that very label. *)
Theorem balance_dataset_entries
    (X_train_dic : gmap string (array_like float)) (y_train_dic : gmap string Series)
    (out_names : list string) (random_state : option Z) (n_jobs : Z)
    (w w' : world) (bal : balanced_dic) :
  balance_dataset X_train_dic y_train_dic out_names random_state n_jobs false w
    = (Returned bal, w') →
  trace w' = trace w ∧
  dom (train_series_dic_bal bal) = list_to_set out_names ∧
  dom (y_dic_bal bal) = list_to_set out_names ∧
  ∀ label, label ∈ out_names →
    balanced_entry X_train_dic y_train_dic random_state n_jobs label bal.
Proof.
  rewrite balance_dataset_unfold, run_bind.
  destruct (for_each out_names _ _ w) as [[bal1|x] w1] eqn:Hloop; [|done].
  rewrite run_bind. unfold when_. rewrite !run_ret. intros [= <- <-].
  apply balance_loop in Hloop as (Htr & Hd1 & Hd2 & _ & Hall). simpl in Hd1, Hd2.
  rewrite dom_dict_of_None in Hd1. rewrite dom_dict_of_None in Hd2.
  split_and!; [done|by rewrite Hd1, (idemp_L (∪))|by rewrite Hd2, (idemp_L (∪))|done].
Qed.

(** X8.  A label of [out_names] that has no matrix or no target vector makes
    [balance_dataset] raise: no dictionary comes back, not even for the
    labels that were resampled before. *)
Theorem balance_dataset_missing_label
    (X_train_dic : gmap string (array_like float)) (y_train_dic : gmap string Series)
    (out_names : list string) (random_state : option Z) (n_jobs : Z) (verbose : bool)
    (w : world) (label : string) :
  label ∈ out_names →
  X_train_dic !! label = None ∨ y_train_dic !! label = None →
  is_Raised (balance_dataset X_train_dic y_train_dic out_names random_state n_jobs
               verbose w).1.
Proof.
  intros Hin Hnone. rewrite balance_dataset_unfold, run_bind.
  destruct (for_each out_names _ _ w) as [[bal1|x] w1] eqn:Hloop; [|done].
  exfalso. apply balance_loop in Hloop as (_ & _ & _ & _ & Hall).
  destruct (Hall label Hin) as (? & ? & ? & ? & ? & ? & HX & Hy & _).
  destruct Hnone; congruence.
Qed.

Lemma counts_loop y_train_dic bal names w :
  (∀ label, label ∈ names →
     is_Some (y_train_dic !! label) ∧ is_Some (y_dic_bal bal !! label)) →
  ∃ lines,
    for_each names (counts_step y_train_dic bal) () w = (Returned (), after w lines) ∧
    length lines = 3 * length names.
Proof.
  revert w. induction names as [|n names IH]; intros w Hall; simpl.
  - exists []. rewrite run_ret. unfold after. by rewrite app_nil_r, world_eta.
  - destruct (Hall n) as [[y Hy] [yb Hyb]]; [apply list_elem_of_here|].
    rewrite run_bind. unfold counts_step at 1, getitem.
    rewrite run_bind, run_print. cbv beta iota.
    rewrite run_bind, run_lift, Hy. cbv beta iota.
    rewrite run_bind, run_print. cbv beta iota.
    rewrite run_bind, run_lift, Hyb. cbv beta iota. rewrite run_print.
    match goal with
    | |- context [for_each names _ () ?w1] => destruct (IH w1) as (lines & -> & Hlen)
    end.
    { intros label Hlabel. by apply Hall, list_elem_of_further. }
    eexists (_ :: _ :: _ :: lines). split.
    + unfold after. simpl. by rewrite <- !app_assoc.
    + simpl. lia.
Qed.

(** X9.  [verbose] only adds printed lines to [balance_dataset]: the same
    dictionaries come back, the outside state ends the same, and three lines
    per label are printed after all labels have been resampled. *)
Theorem balance_dataset_verbose_only_prints
    (X_train_dic : gmap string (array_like float)) (y_train_dic : gmap string Series)
    (out_names : list string) (random_state : option Z) (n_jobs : Z)
    (w w' : world) (bal : balanced_dic) :
  balance_dataset X_train_dic y_train_dic out_names random_state n_jobs false w
    = (Returned bal, w') →
  ∃ lines,
    balance_dataset X_train_dic y_train_dic out_names random_state n_jobs true w
      = (Returned bal, after w' lines) ∧
    length lines = 3 * length out_names.
Proof.
  rewrite !balance_dataset_unfold, !run_bind.
  destruct (for_each out_names _ _ w) as [[bal1|x] w1] eqn:Hloop; [|done].
  rewrite !run_bind. unfold when_. rewrite !run_ret. intros [= <- <-].
  apply balance_loop in Hloop as (_ & _ & _ & _ & Hall).
  destruct (counts_loop y_train_dic bal1 out_names w1) as (lines & -> & Hlen).
  { intros label (? & ? & ? & ? & ? & ? & _ & Hy & _ & _ & Hyb)%Hall.
    split; by eexists. }
  exists lines. by rewrite run_ret.
Qed.

(** ** The searches *)

Lemma and_truth_not_true {A B} (X_test : option A) (y_test : option B) :
  and_truth X_test y_test ≠ Returned true.
Proof. by destruct X_test. Qed.

Lemma print_scores_run (means stds : list float) (params : list config) (w : world) :
  print_scores means stds params w = (Returned (), after w (score_lines means stds params)).
Proof.
  revert stds params w. unfold after.
  induction means as [|m means IH]; intros [|s stds] [|p params] w; simpl;
    try (by rewrite run_ret, app_nil_r, world_eta).
  rewrite run_bind, run_print, IH. simpl. by rewrite <- app_assoc.
Qed.

Lemma report_search_without_test (s : search) (y_test : option Series) (with_matrix : bool)
    (w : world) :
  report_search s None y_test with_matrix w = (Returned (), after w (search_lines s)).
Proof.
  unfold report_search, search_lines, after.
  rewrite run_bind, run_print. cbv beta iota.
  rewrite run_bind, run_print. cbv beta iota.
  rewrite run_bind, print_scores_run. cbv beta iota.
  do 5 (rewrite run_bind, run_print; cbv beta iota).
  rewrite run_bind, run_lift. simpl. rewrite run_ret.
  by rewrite <- !app_assoc.
Qed.

Lemma report_search_with_test (s : search) (X_test : DataFrame float)
    (y_test : option Series) (with_matrix : bool) (w : world) :
  report_search s (Some X_test) y_test with_matrix w =
  (Raised (ValueError "The truth value of a DataFrame is ambiguous"),
   after w (search_lines s)).
Proof.
  unfold report_search, search_lines, after.
  rewrite run_bind, run_print. cbv beta iota.
  rewrite run_bind, run_print. cbv beta iota.
  rewrite run_bind, print_scores_run. cbv beta iota.
  do 5 (rewrite run_bind, run_print; cbv beta iota).
  rewrite run_bind, run_lift. simpl.
  by rewrite <- !app_assoc.
Qed.

(** X10.  [grid_search] under [verbose], for a search that the library fits.
    Without a held-out frame the function prints the scores of all
    candidates and the best parameters, and returns the best parameters and
    the refitted estimator of the search.  With a held-out frame it prints
    the same lines and then raises a [ValueError], because the frame is used
    as a condition: the fitted search is lost and the classification report
    on the held-out data is never printed. *)
Theorem grid_search_verbose
    (X_train : array_like float) (y_train : Series) (model : estimator)
    (params_to_test : param_space) (y_test : option Series) (balancing : bool)
    (n_splits : Z) (scoring : string) (n_jobs : Z) (random_state : option Z)
    (w : world) (s : search) (e : ext) :
  GridSearchCV_fit (searched_estimator balancing model random_state n_jobs) params_to_test
    {| n_splits := n_splits; kf_random_state := random_state |} n_jobs true scoring
    X_train y_train (env w) = (Returned s, e) →
  grid_search X_train y_train model params_to_test None y_test balancing n_splits scoring
    n_jobs true random_state w
  = (Returned (best_params_ s, best_estimator_ s),
     {| env := e; trace := trace w ++ search_lines s |}) ∧
  ∀ X_test,
    grid_search X_train y_train model params_to_test (Some X_test) y_test balancing n_splits
      scoring n_jobs true random_state w
    = (Raised (ValueError "The truth value of a DataFrame is ambiguous"),
       {| env := e; trace := trace w ++ search_lines s |}).
Proof.
  intros Hfit. unfold grid_search, searched_estimator in *. split; [|intros X_test].
  - rewrite run_bind. unfold call.
    destruct balancing; rewrite Hfit; unfold when_;
      by rewrite run_bind, report_search_without_test, run_ret.
  - rewrite run_bind. unfold call.
    destruct balancing; rewrite Hfit; unfold when_;
      by rewrite run_bind, report_search_with_test.
Qed.

(** X11.  The same for [random_search], whose searcher is fitted on the values of
    the training matrix without their column labels. *)
Theorem random_search_verbose
    (X_train : array_like float) (y_train : Series) (model : estimator)
    (params_to_test : param_space) (y_test : option Series) (balancing : bool)
    (n_iter n_splits : Z) (scoring : string) (n_jobs : Z) (random_state : option Z)
    (w : world) (s : search) (e : ext) :
  RandomizedSearchCV_fit (searched_estimator balancing model random_state n_jobs)
    params_to_test n_iter {| n_splits := n_splits; kf_random_state := random_state |}
    n_jobs true scoring None (as_array X_train) y_train (env w) = (Returned s, e) →
  random_search X_train y_train model params_to_test None y_test balancing n_iter n_splits
    scoring n_jobs true random_state w
  = (Returned (best_params_ s, best_estimator_ s),
     {| env := e; trace := trace w ++ search_lines s |}) ∧
  ∀ X_test,
    random_search X_train y_train model params_to_test (Some X_test) y_test balancing n_iter
      n_splits scoring n_jobs true random_state w
    = (Raised (ValueError "The truth value of a DataFrame is ambiguous"),
       {| env := e; trace := trace w ++ search_lines s |}).
Proof.
  intros Hfit. unfold random_search, searched_estimator in *. split; [|intros X_test].
  - rewrite run_bind. unfold call.
    destruct balancing; rewrite Hfit; unfold when_;
      by rewrite run_bind, report_search_without_test, run_ret.
  - rewrite run_bind. unfold call.
    destruct balancing; rewrite Hfit; unfold when_;
      by rewrite run_bind, report_search_with_test.
Qed.

Lemma grid_search_inv
    X_train y_train model params_to_test X_test y_test balancing n_splits scoring n_jobs
    verbose random_state w p est w' :
  grid_search X_train y_train model params_to_test X_test y_test balancing n_splits scoring
    n_jobs verbose random_state w = (Returned (p, est), w') →
  ∃ s,
    GridSearchCV_fit (searched_estimator balancing model random_state n_jobs) params_to_test
      {| n_splits := n_splits; kf_random_state := random_state |} n_jobs verbose scoring
      X_train y_train (env w) = (Returned s, env w') ∧
    p = best_params_ s ∧ est = best_estimator_ s ∧
    (verbose = false → trace w' = trace w) ∧
    (verbose = true → X_test = None).
Proof.
  unfold grid_search, searched_estimator. rewrite run_bind. unfold call.
  destruct balancing;
    (destruct (GridSearchCV_fit _ _ _ _ _ _ _ _ _) as [[s|x] e] eqn:Hfit; [|done];
     rewrite run_bind; destruct verbose; unfold when_;
     [ destruct X_test as [Xt|];
       [ by rewrite report_search_with_test
       | rewrite report_search_without_test, run_ret; intros [= <- <- <-];
         exists s; by split_and! ]
     | rewrite !run_ret; intros [= <- <- <-]; exists s; by split_and! ]).
Qed.

Lemma random_search_inv
    X_train y_train model params_to_test X_test y_test balancing n_iter n_splits scoring
    n_jobs verbose random_state w p est w' :
  random_search X_train y_train model params_to_test X_test y_test balancing n_iter n_splits
    scoring n_jobs verbose random_state w = (Returned (p, est), w') →
  ∃ s,
    RandomizedSearchCV_fit (searched_estimator balancing model random_state n_jobs)
      params_to_test n_iter {| n_splits := n_splits; kf_random_state := random_state |}
      n_jobs verbose scoring None (as_array X_train) y_train (env w) = (Returned s, env w') ∧
    p = best_params_ s ∧ est = best_estimator_ s ∧
    (verbose = false → trace w' = trace w) ∧
    (verbose = true → X_test = None).
Proof.
  unfold random_search, searched_estimator. rewrite run_bind. unfold call.
  destruct balancing;
    (destruct (RandomizedSearchCV_fit _ _ _ _ _ _ _ _ _ _ _) as [[s|x] e] eqn:Hfit; [|done];
     rewrite run_bind; destruct verbose; unfold when_;
     [ destruct X_test as [Xt|];
       [ by rewrite report_search_with_test
       | rewrite report_search_without_test, run_ret; intros [= <- <- <-];
         exists s; by split_and! ]
     | rewrite !run_ret; intros [= <- <- <-]; exists s; by split_and! ]).
Qed.

(** ** The multi-label searches *)

Lemma multi_label_loop_inv search X_train_dic y_train params_to_test test label best best'
    w w' :
  multi_label_loop search X_train_dic y_train params_to_test test label best w
    = (Returned best', w') →
  ∃ X y params Xt yt p est,
    X_train_dic !! label = Some X ∧
    y_train !! label = Some y ∧
    params_to_test !! label = Some params ∧
    search X y params Xt yt (after w (announcement label)) = (Returned (p, est), w') ∧
    best' = <[label := Some p]> best.
Proof.
  unfold multi_label_loop, getitem.
  rewrite run_bind, run_print. cbv beta iota.
  rewrite run_bind, run_print. cbv beta iota.
  rewrite run_bind, run_lift. destruct (X_train_dic !! label) as [X|]; [|done].
  rewrite run_bind, run_lift. destruct (y_train !! label) as [y|]; [|done].
  rewrite run_bind, run_lift. destruct (params_to_test !! label) as [params|]; [|done].
  rewrite run_bind.
  destruct test as [[XT YT]|].
  - unfold getitem. rewrite run_bind, run_lift.
    destruct (XT !! label) as [Xt|]; [|done]. rewrite run_bind, run_lift.
    destruct (targets_at YT label) as [yt|]; [|done]. rewrite run_ret, run_bind. simpl.
    match goal with
    | |- context [search X y (?a) (?b) (?c) ?w0] =>
        replace w0 with (after w (announcement label))
          by (unfold after, announcement; simpl; by rewrite <- app_assoc)
    end.
    destruct (search X y params _ _ _) as [[[p est]|x] w2] eqn:Hsearch; [|done].
    rewrite run_ret. intros [= <- <-]. by exists X, y, params, (Some Xt), (Some yt), p, est.
  - rewrite run_ret, run_bind. simpl.
    match goal with
    | |- context [search X y (?a) (?b) (?c) ?w0] =>
        replace w0 with (after w (announcement label))
          by (unfold after, announcement; simpl; by rewrite <- app_assoc)
    end.
    destruct (search X y params _ _ _) as [[[p est]|x] w2] eqn:Hsearch; [|done].
    rewrite run_ret. intros [= <- <-]. by exists X, y, params, None, None, p, est.
Qed.

Lemma multi_label_for_each search X_train_dic y_train params_to_test test names best0 best
    w w' :
  for_each names (multi_label_loop search X_train_dic y_train params_to_test test) best0 w
    = (Returned best, w') →
  dom best = list_to_set names ∪ dom best0 ∧
  (∀ label, searched_entry search X_train_dic y_train params_to_test label best0 →
            searched_entry search X_train_dic y_train params_to_test label best) ∧
  (∀ label, label ∈ names →
            searched_entry search X_train_dic y_train params_to_test label best) ∧
  (quiet search → trace w' = trace w ++ flat_map announcement names).
Proof.
  revert best0 w. induction names as [|n names IH]; intros best0 w; simpl.
  - rewrite run_ret. intros [= <- <-]. split_and!; [clear; set_solver|done| |].
    + by intros ? ?%not_elem_of_nil.
    + by rewrite app_nil_r.
  - rewrite run_bind.
    destruct (multi_label_loop _ _ _ _ _ n best0 w) as [[best1|x] w1] eqn:Hstep; [|done].
    intros (Hd & Hkeep & Hall & Htr)%IH.
    apply multi_label_loop_inv in Hstep
      as (X & y & params & Xt & yt & p & est & HX & Hy & Hp & Hsearch & ->).
    assert (searched_entry search X_train_dic y_train params_to_test n
              (<[n := Some p]> best0)) as Hn.
    { exists X, y, params, Xt, yt, (after w (announcement n)), p, est, w1.
      by rewrite lookup_insert_eq. }
    split_and!.
    + rewrite Hd, dom_insert_L. clear. set_solver.
    + intros label Hlabel. apply Hkeep.
      destruct (decide (n = label)) as [<-|Hne]; [done|].
      destruct Hlabel as (X' & y' & ps' & Xt' & yt' & w1' & p' & est' & w2' & ? & ? & ? & ? & ?).
      exists X', y', ps', Xt', yt', w1', p', est', w2'. by rewrite lookup_insert_ne.
    + intros label [->|Hin]%elem_of_cons; [by apply Hkeep|by apply Hall].
    + intros Hquiet. rewrite (Htr Hquiet), (Hquiet _ _ _ _ _ _ _ _ Hsearch).
      unfold after, announcement. simpl. by rewrite <- !app_assoc.
Qed.

Lemma multi_label_search_inv search X_train_dic y_train out_names params_to_test X_test y_test
    best w w' :
  multi_label_search search X_train_dic y_train out_names params_to_test X_test y_test w
    = (Returned best, w') →
  ∃ test,
    for_each out_names (multi_label_loop search X_train_dic y_train params_to_test test)
      (dict_of_None out_names) w = (Returned best, w') ∧
    (test_set_given X_test y_test = Returned false → test = None) ∧
    (test_set_given X_test y_test = Returned true → is_Some test).
Proof.
  unfold multi_label_search. rewrite run_bind, run_lift.
  destruct (test_set_given X_test y_test) as [[|]|x] eqn:Hgiven; [| |done].
  - destruct X_test as [XT|]; [|done].
    destruct y_test as [YT|];
      [|by unfold test_set_given in Hgiven; simpl in Hgiven; destruct (bool_decide _)].
    intros Hloop. exists (Some (XT, YT)). by split_and!.
  - intros Hloop. exists None. split_and!; [|done..].
    by destruct X_test, y_test.
Qed.

Lemma grid_search_quiet model balancing n_splits scoring n_jobs random_state :
  quiet (λ X y params Xt yt,
           grid_search X y model params Xt yt balancing n_splits scoring n_jobs false
             random_state).
Proof.
  intros X y params Xt yt w [p est] w' (s & _ & _ & _ & Htr & _)%grid_search_inv. by apply Htr.
Qed.

Lemma random_search_quiet model balancing n_iter n_splits scoring n_jobs random_state :
  quiet (λ X y params Xt yt,
           random_search X y model params Xt yt balancing n_iter n_splits scoring n_jobs
             false random_state).
Proof.
  intros X y params Xt yt w [p est] w' (s & _ & _ & _ & Htr & _)%random_search_inv.
  by apply Htr.
Qed.

(** X12.  When [multi_label_grid_search] returns, the dictionary has the labels of
    [out_names] as its keys and no other, and under every label it holds the
    best parameters of a grid search that the library fitted on the matrix,
    the targets and the parameter grid of that very label, with the
    estimator, folds, scoring and verbosity of the call.  Without [verbose]
    the two announcement lines of every label, in the order of [out_names],
    are all that has been printed. *)
Theorem multi_label_grid_search_entries
    (X_train_dic : gmap string (array_like float)) (y_train : gmap string Series)
    (out_names : list string) (model : estimator)
    (params_to_test : gmap string param_space) (balancing : bool)
    (X_test : option (gmap string (DataFrame float))) (y_test : option targets)
    (n_splits : Z) (scoring : string) (n_jobs : Z) (verbose : bool)
    (random_state : option Z) (w w' : world) (best : gmap string (option config)) :
  multi_label_grid_search X_train_dic y_train out_names model params_to_test balancing
    X_test y_test n_splits scoring n_jobs verbose random_state w = (Returned best, w') →
  dom best = list_to_set out_names ∧
  (∀ label, label ∈ out_names →
     ∃ X y params e s e',
       X_train_dic !! label = Some X ∧
       y_train !! label = Some y ∧
       params_to_test !! label = Some params ∧
       GridSearchCV_fit (searched_estimator balancing model random_state n_jobs) params
         {| n_splits := n_splits; kf_random_state := random_state |} n_jobs verbose scoring
         X y e = (Returned s, e') ∧
       best !! label = Some (Some (best_params_ s))) ∧
  (verbose = false → trace w' = trace w ++ flat_map announcement out_names).
Proof.
  unfold multi_label_grid_search.
  intros (test & (Hd & _ & Hall & Htr)%multi_label_for_each & _)%multi_label_search_inv.
  rewrite dom_dict_of_None in Hd. split_and!.
  - by rewrite Hd, (idemp_L (∪)).
  - intros label (X & y & params & Xt & yt & w1 & p & est & w2 & HX & Hy & Hp & Hrun & Hbest)%Hall.
    apply grid_search_inv in Hrun as (s & Hfit & -> & _).
    by exists X, y, params, (env w1), s, (env w2).
  - intros ->. apply Htr, grid_search_quiet.
Qed.

(** X13.  The same for [multi_label_random_search]: every label of [out_names]
    holds the best parameters of a randomized search that the library fitted
    on the values of the matrix of that label, its targets and its parameter
    space. *)
Theorem multi_label_random_search_entries
    (X_train_dic : gmap string (array_like float)) (y_train : gmap string Series)
    (out_names : list string) (model : estimator)
    (params_to_test : gmap string param_space) (balancing : bool)
    (X_test : option (gmap string (DataFrame float))) (y_test : option targets)
    (n_iter n_splits : Z) (scoring : string) (n_jobs : Z) (verbose : bool)
    (random_state : option Z) (w w' : world) (best : gmap string (option config)) :
  multi_label_random_search X_train_dic y_train out_names model params_to_test balancing
    X_test y_test n_iter n_splits scoring n_jobs verbose random_state w
    = (Returned best, w') →
  dom best = list_to_set out_names ∧
  (∀ label, label ∈ out_names →
     ∃ X y params e s e',
       X_train_dic !! label = Some X ∧
       y_train !! label = Some y ∧
       params_to_test !! label = Some params ∧
       RandomizedSearchCV_fit (searched_estimator balancing model random_state n_jobs)
         params n_iter {| n_splits := n_splits; kf_random_state := random_state |} n_jobs
         verbose scoring None (as_array X) y e = (Returned s, e') ∧
       best !! label = Some (Some (best_params_ s))) ∧
  (verbose = false → trace w' = trace w ++ flat_map announcement out_names).
Proof.
  unfold multi_label_random_search.
  intros (test & (Hd & _ & Hall & Htr)%multi_label_for_each & _)%multi_label_search_inv.
  rewrite dom_dict_of_None in Hd. split_and!.
  - by rewrite Hd, (idemp_L (∪)).
  - intros label (X & y & params & Xt & yt & w1 & p & est & w2 & HX & Hy & Hp & Hrun & Hbest)%Hall.
    apply random_search_inv in Hrun as (s & Hfit & -> & _).
    by exists X, y, params, (env w1), s, (env w2).
  - intros ->. apply Htr, random_search_quiet.
Qed.

Lemma multi_label_search_missing search X_train_dic y_train out_names params_to_test X_test
    y_test w label :
  label ∈ out_names →
  X_train_dic !! label = None ∨ y_train !! label = None ∨ params_to_test !! label = None →
  is_Raised (multi_label_search search X_train_dic y_train out_names params_to_test X_test
               y_test w).1.
Proof.
  intros Hin Hnone.
  destruct (multi_label_search _ _ _ _ _ _ _ w) as [[best|x] w'] eqn:Hrun; [|done].
  exfalso.
  apply multi_label_search_inv in Hrun
    as (test & (_ & _ & Hall & _)%multi_label_for_each & _).
  destruct (Hall label Hin) as (? & ? & ? & ? & ? & ? & ? & ? & ? & HX & Hy & Hp & _).
  destruct Hnone as [?|[?|?]]; congruence.
Qed.

(** X14.  A label of [out_names] without a training matrix, without training
    targets or without a parameter space makes both multi-label searches
    raise: no dictionary comes back, not even for the labels that were
    searched before. *)
Theorem multi_label_searches_missing_label
    (X_train_dic : gmap string (array_like float)) (y_train : gmap string Series)
    (out_names : list string) (model : estimator)
    (params_to_test : gmap string param_space) (balancing : bool)
    (X_test : option (gmap string (DataFrame float))) (y_test : option targets)
    (n_iter n_splits : Z) (scoring : string) (n_jobs : Z) (verbose : bool)
    (random_state : option Z) (w : world) (label : string) :
  label ∈ out_names →
  X_train_dic !! label = None ∨ y_train !! label = None ∨ params_to_test !! label = None →
  is_Raised (multi_label_grid_search X_train_dic y_train out_names model params_to_test
               balancing X_test y_test n_splits scoring n_jobs verbose random_state w).1 ∧
  is_Raised (multi_label_random_search X_train_dic y_train out_names model params_to_test
               balancing X_test y_test n_iter n_splits scoring n_jobs verbose
               random_state w).1.
Proof.
  intros Hin Hnone. split; by eapply multi_label_search_missing.
Qed.

Lemma multi_label_search_held_out search X_train_dic y_train out_names params_to_test X_test
    y_test w :
  refuses_held_out search →
  out_names ≠ [] →
  test_set_given X_test y_test ≠ Returned false →
  is_Raised (multi_label_search search X_train_dic y_train out_names params_to_test X_test
               y_test w).1.
Proof.
  intros Hrefuses Hnames Hgiven.
  destruct (multi_label_search _ _ _ _ _ _ _ w) as [[best|x] w'] eqn:Hrun; [|done].
  exfalso. revert Hrun. unfold multi_label_search. rewrite run_bind, run_lift.
  destruct (test_set_given X_test y_test) as [[|]|x] eqn:Hg; [|done..].
  destruct X_test as [XT|]; [|done].
  destruct y_test as [YT|];
    [|by unfold test_set_given in Hg; simpl in Hg; destruct (bool_decide _)].
  destruct out_names as [|n names]; [done|]. simpl. rewrite run_bind.
  destruct (multi_label_loop _ _ _ _ _ n _ w) as [[best1|x] w1] eqn:Hstep; [|done].
  intros _. revert Hstep. unfold multi_label_loop, getitem.
  rewrite run_bind, run_print. cbv beta iota.
  rewrite run_bind, run_print. cbv beta iota.
  rewrite run_bind, run_lift. destruct (X_train_dic !! n) as [X|]; [|done].
  rewrite run_bind, run_lift. destruct (y_train !! n) as [y|]; [|done].
  rewrite run_bind, run_lift. destruct (params_to_test !! n) as [params|]; [|done].
  rewrite run_bind, run_bind, run_lift. destruct (XT !! n) as [Xt|]; [|done].
  rewrite run_bind, run_lift. destruct (targets_at YT n) as [yt|]; [|done].
  rewrite run_ret, run_bind. simpl.
  match goal with
  | |- context [search X y params (Some Xt) (Some yt) ?w0] =>
      pose proof (Hrefuses X y params Xt (Some yt) w0) as Hr;
      destruct (search X y params (Some Xt) (Some yt) w0) as [[r|x] w2]
  end; done.
Qed.

Lemma grid_search_refuses_held_out model balancing n_splits scoring n_jobs random_state :
  refuses_held_out (λ X y params Xt yt,
    grid_search X y model params Xt yt balancing n_splits scoring n_jobs true random_state).
Proof.
  intros X y params Xt yt w.
  destruct (grid_search _ _ _ _ _ _ _ _ _ _ _ _ w) as [[[p est]|x] w'] eqn:Hrun; [|done].
  apply grid_search_inv in Hrun as (_ & _ & _ & _ & _ & Hnone). by specialize (Hnone eq_refl).
Qed.

Lemma random_search_refuses_held_out model balancing n_iter n_splits scoring n_jobs
    random_state :
  refuses_held_out (λ X y params Xt yt,
    random_search X y model params Xt yt balancing n_iter n_splits scoring n_jobs true
      random_state).
Proof.
  intros X y params Xt yt w.
  destruct (random_search _ _ _ _ _ _ _ _ _ _ _ _ _ w) as [[[p est]|x] w'] eqn:Hrun; [|done].
  apply random_search_inv in Hrun as (_ & _ & _ & _ & _ & Hnone).
  by specialize (Hnone eq_refl).
Qed.

(** X15.  With [verbose] and at least one label, neither multi-label search ever
    returns once held-out data is passed in a form that the test
    [if X_test and y_test] does not take for absent: a held-out frame of
    targets has no truth value, and otherwise the search of the first label
    gets a held-out frame and raises.  The report on the held-out data is
    out of reach. *)
Theorem multi_label_searches_verbose_held_out
    (X_train_dic : gmap string (array_like float)) (y_train : gmap string Series)
    (out_names : list string) (model : estimator)
    (params_to_test : gmap string param_space) (balancing : bool)
    (X_test : option (gmap string (DataFrame float))) (y_test : option targets)
    (n_iter n_splits : Z) (scoring : string) (n_jobs : Z)
    (random_state : option Z) (w : world) :
  out_names ≠ [] →
  test_set_given X_test y_test ≠ Returned false →
  is_Raised (multi_label_grid_search X_train_dic y_train out_names model params_to_test
               balancing X_test y_test n_splits scoring n_jobs true random_state w).1 ∧
  is_Raised (multi_label_random_search X_train_dic y_train out_names model params_to_test
               balancing X_test y_test n_iter n_splits scoring n_jobs true
               random_state w).1.
Proof.
  intros Hnames Hgiven. split.
  - apply multi_label_search_held_out; [apply grid_search_refuses_held_out|done..].
  - apply multi_label_search_held_out; [apply random_search_refuses_held_out|done..].
Qed.

(** ** Scores on held-out data *)

Ltac close_run :=
  match goal with
  | |- (Returned ?s, ?w1) = _ → _ =>
      let wf := fresh "wf" in let Hwf := fresh "Hwf" in
      remember w1 as wf eqn:Hwf; intros [= <- <-]
  end.

Ltac open_trace :=
  match goal with
  | Hwf : ?wf = _ |- trace ?wf = _ =>
      rewrite Hwf; cbn [env trace]; rewrite <- ?app_assoc; cbn [app]; reflexivity
  end.

Ltac open_env :=
  match goal with
  | Hwf : ?wf = _ |- env ?wf = _ => rewrite Hwf; reflexivity
  end.

Lemma score_report_inv estimator X_test y_test verbose plot name w scores w' :
  score_report estimator X_test y_test verbose plot name w = (Returned scores, w') →
  ∃ y_pred proba probabilities y_score f1_micr f1_macro f1_s auc rec prec ap,
    predict estimator X_test = Returned y_pred ∧
    predict_proba estimator = Some proba ∧
    proba X_test = Returned probabilities ∧
    column_at probabilities 1 = Returned y_score ∧
    f1_score y_test y_pred "micro" = Returned f1_micr ∧
    f1_score y_test y_pred "macro" = Returned f1_macro ∧
    f1_score y_test y_pred "binary" = Returned f1_s ∧
    roc_auc_score y_test y_pred = Returned auc ∧
    recall_score y_test y_pred "binary" = Returned rec ∧
    precision_score y_test y_pred "binary" = Returned prec ∧
    average_precision_score y_test y_score = Returned ap ∧
    scores = <["f1_micr_score" := f1_micr]> (<["auc_score" := auc]> (
             <["rec_score" := rec]> (<["prec_score" := prec]> (
             <["f1_macro_score" := f1_macro]> (<["f1_s_score" := f1_s]> (
             <["prec_rec_score" := ap]> ∅)))))) ∧
    env w' = env w ∧
    ∃ lines drawn,
      trace w' = trace w ++ lines ++ drawn ∧
      Forall is_print lines ∧
      length lines = (if verbose then 20 else 0) ∧
      (if plot
       then ∃ precision recall title,
              drawn = [PlotStep recall precision; PlotFill recall precision; PlotTitle title;
                       SaveFig ("./results/" +:+ str_name name
                                +:+ " Precision-Recall curve.png")]
       else drawn = []).
Proof.
  unfold score_report, get_predict_proba.
  rewrite run_bind, run_lift. destruct (predict estimator X_test) as [y_pred|] eqn:Hpred; [|done].
  rewrite run_bind, run_lift. destruct (predict_proba estimator) as [proba|] eqn:Hpp; [|done].
  rewrite run_bind, run_lift. destruct (proba X_test) as [m|] eqn:Hm; [|done].
  rewrite run_bind, run_lift. destruct (column_at m 1) as [y_score|] eqn:Hcol; [|done].
  rewrite run_bind, run_lift.
  destruct (f1_score y_test y_pred "micro") as [f1_micr|] eqn:H1; [|done].
  rewrite run_bind, run_lift.
  destruct (f1_score y_test y_pred "macro") as [f1_macro|] eqn:H2; [|done].
  rewrite run_bind, run_lift.
  destruct (f1_score y_test y_pred "binary") as [f1_s|] eqn:H3; [|done].
  rewrite run_bind, run_lift.
  destruct (roc_auc_score y_test y_pred) as [auc|] eqn:H4; [|done].
  rewrite run_bind, run_lift.
  destruct (recall_score y_test y_pred "binary") as [rec|] eqn:H5; [|done].
  rewrite run_bind, run_lift.
  destruct (precision_score y_test y_pred "binary") as [prec|] eqn:H6; [|done].
  rewrite run_bind, run_lift.
  destruct (average_precision_score y_test y_score) as [ap|] eqn:H7; [|done].
  intros Hrun.
  exists y_pred, proba, m, y_score, f1_micr, f1_macro, f1_s, auc, rec, prec, ap.
  do 11 (split; [done|]).
  revert Hrun. rewrite run_bind.
  destruct verbose; unfold when_ at 1.
  - do 5 (rewrite run_bind, run_print; cbn [env trace]).
    rewrite run_bind, run_lift.
    destruct (classification_report y_test y_pred) as [rep|]; [|done].
    do 4 (rewrite run_bind, run_print; cbn [env trace]).
    rewrite run_bind, run_lift.
    destruct (confusion_matrix y_test y_pred) as [cm|]; [|done].
    do 10 (rewrite run_bind, run_print; cbn [env trace]).
    rewrite run_print. cbn [env trace].
    rewrite run_bind. destruct plot; unfold when_ at 1.
    + rewrite run_bind, run_lift.
      destruct (precision_recall_curve y_test y_score) as [[[precision recall] thr]|]; [|done].
      do 3 (rewrite run_bind, run_emit; cbn [env trace]).
      rewrite run_emit, run_ret. close_run.
      split; [reflexivity|]. split; [open_env|].
      eexists [_; _; _; _; _; _; _; _; _; _; _; _; _; _; _; _; _; _; _; _], _.
      split; [open_trace|].
      split; [repeat constructor; by eexists|].
      split; [reflexivity|]. by eexists _, _, _.
    + rewrite !run_ret. close_run.
      split; [reflexivity|]. split; [open_env|].
      eexists [_; _; _; _; _; _; _; _; _; _; _; _; _; _; _; _; _; _; _; _], [].
      split; [open_trace|].
      split; [repeat constructor; by eexists|]. done.
  - rewrite run_ret. cbv beta iota.
    rewrite run_bind. destruct plot; unfold when_ at 1.
    + rewrite run_bind, run_lift.
      destruct (precision_recall_curve y_test y_score) as [[[precision recall] thr]|]; [|done].
      do 3 (rewrite run_bind, run_emit; cbn [env trace]).
      rewrite run_emit, run_ret. close_run.
      split; [reflexivity|]. split; [open_env|].
      eexists [], _.
      split; [open_trace|].
      split; [constructor|].
      split; [reflexivity|]. by eexists _, _, _.
    + rewrite !run_ret. close_run.
      split; [reflexivity|]. split; [open_env|].
      exists [], []. split; [by rewrite Hwf, !app_nil_r|]. by split_and!.
Qed.

(** X16.  Which metric [score_report] returns under which key.  The dictionary has
    exactly seven keys, and six of them hold metrics of the hard predictions
    of [predict] against the true labels: the three F1 scores with their
    averaging, recall, precision, and also the area under the ROC curve, which
    is computed from the predicted classes and not from the predicted
    probabilities. *)
Theorem score_report_metrics_of_predictions
    (estimator : fitted) (X_test : array_like float) (y_test : Series)
    (verbose plot : bool) (name : option string) (w w' : world)
    (scores : gmap string float) :
  score_report estimator X_test y_test verbose plot name w = (Returned scores, w') →
  dom scores = list_to_set score_keys ∧
  ∃ y_pred,
    predict estimator X_test = Returned y_pred ∧
    holds scores "f1_micr_score" (f1_score y_test y_pred "micro") ∧
    holds scores "f1_macro_score" (f1_score y_test y_pred "macro") ∧
    holds scores "f1_s_score" (f1_score y_test y_pred "binary") ∧
    holds scores "auc_score" (roc_auc_score y_test y_pred) ∧
    holds scores "rec_score" (recall_score y_test y_pred "binary") ∧
    holds scores "prec_score" (precision_score y_test y_pred "binary").
Proof.
  intros (y_pred & proba & m & y_score & f1_micr & f1_macro & f1_s & auc & rec & prec & ap
          & Hpred & _ & _ & _ & H1 & H2 & H3 & H4 & H5 & H6 & _ & -> & _)%score_report_inv.
  split.
  - rewrite !dom_insert_L, dom_empty_L. reflexivity.
  - exists y_pred. unfold holds. split; [done|].
    split_and!; eexists; (split; [eassumption|reflexivity]).
Qed.

(** X17.  [verbose] and [plot] do not change what [score_report] returns: a run
    that returns gives the scores of the run without either, which prints
    nothing and leaves the outside state alone.  [verbose] adds twenty
    printed lines; [plot] adds, after them, the two curves, the title and the
    saving of the figure under [./results/], in a file named after [name]
    (with [None] for a name that was not given). *)
Theorem score_report_verbose_and_plot
    (estimator : fitted) (X_test : array_like float) (y_test : Series)
    (verbose plot : bool) (name : option string) (w w' : world)
    (scores : gmap string float) :
  score_report estimator X_test y_test verbose plot name w = (Returned scores, w') →
  score_report estimator X_test y_test false false name w = (Returned scores, w) ∧
  env w' = env w ∧
  ∃ lines drawn,
    trace w' = trace w ++ lines ++ drawn ∧
    Forall is_print lines ∧
    length lines = (if verbose then 20 else 0) ∧
    (if plot
     then ∃ precision recall title,
            drawn = [PlotStep recall precision; PlotFill recall precision; PlotTitle title;
                     SaveFig ("./results/" +:+ str_name name
                              +:+ " Precision-Recall curve.png")]
     else drawn = []).
Proof.
  intros (y_pred & proba & m & y_score & f1_micr & f1_macro & f1_s & auc & rec & prec & ap
          & Hpred & Hpp & Hm & Hcol & H1 & H2 & H3 & H4 & H5 & H6 & H7 & -> & Henv & Htrace)
         %score_report_inv.
  split; [|by split].
  unfold score_report, get_predict_proba.
  rewrite run_bind, run_lift, Hpred. cbv beta iota.
  rewrite run_bind, run_lift, Hpp. cbv beta iota.
  rewrite run_bind, run_lift, Hm. cbv beta iota.
  rewrite run_bind, run_lift, Hcol. cbv beta iota.
  rewrite run_bind, run_lift, H1. cbv beta iota.
  rewrite run_bind, run_lift, H2. cbv beta iota.
  rewrite run_bind, run_lift, H3. cbv beta iota.
  rewrite run_bind, run_lift, H4. cbv beta iota.
  rewrite run_bind, run_lift, H5. cbv beta iota.
  rewrite run_bind, run_lift, H6. cbv beta iota.
  rewrite run_bind, run_lift, H7. cbv beta iota.
  reflexivity.
Qed.

(** ** Cross-validated scores *)

Ltac in_cv_keys :=
  unfold cv_keys; repeat first [apply list_elem_of_here | apply list_elem_of_further].

Lemma mean_of_Some (scores : gmap string (list float)) key v :
  scores !! key = Some v → mean_of scores key = Returned (np_mean v).
Proof. intros Hv. unfold mean_of, getitem. by rewrite Hv. Qed.

Lemma std_of_Some (scores : gmap string (list float)) key v :
  scores !! key = Some v → std_of scores key = Returned (np_std v).
Proof. intros Hv. unfold std_of, getitem. by rewrite Hv. Qed.

Lemma mean_of_None (scores : gmap string (list float)) key :
  scores !! key = None → mean_of scores key = Raised (KeyError key).
Proof. intros Hv. unfold mean_of, getitem. by rewrite Hv. Qed.

Lemma cv_report_unfold estimator X_train y_train balancing n_splits scoring_metrics
    random_state n_jobs verbose w scores e :
  cross_validate (searched_estimator balancing estimator random_state n_jobs)
    (as_array X_train) y_train scoring_metrics
    {| n_splits := n_splits; kf_random_state := random_state |} n_jobs verbose (env w)
    = (Returned scores, e) →
  cv_report estimator X_train y_train balancing n_splits scoring_metrics random_state n_jobs
    verbose w =
  (f1_s ← lift (mean_of scores "test_f1_micro");
   f1_ms ← lift (mean_of scores "test_f1_macro");
   f1_bs ← lift (mean_of scores "test_f1");
   auc_s ← lift (mean_of scores "test_roc_auc");
   rec_s ← lift (mean_of scores "test_recall");
   prec_s ← lift (mean_of scores "test_precision");
   avp_s ← lift (mean_of scores "test_average_precision");
   f1_std ← lift (std_of scores "test_f1_micro");
   f1_mstd ← lift (std_of scores "test_f1_macro");
   f1_bstd ← lift (std_of scores "test_f1");
   auc_std ← lift (std_of scores "test_roc_auc");
   rec_std ← lift (std_of scores "test_recall");
   prec_std ← lift (std_of scores "test_precision");
   avp_std ← lift (std_of scores "test_average_precision");
   when_ verbose (
     print "";;
     print "Individual metrics";;
     print (mean_std_line "F1 Micro Score" f1_s f1_std);;
     print (mean_std_line "F1 Macro Score" f1_ms f1_mstd);;
     print (mean_std_line "F1 Binary Score" f1_bs f1_bstd);;
     print (mean_std_line "AUROC score" auc_s auc_std);;
     print (mean_std_line "Recall score" rec_s rec_std);;
     print (mean_std_line "Precision score" prec_s prec_std);;
     print (mean_std_line "Average Precision score" avp_s avp_std);;
     print "");;
   mret (<["f1_micr_score" := f1_s]> (<["f1_micr_std" := f1_std]> (
         <["auc_score" := auc_s]> (<["auc_std" := auc_std]> (
         <["rec_score" := rec_s]> (<["rec_std" := rec_std]> (
         <["prec_score" := prec_s]> (<["prec_std" := prec_std]> (
         <["f1_macro_score" := f1_ms]> (<["f1_macro_std" := f1_mstd]> (
         <["f1_score" := f1_bs]> (<["f1_std" := f1_bstd]> (
         <["avp_score" := avp_s]> (<["avp_std" := avp_std]> ∅)))))))))))))))
    {| env := e; trace := trace w |}.
Proof.
  intros Hcv. unfold cv_report, searched_estimator in *. rewrite run_bind. unfold call.
  destruct balancing; by rewrite Hcv.
Qed.

(** X18.  When the library returns cross-validation scores with the seven entries
    that [cv_report] reads, [cv_report] returns a dictionary of fourteen
    keys: under every [_score] key the mean of the entry of its metric,
    under every [_std] key its standard deviation.  The outside state is
    what the library left, and ten lines are printed under [verbose], none
    otherwise. *)
Theorem cv_report_means_and_deviations
    (estimator : estimator) (X_train : array_like float) (y_train : Series)
    (balancing : bool) (n_splits : Z) (scoring_metrics : list string)
    (random_state : option Z) (n_jobs : Z) (verbose : bool) (w : world)
    (scores : gmap string (list float)) (e : ext) :
  cross_validate (searched_estimator balancing estimator random_state n_jobs)
    (as_array X_train) y_train scoring_metrics
    {| n_splits := n_splits; kf_random_state := random_state |} n_jobs verbose (env w)
    = (Returned scores, e) →
  (∀ key, key ∈ cv_keys → is_Some (scores !! key)) →
  ∃ report lines,
    cv_report estimator X_train y_train balancing n_splits scoring_metrics random_state
      n_jobs verbose w = (Returned report, {| env := e; trace := trace w ++ lines |}) ∧
    Forall is_print lines ∧
    length lines = (if verbose then 10 else 0) ∧
    dom report = list_to_set cv_report_keys ∧
    (∀ k key, (k, key) ∈ cv_means → report !! k = np_mean <$> scores !! key) ∧
    (∀ k key, (k, key) ∈ cv_stds → report !! k = np_std <$> scores !! key).
Proof.
  intros Hcv Hall. rewrite (cv_report_unfold _ _ _ _ _ _ _ _ _ _ _ _ Hcv).
  destruct (Hall "test_f1_micro") as [v1 H1]; [in_cv_keys|].
  destruct (Hall "test_f1_macro") as [v2 H2]; [in_cv_keys|].
  destruct (Hall "test_f1") as [v3 H3]; [in_cv_keys|].
  destruct (Hall "test_roc_auc") as [v4 H4]; [in_cv_keys|].
  destruct (Hall "test_recall") as [v5 H5]; [in_cv_keys|].
  destruct (Hall "test_precision") as [v6 H6]; [in_cv_keys|].
  destruct (Hall "test_average_precision") as [v7 H7]; [in_cv_keys|].
  clear Hall Hcv.
  rewrite run_bind, run_lift, (mean_of_Some _ _ _ H1). cbv beta iota.
  rewrite run_bind, run_lift, (mean_of_Some _ _ _ H2). cbv beta iota.
  rewrite run_bind, run_lift, (mean_of_Some _ _ _ H3). cbv beta iota.
  rewrite run_bind, run_lift, (mean_of_Some _ _ _ H4). cbv beta iota.
  rewrite run_bind, run_lift, (mean_of_Some _ _ _ H5). cbv beta iota.
  rewrite run_bind, run_lift, (mean_of_Some _ _ _ H6). cbv beta iota.
  rewrite run_bind, run_lift, (mean_of_Some _ _ _ H7). cbv beta iota.
  rewrite run_bind, run_lift, (std_of_Some _ _ _ H1). cbv beta iota.
  rewrite run_bind, run_lift, (std_of_Some _ _ _ H2). cbv beta iota.
  rewrite run_bind, run_lift, (std_of_Some _ _ _ H3). cbv beta iota.
  rewrite run_bind, run_lift, (std_of_Some _ _ _ H4). cbv beta iota.
  rewrite run_bind, run_lift, (std_of_Some _ _ _ H5). cbv beta iota.
  rewrite run_bind, run_lift, (std_of_Some _ _ _ H6). cbv beta iota.
  rewrite run_bind, run_lift, (std_of_Some _ _ _ H7). cbv beta iota.
  rewrite run_bind.
  assert (∃ lines,
            when_ verbose
              (print "";;
               print "Individual metrics";;
               print (mean_std_line "F1 Micro Score" (np_mean v1) (np_std v1));;
               print (mean_std_line "F1 Macro Score" (np_mean v2) (np_std v2));;
               print (mean_std_line "F1 Binary Score" (np_mean v3) (np_std v3));;
               print (mean_std_line "AUROC score" (np_mean v4) (np_std v4));;
               print (mean_std_line "Recall score" (np_mean v5) (np_std v5));;
               print (mean_std_line "Precision score" (np_mean v6) (np_std v6));;
               print (mean_std_line "Average Precision score" (np_mean v7) (np_std v7));;
               print "") {| env := e; trace := trace w |}
            = (Returned (), {| env := e; trace := trace w ++ lines |}) ∧
            Forall is_print lines ∧
            length lines = (if verbose then 10 else 0)) as (lines & -> & Hprint & Hlen).
  { destruct verbose; unfold when_.
    - eexists [_; _; _; _; _; _; _; _; _; _]. split; [|split; [|done]].
      + do 9 (rewrite run_bind, run_print; cbn [env trace]).
        rewrite run_print. cbn [env trace].
        rewrite <- !app_assoc. reflexivity.
      + repeat (constructor; [by eexists|]). constructor.
    - exists []. rewrite run_ret, app_nil_r. by split_and!. }
  rewrite run_ret. eexists _, lines.
  split; [reflexivity|]. split; [done|]. split; [done|]. split; [|split].
  - rewrite !dom_insert_L, dom_empty_L. reflexivity.
  - intros k key Hk. unfold cv_means in Hk.
    repeat (apply elem_of_cons in Hk as [[= -> ->]|Hk];
            [repeat (rewrite lookup_insert_ne by (intros [=])); rewrite lookup_insert_eq;
             first [by rewrite H1|by rewrite H2|by rewrite H3|by rewrite H4
                   |by rewrite H5|by rewrite H6|by rewrite H7]|]).
    by apply not_elem_of_nil in Hk.
  - intros k key Hk. unfold cv_stds in Hk.
    repeat (apply elem_of_cons in Hk as [[= -> ->]|Hk];
            [repeat (rewrite lookup_insert_ne by (intros [=])); rewrite lookup_insert_eq;
             first [by rewrite H1|by rewrite H2|by rewrite H3|by rewrite H4
                   |by rewrite H5|by rewrite H6|by rewrite H7]|]).
    by apply not_elem_of_nil in Hk.
Qed.

(** X19.  [cv_report] reads the seven default metrics whatever [scoring_metrics]
    it was called with: when the scores that the library returns lack one of
    them, it raises a [KeyError] for a missing entry, after the
    cross-validation has run and before anything is printed. *)
Theorem cv_report_needs_the_default_metrics
    (estimator : estimator) (X_train : array_like float) (y_train : Series)
    (balancing : bool) (n_splits : Z) (scoring_metrics : list string)
    (random_state : option Z) (n_jobs : Z) (verbose : bool) (w : world)
    (scores : gmap string (list float)) (e : ext) (key : string) :
  cross_validate (searched_estimator balancing estimator random_state n_jobs)
    (as_array X_train) y_train scoring_metrics
    {| n_splits := n_splits; kf_random_state := random_state |} n_jobs verbose (env w)
    = (Returned scores, e) →
  key ∈ cv_keys →
  scores !! key = None →
  ∃ missing,
    missing ∈ cv_keys ∧ scores !! missing = None ∧
    cv_report estimator X_train y_train balancing n_splits scoring_metrics random_state
      n_jobs verbose w = (Raised (KeyError missing), {| env := e; trace := trace w |}).
Proof.
  intros Hcv Hkey Hnone. rewrite (cv_report_unfold _ _ _ _ _ _ _ _ _ _ _ _ Hcv).
  destruct (scores !! "test_f1_micro") as [v1|] eqn:H1.
  2:{ exists "test_f1_micro". split_and!; [in_cv_keys|done|].
      by rewrite run_bind, run_lift, (mean_of_None _ _ H1). }
  rewrite run_bind, run_lift, (mean_of_Some _ _ _ H1). cbv beta iota.
  destruct (scores !! "test_f1_macro") as [v2|] eqn:H2.
  2:{ exists "test_f1_macro". split_and!; [in_cv_keys|done|].
      by rewrite run_bind, run_lift, (mean_of_None _ _ H2). }
  rewrite run_bind, run_lift, (mean_of_Some _ _ _ H2). cbv beta iota.
  destruct (scores !! "test_f1") as [v3|] eqn:H3.
  2:{ exists "test_f1". split_and!; [in_cv_keys|done|].
      by rewrite run_bind, run_lift, (mean_of_None _ _ H3). }
  rewrite run_bind, run_lift, (mean_of_Some _ _ _ H3). cbv beta iota.
  destruct (scores !! "test_roc_auc") as [v4|] eqn:H4.
  2:{ exists "test_roc_auc". split_and!; [in_cv_keys|done|].
      by rewrite run_bind, run_lift, (mean_of_None _ _ H4). }
  rewrite run_bind, run_lift, (mean_of_Some _ _ _ H4). cbv beta iota.
  destruct (scores !! "test_recall") as [v5|] eqn:H5.
  2:{ exists "test_recall". split_and!; [in_cv_keys|done|].
      by rewrite run_bind, run_lift, (mean_of_None _ _ H5). }
  rewrite run_bind, run_lift, (mean_of_Some _ _ _ H5). cbv beta iota.
  destruct (scores !! "test_precision") as [v6|] eqn:H6.
  2:{ exists "test_precision". split_and!; [in_cv_keys|done|].
      by rewrite run_bind, run_lift, (mean_of_None _ _ H6). }
  rewrite run_bind, run_lift, (mean_of_Some _ _ _ H6). cbv beta iota.
  destruct (scores !! "test_average_precision") as [v7|] eqn:H7.
  2:{ exists "test_average_precision". split_and!; [in_cv_keys|done|].
      by rewrite run_bind, run_lift, (mean_of_None _ _ H7). }
  exfalso. unfold cv_keys in Hkey.
  repeat (apply elem_of_cons in Hkey as [->|Hkey]; [congruence|]).
  by apply not_elem_of_nil in Hkey.
Qed.

(** ** The rows of the two reports *)

Ltac find_cell :=
  eexists; split; [eassumption|];
  repeat (rewrite lookup_insert_ne by (intros [=])); by rewrite lookup_insert_eq.

Ltac other_row :=
  repeat (rewrite lookup_insert_ne by (intros [= ? ?]; congruence)); reflexivity.

Lemma fill_cv_row (r : table) (name : string) (s : gmap string float) (r' : table) :
  fill_cv r name s = Returned r' →
  row_of cv_mapping s r' name ∧
  ∀ n c, n ≠ name → cells r' !! (n, c) = cells r !! (n, c).
Proof.
  unfold fill_cv. intros Hfill.
  repeat (apply bind_Returned_inv in Hfill as (? & (? & ? & ->)%rounded_inv & Hfill)).
  injection Hfill as <-. split.
  - intros col key Hcol. unfold cv_mapping in Hcol. cbn [cells loc_set].
    repeat (apply elem_of_cons in Hcol as [[= -> ->]|Hcol]; [find_cell|]).
    by apply not_elem_of_nil in Hcol.
  - intros n c Hne. cbn [cells loc_set]. other_row.
Qed.

Lemma fill_test_row (r : table) (name : string) (s : gmap string float) (r' : table) :
  fill_test r name s = Returned r' →
  row_of test_mapping s r' name ∧
  ∀ n c, n ≠ name → cells r' !! (n, c) = cells r !! (n, c).
Proof.
  unfold fill_test. intros Hfill.
  repeat (apply bind_Returned_inv in Hfill as (? & (? & ? & ->)%rounded_inv & Hfill)).
  injection Hfill as <-. split.
  - intros col key Hcol. unfold test_mapping in Hcol. cbn [cells loc_set].
    repeat (apply elem_of_cons in Hcol as [[= -> ->]|Hcol]; [find_cell|]).
    by apply not_elem_of_nil in Hcol.
  - intros n c Hne. cbn [cells loc_set]. other_row.
Qed.

Lemma for_loop_label_step_rows scores_of fill mapping names r w r' w' :
  (∀ r n s r1, fill r n s = Returned r1 →
     row_of mapping s r1 n ∧ ∀ n' c, n' ≠ n → cells r1 !! (n', c) = cells r !! (n', c)) →
  for_loop names (label_step scores_of fill) r w = (Returned (Continue r'), w') →
  (∀ name, written scores_of mapping name r → written scores_of mapping name r') ∧
  (∀ name, name ∈ names → written scores_of mapping name r').
Proof.
  intros Hfill. revert r w. induction names as [|n names IH]; intros r w; simpl.
  - rewrite run_ret. intros [= <- <-]. split; [done|]. by intros ? ?%not_elem_of_nil.
  - rewrite run_bind. unfold label_step at 1. rewrite run_bind.
    destruct (scores_of n w) as [[[s|]|e] w1] eqn:Hscores; [|by rewrite run_ret|done].
    rewrite run_bind, run_lift.
    destruct (fill r n s) as [r1|e] eqn:Hr1; [|done].
    rewrite run_ret. intros [Hkeep Hall]%IH.
    apply Hfill in Hr1 as [Hrow Hother].
    assert (written scores_of mapping n r1) as Hn by (by exists w, s, w1).
    split.
    + intros name Hname. apply Hkeep.
      destruct (decide (name = n)) as [->|Hne]; [done|].
      destruct Hname as (u1 & sc & u2 & Hrun & Hcells).
      exists u1, sc, u2. split; [done|].
      intros col key Hcol. destruct (Hcells col key Hcol) as (v & Hv & Hcell).
      exists v. split; [done|]. by rewrite Hother.
    + intros name [->|Hin]%elem_of_cons; [by apply Hkeep|by apply Hall].
Qed.

Lemma heading_run (verbose : bool) (name : string) (w : world) :
  when_ verbose (print "";; print ("Scores for " +:+ name)) w
  = (Returned (), after w (heading verbose name)).
Proof.
  destruct verbose; unfold after; simpl; [|by rewrite app_nil_r, world_eta].
  rewrite run_bind, !run_print. simpl. by rewrite <- app_assoc.
Qed.

Lemma cv_label_scores_inv
    X_train_dic y_train model balancing modelname spec_params random_state n_splits n_jobs
    verbose name w scores w' :
  cv_label_scores X_train_dic y_train model balancing modelname spec_params random_state
    n_splits n_jobs verbose name w = (Returned (Some scores), w') →
  ∃ est X y,
    estimator_of_label_cv model modelname spec_params random_state n_jobs name est ∧
    X_train_dic !! name = Some X ∧
    y_train !! name = Some y ∧
    cv_report est X y balancing n_splits scoring_metrics_default random_state n_jobs verbose
      (after w (heading verbose name)) = (Returned scores, w').
Proof.
  unfold cv_label_scores, estimator_of_label_cv.
  rewrite run_bind, heading_run. cbv beta iota. rewrite run_bind.
  assert (∀ est,
    (match est with
     | Some estimator =>
         X ← lift (getitem X_train_dic name);
         y ← lift (getitem y_train name);
         scores ← cv_report estimator X y balancing n_splits scoring_metrics_default
                    random_state n_jobs verbose;
         mret (Some scores)
     | None => print specify_model;; mret None
     end) (after w (heading verbose name)) = (Returned (Some scores), w') →
    ∃ est0 X y,
      est = Some est0 ∧ X_train_dic !! name = Some X ∧ y_train !! name = Some y ∧
      cv_report est0 X y balancing n_splits scoring_metrics_default random_state n_jobs
        verbose (after w (heading verbose name)) = (Returned scores, w')) as Hrest.
  { intros [est|]; [|by rewrite run_bind, run_print, run_ret].
    unfold getitem. rewrite run_bind, run_lift.
    destruct (X_train_dic !! name) as [X|]; [|done].
    rewrite run_bind, run_lift. destruct (y_train !! name) as [y|]; [|done].
    rewrite run_bind.
    destruct (cv_report est X y _ _ _ _ _ _ _) as [[sc|x] w1] eqn:Hcv; [|done].
    rewrite run_ret. intros [= <- <-]. by exists est, X, y. }
  destruct (truth_of_spec_params spec_params).
  - rewrite run_bind, run_lift.
    destruct (modelname_at modelname name) as [tag|] eqn:Htag; [|done].
    rewrite run_lift.
    destruct (model_temp_cv tag spec_params name random_state n_jobs) as [est|] eqn:Hest;
      [|done].
    intros (est0 & X & y & -> & HX & Hy & Hcv)%Hrest.
    exists est0, X, y. split_and!; [by exists tag|done..].
  - rewrite run_ret. intros Hrun.
    apply (Hrest (Some model)) in Hrun as (est0 & X & y & [= <-] & HX & Hy & Hcv).
    by exists model, X, y.
Qed.

Lemma fit_and_score_inv
    X_train_dic y_train X_test y_test est balancing random_state plot verbose n_jobs name
    w scores w' :
  fit_and_score X_train_dic y_train X_test y_test est balancing random_state plot verbose
    n_jobs name w = (Returned scores, w') →
  ∃ X y Xt yt fitted_model e',
    X_train_dic !! name = Some X ∧
    y_train !! name = Some y ∧
    X_test !! name = Some Xt ∧
    y_test !! name = Some yt ∧
    fit (searched_estimator balancing est random_state n_jobs) (as_array X) y (env w)
      = (Returned fitted_model, e') ∧
    score_report fitted_model (as_array Xt) yt verbose plot (Some name)
      {| env := e'; trace := trace w |} = (Returned scores, w').
Proof.
  assert (∀ est0 : estimator,
    (X ← lift (getitem X_train_dic name);
     y ← lift (getitem y_train name);
     fitted_model ← call (fit est0 (as_array X) y);
     Xt ← lift (getitem X_test name);
     yt ← lift (getitem y_test name);
     score_report fitted_model (as_array Xt) yt verbose plot (Some name)) w
    = (Returned scores, w') →
    ∃ X y Xt yt fitted_model e',
      X_train_dic !! name = Some X ∧ y_train !! name = Some y ∧
      X_test !! name = Some Xt ∧ y_test !! name = Some yt ∧
      fit est0 (as_array X) y (env w) = (Returned fitted_model, e') ∧
      score_report fitted_model (as_array Xt) yt verbose plot (Some name)
        {| env := e'; trace := trace w |} = (Returned scores, w')) as Hrun.
  { intros est0. unfold getitem. rewrite run_bind, run_lift.
    destruct (X_train_dic !! name) as [X|]; [|done].
    rewrite run_bind, run_lift. destruct (y_train !! name) as [y|]; [|done].
    rewrite run_bind. unfold call.
    destruct (fit est0 (as_array X) y (env w)) as [[f|x] e'] eqn:Hfit; [|done].
    rewrite run_bind, run_lift. destruct (X_test !! name) as [Xt|]; [|done].
    rewrite run_bind, run_lift. destruct (y_test !! name) as [yt|]; [|done].
    intros Hscore. by exists X, y, Xt, yt, f, e'. }
  unfold fit_and_score, searched_estimator. destruct balancing; [apply Hrun|].
  destruct est; try apply Hrun. done.
Qed.

Lemma test_label_scores_inv
    X_train_dic y_train X_test y_test model modelname spec_params balancing random_state
    plot verbose n_jobs name w scores w' :
  test_label_scores X_train_dic y_train X_test y_test model modelname spec_params balancing
    random_state plot verbose n_jobs name w = (Returned (Some scores), w') →
  ∃ est,
    estimator_of_label_test model modelname spec_params random_state name est ∧
    fit_and_score X_train_dic y_train X_test y_test est balancing random_state plot verbose
      n_jobs name (after w (heading verbose name)) = (Returned scores, w').
Proof.
  unfold test_label_scores, estimator_of_label_test.
  rewrite run_bind, heading_run. cbv beta iota. rewrite run_bind.
  assert (∀ est,
    (match est with
     | Some estimator =>
         scores ← fit_and_score X_train_dic y_train X_test y_test estimator balancing
                    random_state plot verbose n_jobs name;
         mret (Some scores)
     | None => print specify_model;; mret None
     end) (after w (heading verbose name)) = (Returned (Some scores), w') →
    ∃ est0,
      est = Some est0 ∧
      fit_and_score X_train_dic y_train X_test y_test est0 balancing random_state plot
        verbose n_jobs name (after w (heading verbose name)) = (Returned scores, w'))
    as Hrest.
  { intros [est|]; [|by rewrite run_bind, run_print, run_ret].
    rewrite run_bind.
    destruct (fit_and_score _ _ _ _ est _ _ _ _ _ _ _) as [[sc|x] w1] eqn:Hfs; [|done].
    rewrite run_ret. intros [= <- <-]. by exists est. }
  destruct (truth_of_spec_params spec_params).
  - rewrite run_bind, run_lift.
    destruct (modelname_at modelname name) as [tag|] eqn:Htag; [|done].
    rewrite run_lift.
    destruct (model_temp_test tag spec_params name random_state) as [est|] eqn:Hest; [|done].
    intros (est0 & -> & Hfs)%Hrest. exists est0. split; [by exists tag|done].
  - rewrite run_ret. intros Hrun.
    apply (Hrest (Some model)) in Hrun as (est0 & [= <-] & Hfs). by exists model.
Qed.

(** X20.  Every row of the table of [cv_multi_report] is written from a run of
    [cv_report] on the matrix and the targets of the label of that row, with
    the seven default metrics and the folds, balancing and verbosity of the
    call.  The estimator of that run is the argument [model] when no
    [spec_params] are given, and otherwise the one built from the tag and the
    parameters of the label, whatever [model] is.  The cells hold the mean
    scores rounded to three decimals, each under the column of its metric;
    the standard deviations are not reported. *)
Theorem cv_multi_report_rows
    (X_train_dic : gmap string (array_like float)) (y_train : gmap string Series)
    (out_names : list string) (model : estimator) (balancing : bool)
    (modelname : option (gmap string string)) (spec_params : spec_params_t)
    (random_state : option Z) (n_splits n_jobs : Z) (verbose : bool)
    (w w' : world) (report : table) :
  cv_multi_report X_train_dic y_train out_names model balancing modelname spec_params
    random_state n_splits n_jobs verbose w = (Returned (Some report), w') →
  ∀ name, name ∈ out_names →
    ∃ est X y w1 scores w2,
      estimator_of_label_cv model modelname spec_params random_state n_jobs name est ∧
      X_train_dic !! name = Some X ∧
      y_train !! name = Some y ∧
      cv_report est X y balancing n_splits scoring_metrics_default random_state n_jobs
        verbose w1 = (Returned scores, w2) ∧
      row_of cv_mapping scores report name.
Proof.
  unfold cv_multi_report. rewrite run_bind.
  destruct (for_loop out_names _ _ w) as [[[r|v]|e] u] eqn:Hloop; [| |done].
  2:{ apply for_loop_label_step_Return in Hloop as ->. by rewrite run_ret. }
  rewrite run_ret. unfold apply_to_numeric. intros [= <- <-] name Hname.
  eapply for_loop_label_step_rows in Hloop as [_ Hall]; [|apply fill_cv_row].
  destruct (Hall name Hname) as (w1 & scores & w2 & Hrun & Hrow).
  apply cv_label_scores_inv in Hrun as (est & X & y & Hest & HX & Hy & Hcv).
  by exists est, X, y, (after w1 (heading verbose name)), scores, w2.
Qed.

(** X21.  Every row of the table of [test_score_multi_report] is written from a
    run of [score_report] on the held-out matrix and targets of the label of
    that row, for an estimator that the library fitted on the values of the
    training matrix and the targets of the same label (behind the sampler
    when [balancing] is set); the figure of that run is named after the
    label.  The estimator is the argument [model] when no [spec_params] are
    given, and otherwise the one built from the tag and the parameters of the
    label.  The cells hold the scores rounded to three decimals. *)
Theorem test_score_multi_report_rows
    (X_train_dic : gmap string (array_like float)) (y_train : gmap string Series)
    (X_test : gmap string (array_like float)) (y_test : gmap string Series)
    (out_names : list string) (model : estimator)
    (modelname : option (gmap string string)) (spec_params : spec_params_t)
    (balancing : bool) (random_state : option Z) (plot verbose : bool) (n_jobs : Z)
    (w w' : world) (report : table) :
  test_score_multi_report X_train_dic y_train X_test y_test out_names model modelname
    spec_params balancing random_state plot verbose n_jobs w
    = (Returned (Some report), w') →
  ∀ name, name ∈ out_names →
    ∃ est X y Xt yt e fitted_model e' w1 scores w2,
      estimator_of_label_test model modelname spec_params random_state name est ∧
      X_train_dic !! name = Some X ∧
      y_train !! name = Some y ∧
      X_test !! name = Some Xt ∧
      y_test !! name = Some yt ∧
      fit (searched_estimator balancing est random_state n_jobs) (as_array X) y e
        = (Returned fitted_model, e') ∧
      score_report fitted_model (as_array Xt) yt verbose plot (Some name) w1
        = (Returned scores, w2) ∧
      row_of test_mapping scores report name.
Proof.
  unfold test_score_multi_report. rewrite run_bind.
  destruct (for_loop out_names _ _ w) as [[[r|v]|e] u] eqn:Hloop; [| |done].
  2:{ apply for_loop_label_step_Return in Hloop as ->. by rewrite run_ret. }
  rewrite run_ret. unfold apply_to_numeric. intros [= <- <-] name Hname.
  eapply for_loop_label_step_rows in Hloop as [_ Hall]; [|apply fill_test_row].
  destruct (Hall name Hname) as (w1 & scores & w2 & Hrun & Hrow).
  apply test_label_scores_inv in Hrun as (est & Hest & Hfs).
  apply fit_and_score_inv in Hfs as (X & y & Xt & yt & f & e' & HX & Hy & HXt & Hyt & Hfit & Hsc).
  exists est, X, y, Xt, yt, (env (after w1 (heading verbose name))), f, e'.
  by eexists _, scores, w2.
Qed.

(** ** The first label of a report *)

Lemma for_loop_first_raises {A S R} (a : A) (l : list A) (body : A → S → M (flow S R))
    (s : S) (w w1 : world) (x : exn) :
  body a s w = (Raised x, w1) → for_loop (a :: l) body s w = (Raised x, w1).
Proof. intros Hbody. simpl. by rewrite run_bind, Hbody. Qed.

(** X22.  [spec_params] need [modelname]: when parameters are given and the tag of
    the first label cannot be read (because [modelname] was left at [None],
    or has no entry for the label), both reports raise the error of that
    lookup, a [TypeError] or a [KeyError], before anything is fitted; only
    the heading of the label has been printed, under [verbose]. *)
Theorem reports_with_spec_params_need_the_tag
    (X_train_dic X_test : gmap string (array_like float)) (y_train y_test : gmap string Series)
    (name : string) (names : list string) (model : estimator) (balancing : bool)
    (modelname : option (gmap string string)) (spec_params : spec_params_t)
    (random_state : option Z) (n_splits n_jobs : Z) (plot verbose : bool) (w : world)
    (x : exn) :
  truth_of_spec_params spec_params = true →
  modelname_at modelname name = Raised x →
  cv_multi_report X_train_dic y_train (name :: names) model balancing modelname spec_params
    random_state n_splits n_jobs verbose w
  = (Raised x, after w (heading verbose name)) ∧
  test_score_multi_report X_train_dic y_train X_test y_test (name :: names) model modelname
    spec_params balancing random_state plot verbose n_jobs w
  = (Raised x, after w (heading verbose name)).
Proof.
  intros Htruth Htag. split.
  - unfold cv_multi_report. rewrite run_bind.
    erewrite for_loop_first_raises; [done|].
    unfold label_step, cv_label_scores. rewrite Htruth.
    rewrite run_bind, run_bind, heading_run. cbv beta iota.
    by rewrite run_bind, run_bind, run_lift, Htag.
  - unfold test_score_multi_report. rewrite run_bind.
    erewrite for_loop_first_raises; [done|].
    unfold label_step, test_label_scores. rewrite Htruth.
    rewrite run_bind, run_bind, heading_run. cbv beta iota.
    by rewrite run_bind, run_bind, run_lift, Htag.
Qed.

(** X23.  [test_score_multi_report] needs a model: called without [spec_params],
    without balancing and with [model] left at [None], it raises an
    [AttributeError] at the first label, because [None] has no method [fit];
    nothing is read from the dictionaries and nothing is fitted. *)
Theorem test_score_multi_report_without_a_model
    (X_train_dic X_test : gmap string (array_like float)) (y_train y_test : gmap string Series)
    (name : string) (names : list string)
    (modelname : option (gmap string string)) (spec_params : spec_params_t)
    (random_state : option Z) (n_jobs : Z) (plot verbose : bool) (w : world) :
  truth_of_spec_params spec_params = false →
  test_score_multi_report X_train_dic y_train X_test y_test (name :: names) NoneModel
    modelname spec_params false random_state plot verbose n_jobs w
  = (Raised (AttributeError "fit"), after w (heading verbose name)).
Proof.
  intros Htruth. unfold test_score_multi_report. rewrite run_bind.
  erewrite for_loop_first_raises; [done|].
  unfold label_step, test_label_scores. rewrite Htruth.
  rewrite run_bind, run_bind, heading_run. cbv beta iota.
  by rewrite run_bind, run_ret, run_bind.
Qed.

(** ** Identifiers and response bodies *)

Lemma append_cons (c : ascii) (s t : string) : String c s +:+ t = String c (s +:+ t).
Proof. reflexivity. Qed.

Lemma strip_zeros_spec (s : string) :
  ∃ n, s = zeros n +:+ strip_zeros s ∧ first_char (strip_zeros s) ≠ Some "0"%char.
Proof.
  induction s as [|c s (n & Hs & Hfirst)]; [by exists O|].
  destruct (decide (c = "0"%char)) as [->|Hc].
  - exists (S n). split; [cbn; rewrite append_cons; by f_equal|by cbn].
  - exists O. assert (strip_zeros (String c s) = String c s) as ->.
    { simpl. destruct c as [[] [] [] [] [] [] [] []]; try done. }
    split; [done|]. simpl. congruence.
Qed.

(** X24.  What [re.sub("^CID[0]*", "", cid)] does to an identifier.  An identifier
    that starts with [CID] loses that prefix and all zeros that follow it, so
    that what is left does not start with a zero (and is empty when the
    identifier has nothing but zeros after the prefix); any other identifier
    is left as it is, whatever it has further inside. *)
Theorem trim_cid_cases (cid : string) :
  (∃ n rest, cid = "CID" +:+ zeros n +:+ rest ∧ trim_cid cid = rest ∧
             first_char rest ≠ Some "0"%char) ∨
  ((∀ rest, cid ≠ "CID" +:+ rest) ∧ trim_cid cid = cid).
Proof.
  assert (∀ c s, c ≠ "C"%char → trim_cid (String c s) = String c s) as HC.
  { intros c s Hc. destruct c as [[] [] [] [] [] [] [] []]; try reflexivity. by destruct Hc. }
  assert (∀ c s, c ≠ "I"%char → trim_cid (String "C" (String c s)) = String "C" (String c s))
    as HI.
  { intros c s Hc. destruct c as [[] [] [] [] [] [] [] []]; try reflexivity. by destruct Hc. }
  assert (∀ c s, c ≠ "D"%char →
            trim_cid (String "C" (String "I" (String c s)))
            = String "C" (String "I" (String c s))) as HD.
  { intros c s Hc. destruct c as [[] [] [] [] [] [] [] []]; try reflexivity. by destruct Hc. }
  destruct cid as [|c1 s1]; [right; split; [by intros rest'|done]|].
  destruct (decide (c1 = "C"%char)) as [->|H1].
  2:{ right. split; [intros rest' [= -> _]; by apply H1|by apply HC]. }
  destruct s1 as [|c2 s2]; [right; split; [by intros rest'|done]|].
  destruct (decide (c2 = "I"%char)) as [->|H2].
  2:{ right. split; [intros rest' [= -> _]; by apply H2|by apply HI]. }
  destruct s2 as [|c3 rest]; [right; split; [by intros rest'|done]|].
  destruct (decide (c3 = "D"%char)) as [->|H3].
  2:{ right. split; [intros rest' [= -> _]; by apply H3|by apply HD]. }
  left. destruct (strip_zeros_spec rest) as (n & Hrest & Hfirst).
  exists n, (strip_zeros rest). split_and!; [|done..].
  rewrite !append_cons. by do 3 f_equal.
Qed.

Lemma lstrip_newlines_spec (s : string) :
  ∃ n, s = line_feeds n +:+ lstrip_newlines s ∧ first_char (lstrip_newlines s) ≠ Some LF.
Proof.
  induction s as [|c s (n & Hs & Hfirst)]; [by exists O|].
  simpl. destruct (decide (c = LF)) as [->|Hc].
  - exists (S n). split; [cbn; rewrite append_cons; by f_equal|done].
  - exists O. split; [done|]. simpl. congruence.
Qed.

Lemma rstrip_newlines_spec (s : string) :
  ∃ m, s = rstrip_newlines s +:+ line_feeds m ∧ last_char (rstrip_newlines s) ≠ Some LF ∧
       (first_char s ≠ Some LF → first_char (rstrip_newlines s) ≠ Some LF).
Proof.
  induction s as [|c s (m & Hs & Hlast & _)]; [by exists O|].
  simpl. destruct (rstrip_newlines s) as [|a t] eqn:Hr.
  - destruct (decide (c = LF)) as [->|Hc].
    + exists (S m). split_and!; [by rewrite Hs at 1|done..].
    + exists m. split_and!; [rewrite append_cons; by f_equal|cbn; congruence|cbn; congruence].
  - exists m. split_and!.
    + rewrite append_cons. by f_equal.
    + exact Hlast.
    + done.
Qed.

(** X25.  What [text.strip("\n")] does to a response body: it takes line feeds,
    and nothing else, off its two ends, and goes on until neither end is a
    line feed.  Line feeds inside the body stay, and a body of line feeds
    only becomes the empty string. *)
Theorem strip_newlines_spec (s : string) :
  ∃ n m,
    s = line_feeds n +:+ strip_newlines s +:+ line_feeds m ∧
    first_char (strip_newlines s) ≠ Some LF ∧
    last_char (strip_newlines s) ≠ Some LF.
Proof.
  unfold strip_newlines.
  destruct (lstrip_newlines_spec s) as (n & Hs & Hfirst).
  destruct (rstrip_newlines_spec (lstrip_newlines s)) as (m & Hl & Hlast & Hkeep).
  exists n, m. split_and!; [|by apply Hkeep|done].
  rewrite Hs at 1. by f_equal.
Qed.

(** ** The off-label table *)

Lemma column_of_cons (c : string * list obj) (df : DataFrame obj) (name : string) :
  column_of (c :: df) name = if decide (c.1 = name) then Returned c.2 else column_of df name.
Proof.
  unfold column_of, columns_named, DataFrame in *. rewrite filter_cons.
  by destruct (decide (c.1 = name)).
Qed.

Lemma column_of_missing (df : DataFrame obj) (name : string) :
  name ∉ columns df → column_of df name = Raised (KeyError name).
Proof.
  induction df as [|c df IH]; [done|]. unfold columns in *. rewrite fmap_cons.
  intros [Hc Hdf]%not_elem_of_cons. rewrite column_of_cons, decide_False by done.
  by apply IH.
Qed.

Lemma column_of_replace (df : DataFrame obj) (name name' : string) (col : list obj) :
  column_of ((λ c : string * list obj, if decide (c.1 = name) then (name, col) else c) <$> df)
    name'
  = if decide (name' = name)
    then (if decide (name ∈ columns df) then Returned col else Raised (KeyError name))
    else column_of df name'.
Proof.
  induction df as [|c df IH].
  { destruct (decide (name' = name)) as [->|]; [|done].
    by rewrite decide_False by apply not_elem_of_nil. }
  rewrite fmap_cons, !column_of_cons, IH.
  unfold columns. rewrite fmap_cons.
  destruct (decide (c.1 = name)) as [Hc|Hc]; cbn [fst snd].
  - destruct (decide (name' = name)) as [->|Hne].
    + rewrite decide_True by done. rewrite decide_True by (rewrite Hc; apply list_elem_of_here).
      done.
    + rewrite decide_False by done. rewrite decide_False by congruence. done.
  - destruct (decide (name' = name)) as [->|Hne].
    + rewrite decide_False by done.
      destruct (decide (name ∈ df.*1)) as [Hin|Hin].
      * by rewrite decide_True by (by apply list_elem_of_further).
      * rewrite decide_False; [done|]. intros [?|?]%elem_of_cons; congruence.
    + done.
Qed.

Lemma column_of_append (df : DataFrame obj) (name name' : string) (col : list obj) :
  column_of (df ++ [(name, col)]) name'
  = if decide (name' ∈ columns df) then column_of df name'
    else if decide (name' = name) then Returned col else Raised (KeyError name').
Proof.
  induction df as [|c df IH].
  { cbn [app]. rewrite column_of_cons. cbn [fst snd].
    destruct (decide (name' ∈ columns [])) as [Hin|_]; [by apply not_elem_of_nil in Hin|].
    destruct (decide (name = name')) as [->|Hne].
    - by rewrite decide_True.
    - by rewrite decide_False by congruence. }
  cbn [app]. rewrite !column_of_cons, IH. unfold columns. rewrite fmap_cons.
  destruct (decide (c.1 = name')) as [Hc|Hc].
  - rewrite decide_True; [done|]. rewrite Hc. apply list_elem_of_here.
  - destruct (decide (name' ∈ df.*1)) as [Hin|Hin].
    + by rewrite decide_True by (by apply list_elem_of_further).
    + rewrite (decide_False (P := name' ∈ c.1 :: df.*1)); [done|].
      intros [?|?]%elem_of_cons; congruence.
Qed.

Lemma column_of_set_column (df : DataFrame obj) (name name' : string) (col : list obj) :
  column_of (set_column df name col) name'
  = if decide (name' = name) then Returned col else column_of df name'.
Proof.
  unfold set_column. destruct (decide (name ∈ columns df)) as [Hin|Hin].
  - rewrite column_of_replace. by rewrite (decide_True (P := name ∈ columns df)).
  - rewrite column_of_append. destruct (decide (name' = name)) as [->|Hne].
    + by rewrite decide_False.
    + destruct (decide (name' ∈ columns df)) as [Hin'|Hin']; [done|].
      by rewrite column_of_missing.
Qed.

Lemma columns_replace (df : DataFrame obj) (name : string) (col : list obj) :
  columns ((λ c : string * list obj, if decide (c.1 = name) then (name, col) else c) <$> df)
  = columns df.
Proof.
  unfold columns. induction df as [|c df IH]; [done|]. rewrite !fmap_cons, IH. f_equal.
  by destruct (decide (c.1 = name)).
Qed.

Lemma columns_set_column (df : DataFrame obj) (name : string) (col : list obj) :
  columns (set_column df name col) = append_if_new (columns df) name.
Proof.
  unfold set_column, append_if_new. destruct (decide (name ∈ columns df)).
  - apply columns_replace.
  - unfold columns. by rewrite fmap_app.
Qed.

Lemma n_rows_set_column (df : DataFrame obj) (name : string) (col : list obj) :
  df ≠ [] → length col = n_rows df →
  set_column df name col ≠ [] ∧ n_rows (set_column df name col) = n_rows df.
Proof.
  destruct df as [|c df]; [done|]. intros _ Hlen. unfold set_column.
  destruct (decide (name ∈ columns (c :: df))).
  - rewrite fmap_cons. split; [done|]. cbn [n_rows].
    destruct (decide (c.1 = name)); [exact Hlen|done].
  - done.
Qed.

Lemma fmap_const_replicate {A} (v : obj) (l : list A) :
  (λ _, v) <$> l = replicate (length l) v.
Proof. induction l as [|a l IH]; [done|]. cbn. by rewrite <- IH. Qed.

Lemma zero_columns (names : list string) (df : DataFrame obj) :
  df ≠ [] →
  let df' := foldl (λ df name, set_column df name (replicate (n_rows df) (Int 0))) df names in
  df' ≠ [] ∧ n_rows df' = n_rows df ∧
  columns df' = extend_selected (columns df) names ∧
  (∀ name, name ∈ names → column_of df' name = Returned (replicate (n_rows df) (Int 0))) ∧
  (∀ name, name ∉ names → column_of df' name = column_of df name).
Proof.
  revert df. induction names as [|n names IH]; intros df Hdf; cbn [foldl].
  { split_and!; [done..| |done]. by intros ? ?%not_elem_of_nil. }
  destruct (n_rows_set_column df n (replicate (n_rows df) (Int 0)) Hdf) as [Hne Hrows];
    [by rewrite length_replicate|].
  destruct (IH _ Hne) as (Hne' & Hrows' & Hcols & Hin & Hout).
  rewrite Hrows in *. split_and!; [done|done| | |].
  - rewrite Hcols, columns_set_column. done.
  - intros name Hname. destruct (decide (name ∈ names)) as [Hn|Hn]; [by apply Hin|].
    apply elem_of_cons in Hname as [->|?]; [|done].
    rewrite Hout by done. rewrite column_of_set_column. by rewrite decide_True.
  - intros name [Hn Hnames]%not_elem_of_cons.
    rewrite Hout by done. rewrite column_of_set_column. by rewrite decide_False.
Qed.

Lemma columns_set_where (df : DataFrame obj) (mask : list bool) (name : string) (v : obj) :
  columns (set_where df mask name v) = columns df.
Proof.
  unfold columns, set_where. induction df as [|c df IH]; [done|].
  rewrite !fmap_cons, IH. f_equal. by destruct (decide (c.1 = name)).
Qed.

Lemma column_of_set_where (df : DataFrame obj) (mask : list bool) (name name' : string)
    (v : obj) :
  column_of (set_where df mask name v) name'
  = if decide (name' = name)
    then zip_with (λ (b : bool) x, if b then v else x) mask <$> column_of df name'
    else column_of df name'.
Proof.
  unfold set_where. induction df as [|c df IH].
  { by destruct (decide (name' = name)). }
  rewrite fmap_cons, !column_of_cons, IH.
  destruct (decide (c.1 = name)) as [Hc|Hc]; cbn [fst snd].
  - destruct (decide (c.1 = name')) as [Hc'|Hc']; [|done].
    by rewrite decide_True by congruence.
  - destruct (decide (c.1 = name')) as [Hc'|Hc']; [|done].
    by rewrite decide_False by congruence.
Qed.

Lemma column_of_drop (df : DataFrame obj) (name name' : string) :
  name' ≠ name →
  column_of (filter (λ c : string * list obj, c.1 ≠ name) df) name' = column_of df name'.
Proof.
  intros Hne. unfold DataFrame in *. induction df as [|c df IH]; [done|].
  rewrite filter_cons, column_of_cons.
  destruct (decide (c.1 ≠ name)) as [Hc|Hc].
  - by rewrite column_of_cons, IH.
  - rewrite IH. rewrite decide_False; [done|]. intros Hc'. apply Hc. congruence.
Qed.

Lemma columns_drop (df : DataFrame obj) (name : string) :
  columns (filter (λ c : string * list obj, c.1 ≠ name) df)
  = filter (λ c, c ≠ name) (columns df).
Proof.
  unfold columns, DataFrame in *. induction df as [|c df IH]; [done|].
  rewrite fmap_cons, !filter_cons.
  destruct (decide (c.1 ≠ name)); rewrite ?fmap_cons; by rewrite IH.
Qed.

Lemma indicator_other (seen : list (string * string)) (row : string * string)
    (name id : string) :
  name ≠ row.2 → indicator (seen ++ [row]) name id = indicator seen name id.
Proof.
  intros Hne. unfold indicator.
  rewrite (bool_decide_ext ((id, name) ∈ seen ++ [row]) ((id, name) ∈ seen)); [done|].
  rewrite elem_of_app, list_elem_of_singleton. split; [|by left].
  intros [?|Heq]; [done|]. destruct row. simpl in *. congruence.
Qed.

Lemma indicator_marked (seen : list (string * string)) (id0 soc : string) (st : list string) :
  zip_with (λ (b : bool) x, if b then Int 1 else x)
    ((λ x, bool_decide (x = Str id0)) <$> (Str <$> st)) (indicator seen soc <$> st)
  = indicator (seen ++ [(id0, soc)]) soc <$> st.
Proof.
  induction st as [|id st IH]; [done|]. rewrite !fmap_cons. cbn [zip_with].
  rewrite IH. f_equal.
  unfold indicator. destruct (decide (id = id0)) as [->|Hid].
  - rewrite bool_decide_eq_true_2 by done.
    rewrite (bool_decide_eq_true_2 ((id0, soc) ∈ seen ++ [(id0, soc)])); [done|].
    apply elem_of_app. right. apply list_elem_of_here.
  - rewrite bool_decide_eq_false_2 by congruence.
    rewrite (bool_decide_ext ((id, soc) ∈ seen ++ [(id0, soc)]) ((id, soc) ∈ seen)); [done|].
    rewrite elem_of_app, list_elem_of_singleton. split; [|by left].
    intros [?|?]; [done|congruence].
Qed.

Lemma rows_loop (out_names st : list string) (rows seen : list (string * string))
    (df df' : DataFrame obj) (w w' : world) :
  "stitch_id" ∉ out_names →
  column_of df "stitch_id" = Returned (Str <$> st) →
  (∀ name, name ∈ out_names → column_of df name = Returned (indicator seen name <$> st)) →
  for_each rows (λ row mod_off,
    if decide (row.2 ∈ out_names) then
      ids ← lift (column_of mod_off "stitch_id");
      let mask := (λ x, bool_decide (x = Str row.1)) <$> ids in
      mret (set_where mod_off mask row.2 (Int 1))
    else mret mod_off) df w = (Returned df', w') →
  w' = w ∧ columns df' = columns df ∧
  (∀ name, name ∈ out_names →
     column_of df' name = Returned (indicator (seen ++ rows) name <$> st)) ∧
  (∀ name, name ∉ out_names → column_of df' name = column_of df name).
Proof.
  intros Hid. revert seen df w. induction rows as [|[id0 soc] rows IH];
    intros seen df w Hids Hcols; cbn [for_each].
  { rewrite run_ret. intros [= <- <-]. by rewrite app_nil_r. }
  rewrite run_bind. cbn [fst snd].
  destruct (decide (soc ∈ out_names)) as [Hsoc|Hsoc].
  - rewrite run_bind, run_lift, Hids. cbv beta iota zeta. rewrite run_ret.
    set (df1 := set_where df _ soc (Int 1)).
    assert (soc ≠ "stitch_id") as Hsoc' by (intros ->; done).
    assert (column_of df1 "stitch_id" = Returned (Str <$> st)) as Hids1.
    { unfold df1. rewrite column_of_set_where. by rewrite decide_False. }
    assert (∀ name, name ∈ out_names →
              column_of df1 name
              = Returned (indicator (seen ++ [(id0, soc)]) name <$> st)) as Hcols1.
    { intros name Hname. unfold df1. rewrite column_of_set_where.
      destruct (decide (name = soc)) as [->|Hne].
      - rewrite (Hcols soc Hsoc). cbn. by rewrite indicator_marked.
      - rewrite (Hcols name Hname). f_equal. apply list_fmap_ext.
        intros ? id ?. symmetry. by apply indicator_other. }
    intros (-> & Hc & Hin & Hout)%(IH _ _ _ Hids1 Hcols1).
    split_and!; [done| | |].
    + rewrite Hc. apply columns_set_where.
    + intros name Hname. rewrite (Hin name Hname). by rewrite <- app_assoc.
    + intros name Hname. rewrite (Hout name Hname). unfold df1.
      rewrite column_of_set_where. rewrite decide_False; [done|]. by intros ->.
  - rewrite run_ret.
    assert (∀ name, name ∈ out_names →
              column_of df name
              = Returned (indicator (seen ++ [(id0, soc)]) name <$> st)) as Hcols1.
    { intros name Hname. rewrite (Hcols name Hname). f_equal. apply list_fmap_ext.
      intros ? id ?. symmetry. apply indicator_other. cbn. by intros ->. }
    intros (-> & Hc & Hin & Hout)%(IH _ _ _ Hids Hcols1).
    split_and!; [done..| |done].
    intros name Hname. rewrite (Hin name Hname). by rewrite <- app_assoc.
Qed.

Lemma smiles_column_loop (d : gmap string string) (stitchs : list string) (acc col : list obj)
    (w w' : world) :
  for_each stitchs (λ x col, s ← lift (getitem d x); mret (col ++ [Str s])) acc w
  = (Returned col, w') →
  w' = w ∧ ∃ smiles, col = acc ++ (Str <$> smiles) ∧
                     Forall2 (λ id s, d !! id = Some s) stitchs smiles.
Proof.
  revert acc w. induction stitchs as [|c stitchs IH]; intros acc w; cbn [for_each].
  { rewrite run_ret. intros [= <- <-]. split; [done|]. exists []. by rewrite app_nil_r. }
  rewrite run_bind, run_bind, run_lift. unfold getitem.
  destruct (d !! c) as [s|] eqn:Hs; [|done]. rewrite run_ret.
  intros (-> & smiles & -> & Hall)%IH. split; [done|].
  exists (s :: smiles). rewrite <- app_assoc. split; [done|]. by constructor.
Qed.

Lemma create_offside_df_inv (out_names : list string) (write : bool) (w w' : world)
    (rows : list (string * string)) (e : ext) (df : DataFrame obj) :
  read_offsides (env w) = (Returned rows, e) →
  create_offside_df out_names write w = (Returned df, w') →
  let stitchs := unique rows.*1 in
  ∃ sti_to_smil w1 smiles table,
    smiles_of_stitchs stitchs {| env := e; trace := trace w |} = (Returned sti_to_smil, w1) ∧
    Forall2 (λ id s, sti_to_smil !! id = Some s) stitchs smiles ∧
    for_each rows (λ row mod_off,
      if decide (row.2 ∈ out_names) then
        ids ← lift (column_of mod_off "stitch_id");
        let mask := (λ x, bool_decide (x = Str row.1)) <$> ids in
        mret (set_where mod_off mask row.2 (Int 1))
      else mret mod_off)
      (foldl (λ df name, set_column df name (replicate (n_rows df) (Int 0)))
         (set_column [("stitch_id", Str <$> stitchs)] "smiles" (Str <$> smiles)) out_names)
      w1 = (Returned table, w1) ∧
    drop_column table "stitch_id" = Returned df ∧
    trace w' = trace w1 ++ (if write then [ToCsv offside_csv] else []).
Proof.
  intros Hread. unfold create_offside_df. rewrite run_bind. unfold call. rewrite Hread.
  cbv zeta. rewrite run_bind.
  destruct (smiles_of_stitchs _ _) as [[d|x] w1] eqn:Hsmiles; [|done].
  rewrite run_bind.
  destruct (for_each (unique rows.*1) _ [] w1) as [[col|x] w2] eqn:Hcol; [|done].
  apply smiles_column_loop in Hcol as (-> & smiles & -> & Hall). cbn [app].
  rewrite run_bind.
  destruct (for_each rows _ _ w1) as [[table|x] w3] eqn:Hrows; [|done].
  assert (w3 = w1) as ->.
  { clear -Hrows. revert Hrows. generalize (foldl (λ df name,
      set_column df name (replicate (n_rows df) (Int 0)))
      (set_column [("stitch_id", Str <$> unique rows.*1)] "smiles" (Str <$> smiles))
      out_names).
    induction rows as [|row rows IH]; intros d0; cbn [for_each].
    - rewrite run_ret. by intros [= _ <-].
    - rewrite run_bind. destruct (decide (row.2 ∈ out_names)).
      + rewrite run_bind, run_lift. destruct (column_of d0 "stitch_id"); [|done].
        rewrite run_ret. apply IH.
      + rewrite run_ret. apply IH. }
  rewrite run_bind, run_lift.
  destruct (drop_column table "stitch_id") as [df2|x] eqn:Hdrop; [|done].
  rewrite run_bind. destruct write; unfold when_.
  - rewrite run_emit, run_ret. intros [= <- <-]. by exists d, w1, smiles, table.
  - rewrite !run_ret. intros [= <- <-]. exists d, w1, smiles, table. by rewrite app_nil_r.
Qed.

(** X26.  What [create_offside_df] asks of the remote service.  When it returns,
    it has sent one request per distinct compound identifier of the file, in
    the order in which the identifiers first appear there, each to the
    address of the trimmed identifier; compounds are looked up whether or
    not their disorder class is among [out_names].  The table is written to
    the file of the data set exactly when [write] is set. *)
Theorem create_offside_df_requests
    (out_names : list string) (write : bool) (w w' : world)
    (rows : list (string * string)) (e : ext) (df : DataFrame obj) :
  read_offsides (env w) = (Returned rows, e) →
  create_offside_df out_names write w = (Returned df, w') →
  ∃ evs,
    trace w' = trace w ++ evs ∧
    filter (λ ev, is_request ev) evs
    = (λ s, HttpGet (smiles_url (trim_cid s))) <$> unique rows.*1 ∧
    (ToCsv offside_csv ∈ evs ↔ write = true).
Proof.
  intros Hread Hrun.
  destruct (create_offside_df_inv _ _ _ _ _ _ _ Hread Hrun)
    as (d & w1 & smiles & table & Hsmiles & _ & _ & _ & Htr).
  unfold smiles_of_stitchs in Hsmiles.
  apply smiles_loop_log in Hsmiles as (_ & _ & _ & evs & Htr1 & Hreq & Hcsv); [|done].
  cbn [trace] in Htr1.
  exists (evs ++ if write then [ToCsv offside_csv] else []). split_and!.
  - by rewrite Htr, Htr1, <- app_assoc.
  - rewrite filter_app, Hreq. destruct write; [|by rewrite app_nil_r].
    rewrite filter_cons_False by (by intros ?). by rewrite app_nil_r.
  - rewrite elem_of_app. destruct write.
    + split; [done|]. intros _. right. apply list_elem_of_here.
    + split; [|done]. intros [?%Hcsv|?%not_elem_of_nil]; done.
Qed.

(** X27.  The table that [create_offside_df] returns, for labels among which
    there is no ["stitch_id"].  Its columns are [smiles] and then the labels
    of [out_names], each once.  Every label column has one cell per distinct
    compound of the file, in order of first appearance, and the cell is 1
    when the file lists the compound under that label and 0 otherwise.  The
    column [smiles], unless a label of that name overwrote it, holds for
    every compound what [get_smile_from_cid] returned for it. *)
Theorem create_offside_df_table
    (out_names : list string) (write : bool) (w w' : world)
    (rows : list (string * string)) (e : ext) (df : DataFrame obj) :
  read_offsides (env w) = (Returned rows, e) →
  "stitch_id" ∉ out_names →
  create_offside_df out_names write w = (Returned df, w') →
  columns df = filter (λ c, c ≠ "stitch_id") (extend_selected ["stitch_id"; "smiles"] out_names) ∧
  (∀ name, name ∈ out_names →
     column_of df name = Returned (indicator rows name <$> unique rows.*1)) ∧
  ("smiles" ∉ out_names →
   ∃ smiles,
     column_of df "smiles" = Returned (Str <$> smiles) ∧
     Forall2 (λ id s, ∃ w1 w2, get_smile_from_cid id w1 = (Returned s, w2))
       (unique rows.*1) smiles).
Proof.
  intros Hread Hid Hrun.
  destruct (create_offside_df_inv _ _ _ _ _ _ _ Hread Hrun)
    as (d & w1 & smiles & table & Hsmiles & Hall & Hrows & Hdrop & _).
  set (st := unique rows.*1) in *.
  set (df0 := set_column [("stitch_id", Str <$> st)] "smiles" (Str <$> smiles)) in *.
  assert (df0 = [("stitch_id", Str <$> st); ("smiles", Str <$> smiles)]) as Hdf0 by done.
  destruct (zero_columns out_names df0) as (_ & _ & Hcols & Hzero & Hother);
    [by rewrite Hdf0|].
  cbv zeta in Hcols, Hzero, Hother.
  assert (n_rows df0 = length st) as Hn by (rewrite Hdf0; cbn; by rewrite length_fmap).
  apply (rows_loop out_names st rows []) in Hrows as (_ & Hc & Hin & Hout); [|done| |].
  2:{ rewrite Hother by done. by rewrite Hdf0. }
  2:{ intros name Hname. rewrite (Hzero name Hname), Hn. f_equal.
      rewrite <- fmap_const_replicate. apply list_fmap_ext. intros ? id ?.
      unfold indicator. rewrite bool_decide_eq_false_2; [done|]. apply not_elem_of_nil. }
  unfold drop_column in Hdrop.
  destruct (decide ("stitch_id" ∈ columns table)); [|done].
  injection Hdrop as <-. split_and!.
  - rewrite columns_drop, Hc, Hcols. by rewrite Hdf0.
  - intros name Hname. rewrite column_of_drop by (by intros ->). by apply Hin.
  - intros Hsm. exists smiles. split.
    + rewrite column_of_drop by done. rewrite Hout, Hother by done. by rewrite Hdf0.
    + unfold smiles_of_stitchs in Hsmiles.
      apply smiles_loop_log in Hsmiles as (Hd & _); [|done].
      eapply Forall2_impl; [exact Hall|]. intros id s Hs. by eapply Hd.
Qed.

End Coverage.

(** * Properties of the study of fingerprint lengths *)

Section StudyProperties.
Context {Vs : Values} {Lib : Library} {Chem : Chemistry}.

#[local] Set Warnings "-clear-no-such-hyp".

Lemma study_bind {A B} (m : Study A) (k : A → Study B) (w : study_world) :
  (m ≫= k) w =
  match m w with
  | (Done a, w') => k a w'
  | (Failed e, w') => (Failed e, w')
  end.
Proof. reflexivity. Qed.

Lemma study_ret {A} (a : A) (w : study_world) : (mret a : Study A) w = (Done a, w).
Proof. reflexivity. Qed.

Lemma study_draw (ev : figure_event) (w : study_world) :
  draw ev w = (Done (), {| outside := outside w; figures := figures w ++ [ev] |}).
Proof. reflexivity. Qed.

Lemma study_lift_run {A} (o : outcome A) (w : study_world) :
  study_lift o w = (match o with Returned a => Done a | Raised e => Failed (Py e) end, w).
Proof. reflexivity. Qed.

Lemma study_world_eta (w : study_world) :
  {| outside := outside w; figures := figures w |} = w.
Proof. by destruct w. Qed.

Lemma written_run (write : bool) (w : study_world) :
  study_when write (
    draw (WriteCsv "./results/df_results_rocauc_size_SVC.csv");;
    draw (WriteCsv "./results/df_results_precision_size_SVC.csv");;
    draw (WriteCsv "./results/df_results_recall_size_SVC.csv");;
    draw (WriteCsv "./results/df_results_av_prec_size_SVC.csv");;
    draw (WriteCsv "./results/df_results_f1_size_SVC.csv");;
    draw (WriteCsv "./results/df_results_f1_micro_size_SVC.csv");;
    draw (WriteCsv "./results/df_results_f1_macro_size_SVC.csv")) w
  = (Done (), {| outside := outside w;
                 figures := figures w ++ if write then written_files else [] |}).
Proof.
  destruct write; unfold study_when.
  - do 6 (rewrite study_bind, study_draw; cbn [outside figures]).
    rewrite study_draw. cbn [outside figures]. by rewrite <- !app_assoc.
  - by rewrite study_ret, app_nil_r, study_world_eta.
Qed.

(** X28.  The study without a single length, which is what [num_sizes_to_test = 0]
    gives.  Without [makeplots] it returns seven frames without columns.
    With [makeplots] it fails: the plots read the variable [fingerprints],
    which only the loop over the lengths assigns.  The failure comes after
    the files have been written, when [write] is set, and after the first
    figure has been opened. *)
Theorem test_fingerprint_size_without_sizes
    (df_mols : molecules) (df_y : gmap string Series) (model : estimator)
    (colname : string) (num_sizes_to_test min_size max_size cv : Z) (write : bool)
    (w : study_world) :
  np_linspace min_size max_size num_sizes_to_test = Returned [] →
  (let empty := {| frame_columns := []; frame_values := np_zeros 4 0 |} in
   test_fingerprint_size df_mols df_y model colname num_sizes_to_test min_size max_size cv
     false write w
   = (Done {| df_results_rocauc_size_SVC := empty; df_results_precision_size_SVC := empty;
              df_results_recall_size_SVC := empty; df_results_av_prec_size_SVC := empty;
              df_results_f1_size_SVC := empty; df_results_f1_micro_size_SVC := empty;
              df_results_f1_macro_size_SVC := empty |},
      {| outside := outside w;
         figures := figures w ++ if write then written_files else [] |})) ∧
  test_fingerprint_size df_mols df_y model colname num_sizes_to_test min_size max_size cv
    true write w
  = (Failed (UnboundLocalError "fingerprints"),
     {| outside := outside w;
        figures := figures w ++ (if write then written_files else []) ++ [Figure] |}).
Proof.
  intros Hsizes. unfold test_fingerprint_size. split.
  - rewrite study_bind, study_lift_run, Hsizes. cbv beta iota zeta.
    rewrite study_bind. cbn [study_for length]. rewrite study_ret. cbv beta iota.
    rewrite study_bind, written_run. cbv beta iota. unfold study_when.
    rewrite study_bind, !study_ret. reflexivity.
  - rewrite study_bind, study_lift_run, Hsizes. cbv beta iota zeta.
    rewrite study_bind. cbn [study_for length]. rewrite study_ret. cbv beta iota.
    rewrite study_bind, written_run. cbv beta iota. unfold study_when.
    rewrite !study_bind. unfold plot_metric at 1.
    rewrite study_bind, study_draw. cbv beta iota. rewrite study_bind.
    cbn [local outside figures]. by rewrite <- app_assoc.
Qed.

Lemma plot_rows_run (sizes : list Z) (d : matrix) (idxs : list nat) (w w' : study_world) :
  study_for idxs (λ i _, row ← study_lift (row_at d i); draw (Plot sizes row)) () w
  = (Done (), w') →
  ∃ rows,
    Forall2 (λ i row, d !! i = Some row) idxs rows ∧
    w' = {| outside := outside w; figures := figures w ++ (Plot sizes <$> rows) |}.
Proof.
  revert w. induction idxs as [|i idxs IH]; intros w; cbn [study_for].
  { rewrite study_ret. intros [= <-]. exists []. split; [constructor|].
    by rewrite app_nil_r, study_world_eta. }
  rewrite !study_bind, study_lift_run. unfold row_at.
  destruct (d !! i) as [row|] eqn:Hrow; [|done].
  rewrite study_draw. intros (rows & Hrows & ->)%IH.
  exists (row :: rows). split; [by constructor|].
  cbn [outside figures]. by rewrite fmap_cons, <- app_assoc.
Qed.

Lemma first_four_rows (d : matrix) (rows : list (list float)) :
  Forall2 (λ i row, d !! i = Some row) (seq 0 4) rows → rows = take 4 d.
Proof.
  cbn [seq]. intros Hrows.
  repeat match goal with
         | H : Forall2 _ (_ :: _) _ |- _ => apply Forall2_cons_inv_l in H as (? & ? & ? & H & ->)
         | H : Forall2 _ [] _ |- _ => apply Forall2_nil_inv_l in H as ->
         end.
  destruct d as [|r0 [|r1 [|r2 [|r3 d]]]]; simplify_eq/=. done.
Qed.

Lemma plot_metric_run (sizes : list Z) (scoring_metrics : list string)
    (fingerprints :
       option (DataFrame float * DataFrame float * DataFrame float * DataFrame float))
    (d : matrix) (m m' : nat) (w w' : study_world) :
  plot_metric sizes scoring_metrics fingerprints d m w = (Done m', w') →
  ∃ metric,
    scoring_metrics !! m = Some metric ∧ is_Some fingerprints ∧ m' = S m ∧
    w' = {| outside := outside w; figures := figures w ++ figure_of sizes d metric |}.
Proof.
  unfold plot_metric. rewrite study_bind, study_draw. cbv beta iota.
  rewrite study_bind. destruct fingerprints as [[[[fp1 fp2] fp3] fp4]|]; [|done].
  cbn [local fingerprint_list length]. rewrite study_bind.
  destruct (study_for (seq 0 4) _ () _) as [[[]|x] w1] eqn:Hrows; [|done].
  apply plot_rows_run in Hrows as (rows & ->%first_four_rows & ->).
  cbn [outside figures].
  rewrite study_bind, study_lift_run. unfold tuple_at.
  destruct (scoring_metrics !! m) as [metric|]; [|done].
  rewrite study_bind, study_draw. cbn [outside figures].
  rewrite study_bind, study_lift_run.
  do 5 (rewrite study_bind, study_draw; cbn [outside figures]).
  rewrite study_ret. intros [= <- <-]. exists metric. split_and!; [done..|].
  unfold figure_of. f_equal. rewrite <- !app_assoc. reflexivity.
Qed.

(** ** The cells of the arrays *)

Lemma cell_set_cell (m m' : matrix) (r c : nat) (v : float) (r1 c1 : nat) :
  set_cell m r c v = Returned m' →
  cell m' r1 c1 = if decide (r1 = r ∧ c1 = c) then Some v else cell m r1 c1.
Proof.
  unfold set_cell, cell, matrix in *. destruct (m !! r) as [row|] eqn:Hrow; [|done].
  destruct (decide (c < length row)) as [Hc|]; [|done]. intros [= <-].
  pose proof (lookup_lt_Some _ _ _ Hrow) as Hr.
  destruct (decide (r1 = r)) as [->|Hne].
  - rewrite list_lookup_insert_eq by done. cbn. rewrite Hrow. cbn.
    destruct (decide (c1 = c)) as [->|Hne'].
    + rewrite decide_True by done. by rewrite list_lookup_insert_eq.
    + rewrite decide_False by (by intros [_ ?]). by rewrite list_lookup_insert_ne.
  - rewrite decide_False by (by intros [? _]). by rewrite list_lookup_insert_ne.
Qed.

Lemma record_if_spec k key get set r c v res res' :
  record_if k key get set r c v res = Returned res' →
  (k = key ∧ ∃ m', set_cell (get res) r c (np_mean v) = Returned m' ∧ res' = set m' res) ∨
  (k ≠ key ∧ res' = res).
Proof.
  unfold record_if. destruct (decide (k = key)) as [->|Hne].
  - intros (m' & Hset & [= <-])%bind_Returned_inv. left. split; [done|]. by exists m'.
  - intros [= <-]. by right.
Qed.

Lemma arrays_lookup (res : results) (i : nat) (key : string) :
  study_keys !! i = Some key → is_Some (arrays res !! i).
Proof. intros Hkey%lookup_lt_Some. by apply lookup_lt_is_Some_2. Qed.

Lemma keys_lookup (res : results) (i : nat) (m : matrix) :
  arrays res !! i = Some m → is_Some (study_keys !! i).
Proof. intros Hkey%lookup_lt_Some. by apply lookup_lt_is_Some_2. Qed.

Ltac record_step H :=
  let Heq := fresh "Heq" in
  let Hset := fresh "Hset" in
  let Hne := fresh "Hne" in
  apply bind_Returned_inv in H
    as (? & [(Heq & ? & Hset & ->)|(Hne & ->)]%record_if_spec & H);
  [first [discriminate Heq | subst]|].

Lemma record_score_spec (r c : nat) (k : string) (v : list float) (res res' : results) :
  record_score r c (k, v) res = Returned res' →
  ∀ i key m, study_keys !! i = Some key → arrays res !! i = Some m →
    ∃ m', arrays res' !! i = Some m' ∧
          ∀ r1 c1, cell m' r1 c1
                   = if decide (k = key ∧ r1 = r ∧ c1 = c) then Some (np_mean v)
                     else cell m r1 c1.
Proof.
  unfold record_score. intros H.
  do 7 (record_step H); injection H as <-;
    intros i key m Hkey Hm;
    repeat (destruct i as [|i]; [injection Hkey as <-; injection Hm as <-|]);
    try discriminate Hkey;
    eexists; (split; [reflexivity|]); intros r1 c1; cbn;
    first
      [ erewrite cell_set_cell by eassumption;
        destruct (decide (r1 = r ∧ c1 = c)) as [[-> ->]|Hn];
        [by rewrite decide_True|by rewrite decide_False by (intros (_ & ? & ?); by apply Hn)]
      | by rewrite decide_False by (intros [? _]; congruence) ].
Qed.

Lemma record_scores_spec (r c : nat) (l : list (string * list float)) (res res' : results) :
  for_each_pure l (record_score r c) res = Returned res' →
  NoDup l.*1 →
  ∀ i key m, study_keys !! i = Some key → arrays res !! i = Some m →
    ∃ m', arrays res' !! i = Some m' ∧
          ∀ r1 c1, cell m' r1 c1
                   = match (list_to_map l : gmap string (list float)) !! key with
                     | Some v => if decide (r1 = r ∧ c1 = c) then Some (np_mean v)
                                 else cell m r1 c1
                     | None => cell m r1 c1
                     end.
Proof.
  revert res. induction l as [|[k v] l IH]; intros res; cbn [for_each_pure].
  { intros [= <-] _ i key m Hkey Hm. exists m. split; [done|]. intros r1 c1.
    by rewrite list_to_map_nil, lookup_empty. }
  intros (res1 & Hstep & Hrest)%bind_Returned_inv Hnodup i key m Hkey Hm.
  apply NoDup_cons in Hnodup as [Hk Hnodup].
  destruct (record_score_spec _ _ _ _ _ _ Hstep i key m Hkey Hm) as (m1 & Hm1 & Hcell1).
  destruct (IH _ Hrest Hnodup i key m1 Hkey Hm1) as (m' & Hm' & Hcell).
  exists m'. split; [done|]. intros r1 c1. rewrite Hcell, Hcell1.
  rewrite list_to_map_cons.
  destruct (decide (k = key)) as [->|Hne].
  - rewrite lookup_insert_eq.
    rewrite (not_elem_of_list_to_map_1 l key) by done.
    destruct (decide (r1 = r ∧ c1 = c)) as [[-> ->]|Hn].
    + by rewrite decide_True.
    + by rewrite decide_False by (intros (_ & ? & ?); by apply Hn).
  - rewrite lookup_insert_ne by done.
    rewrite (decide_False (P := k = key ∧ r1 = r ∧ c1 = c)) by (by intros [? _]). done.
Qed.

Lemma score_fingerprint_run df_y model colname cv scoring_metrics c fp res r res' r' w w' :
  score_fingerprint df_y model colname cv scoring_metrics c fp (res, r) w
    = (Done (res', r'), w') →
  r' = S r ∧ figures w' = figures w ∧
  ∃ y scores,
    df_y !! colname = Some y ∧
    cross_validate_folds model fp y cv scoring_metrics (-1) (outside w)
      = (Returned scores, outside w') ∧
    ∀ i key m, study_keys !! i = Some key → arrays res !! i = Some m →
      ∃ m', arrays res' !! i = Some m' ∧
            ∀ r1 c1, cell m' r1 c1
                     = match scores !! key with
                       | Some v => if decide (r1 = r ∧ c1 = c) then Some (np_mean v)
                                   else cell m r1 c1
                       | None => cell m r1 c1
                       end.
Proof.
  unfold score_fingerprint, copy, getitem. rewrite study_bind, study_lift_run.
  destruct (df_y !! colname) as [y|]; [|done].
  rewrite study_bind. unfold study_call.
  destruct (cross_validate_folds model fp y cv scoring_metrics (-1) (outside w))
    as [[scores|x] e] eqn:Hcv; [|done].
  rewrite study_bind, study_lift_run.
  destruct (for_each_pure (map_to_list scores) (record_score r c) res) as [res1|x] eqn:Hrec;
    [|done].
  rewrite study_ret. intros [= <- <- <-]. split_and!; [done..|].
  exists y, scores. split_and!; [done..|].
  intros i key m Hkey Hm.
  destruct (record_scores_spec _ _ _ _ _ Hrec (NoDup_fst_map_to_list scores) i key m Hkey Hm)
    as (m' & Hm' & Hcell).
  exists m'. split; [done|]. intros r1 c1. rewrite Hcell.
  by rewrite list_to_map_to_list.
Qed.

Section loops.
Variables (df_mols : molecules) (df_y : gmap string Series) (model : estimator).
Variables (colname : string) (cv : Z) (scoring_metrics : list string) (sizes : list Z).

Local Abbreviation filled := (filled df_mols df_y model colname cv scoring_metrics sizes).
Local Abbreviation scored := (scored df_mols df_y model colname cv scoring_metrics sizes).

Lemma filled_ext (c0 r0 c1 r1 : nat) (res : results) :
  (∀ r c, r < 4 → (visited c0 r0 r c ↔ visited c1 r1 r c)) →
  filled c0 r0 res → filled c1 r1 res.
Proof.
  intros Hiff Hfilled r c Hr Hc. destruct (Hfilled r c Hr Hc) as [Hin Hout].
  split; intros Hv; [apply Hin|apply Hout]; by rewrite Hiff.
Qed.

Lemma filled_step (c0 r0 : nat) (res res1 : results) (scores : gmap string (list float)) :
  r0 < 4 → c0 < length sizes →
  filled c0 r0 res →
  scored r0 c0 scores →
  (∀ i key m, study_keys !! i = Some key → arrays res !! i = Some m →
     ∃ m', arrays res1 !! i = Some m' ∧
           ∀ r1 c1, cell m' r1 c1
                    = match scores !! key with
                      | Some v => if decide (r1 = r0 ∧ c1 = c0) then Some (np_mean v)
                                  else cell m r1 c1
                      | None => cell m r1 c1
                      end) →
  filled c0 (S r0) res1.
Proof.
  intros Hr0 Hc0 Hfilled Hscored Hstep r c Hr Hc.
  destruct (Hfilled r c Hr Hc) as [Hin Hout].
  destruct (decide (r = r0 ∧ c = c0)) as [[-> ->]|Hne].
  - split.
    + intros _. exists scores. split; [done|]. intros i key m' Hkey Hm'.
      destruct (arrays_lookup res i key Hkey) as [m Hm].
      destruct (Hstep i key m Hkey Hm) as (m'' & Hm'' & Hcell).
      assert (m'' = m') as -> by congruence. rewrite Hcell.
      assert (cell m r0 c0 = Some float_zero) as Hzero.
      { eapply Hout; [|done]. unfold visited. lia. }
      destruct (scores !! key) as [v|]; [by rewrite decide_True|done].
    + intros Hv. exfalso. apply Hv. unfold visited. lia.
  - assert (∀ i key m m', study_keys !! i = Some key → arrays res !! i = Some m →
              arrays res1 !! i = Some m' → cell m' r c = cell m r c) as Hsame.
    { intros i key m m' Hkey Hm Hm'.
      destruct (Hstep i key m Hkey Hm) as (m'' & Hm'' & Hcell).
      assert (m'' = m') as -> by congruence. rewrite Hcell.
      destruct (scores !! key); [by rewrite decide_False|done]. }
    split.
    + intros Hv. destruct Hin as (scores0 & Hscored0 & Hcells).
      { unfold visited in *. lia. }
      exists scores0. split; [done|]. intros i key m' Hkey Hm'.
      destruct (arrays_lookup res i key Hkey) as [m Hm].
      rewrite (Hsame i key m m' Hkey Hm Hm'). by eapply Hcells.
    + intros Hv i m' Hm'.
      destruct (keys_lookup res1 i m' Hm') as [key Hkey].
      destruct (arrays_lookup res i key Hkey) as [m Hm].
      rewrite (Hsame i key m m' Hkey Hm Hm'). eapply Hout; [|done].
      intros Hold. apply Hv. unfold visited in *. lia.
Qed.

Lemma score_fingerprints_loop (l pre : list (DataFrame float))
    (fingerprints : DataFrame float * DataFrame float * DataFrame float * DataFrame float)
    (s : Z) (e1 e2 : ext) (c0 : nat) (res res' : results) (r' : nat) (w w' : study_world) :
  sizes !! c0 = Some s →
  createfingerprints df_mols s e1 = (Returned fingerprints, e2) →
  fingerprint_list fingerprints = pre ++ l →
  filled c0 (length pre) res →
  study_for l (score_fingerprint df_y model colname cv scoring_metrics c0)
    (res, length pre) w = (Done (res', r'), w') →
  figures w' = figures w ∧ filled c0 (length pre + length l) res'.
Proof.
  intros Hs Hfps. revert pre res w.
  induction l as [|fp l IH]; intros pre res w Hlist Hfilled; cbn [study_for].
  { rewrite study_ret. intros [= <- _ <-]. split; [done|]. cbn. by rewrite Nat.add_0_r. }
  rewrite study_bind.
  destruct (score_fingerprint _ _ _ _ _ _ fp (res, length pre) w) as [[[res1 r1]|x] w1]
    eqn:Hstep; [|done].
  apply score_fingerprint_run in Hstep
    as (-> & Hfig & y & scores & Hy & Hcv & Hcells).
  assert (length pre < 4) as Hpre.
  { assert (length (fingerprint_list fingerprints) = 4) as Hlen
      by (by destruct fingerprints as [[[? ?] ?] ?]).
    rewrite Hlist, length_app in Hlen. cbn in Hlen. lia. }
  assert (filled c0 (S (length pre)) res1) as Hfilled1.
  { eapply filled_step; [done|by eapply lookup_lt_Some|done| |done].
    exists s, e1, fingerprints, e2, fp, y, (outside w), (outside w1).
    split_and!; [done..| |done|done].
    rewrite Hlist. by apply list_lookup_middle. }
  intros Hloop.
  destruct (IH (pre ++ [fp]) res1 w1) as [Hfig' Hfilled'].
  - by rewrite <- app_assoc.
  - rewrite length_app. cbn. by rewrite Nat.add_1_r.
  - rewrite length_app. cbn. by rewrite Nat.add_1_r.
  - split; [congruence|]. rewrite length_app in Hfilled'. cbn in Hfilled'.
    cbn [length]. by replace (length pre + S (length l)) with (length pre + 1 + length l)
      by lia.
Qed.

Lemma score_sizes_loop (rest pre : list Z) (res res' : results)
    (fo fo' :
       option (DataFrame float * DataFrame float * DataFrame float * DataFrame float))
    (c' : nat) (w w' : study_world) :
  sizes = pre ++ rest →
  filled (length pre) 0 res →
  study_for rest (score_size df_mols df_y model colname cv scoring_metrics)
    (res, fo, length pre) w = (Done (res', fo', c'), w') →
  figures w' = figures w ∧ filled (length sizes) 0 res'.
Proof.
  revert pre res fo w. induction rest as [|s rest IH]; intros pre res fo w Hsizes Hfilled;
    cbn [study_for].
  { rewrite study_ret. intros [= <- _ _ <-]. split; [done|].
    assert (length sizes = length pre) as -> by (by rewrite Hsizes, app_nil_r). done. }
  rewrite study_bind. unfold score_size at 1. rewrite study_bind. unfold study_call.
  destruct (createfingerprints df_mols s (outside w)) as [[fps|x] e2] eqn:Hfps; [|done].
  rewrite study_bind.
  destruct (study_for (fingerprint_list fps) _ (res, 0) _) as [[[res1 r1]|x] w1] eqn:Hinner;
    [|done].
  rewrite study_ret.
  apply (score_fingerprints_loop _ [] fps s (outside w) e2 (length pre)) in Hinner
    as [Hfig Hfilled1]; [| |done|done|done].
  2:{ rewrite Hsizes. by apply list_lookup_middle. }
  intros Hloop.
  destruct (IH (pre ++ [s]) res1 (Some fps) w1) as [Hfig' Hfilled'].
  - by rewrite <- app_assoc.
  - rewrite length_app. cbn [length].
    eapply filled_ext; [|exact Hfilled1].
    intros r c Hr. assert (length (fingerprint_list fps) = 4) as ->
      by (by destruct fps as [[[? ?] ?] ?]).
    unfold visited. cbn [length]. lia.
  - rewrite length_app. cbn [length]. by rewrite Nat.add_1_r.
  - split; [|done]. rewrite Hfig'. exact Hfig.
Qed.

Lemma filled_zeros :
  let zeros := np_zeros 4 (length sizes) in
  filled 0 0
    {| results_f1 := zeros; results_rocauc := zeros; results_precision := zeros;
       results_recall := zeros; results_average_precision := zeros;
       results_f1_micro := zeros; results_f1_macro := zeros |}.
Proof.
  cbv zeta. intros r c Hr Hc. split.
  - unfold visited. lia.
  - intros _ i m Hm.
    assert (m = np_zeros 4 (length sizes)) as ->.
    { repeat (destruct i as [|i]; [by injection Hm as <-|]). done. }
    unfold cell, np_zeros, matrix. rewrite lookup_replicate_2 by done. cbn.
    by rewrite lookup_replicate_2.
Qed.

End loops.

Ltac plot_step :=
  rewrite study_bind;
  match goal with
  | |- context [plot_metric ?s ?ms ?fo ?d ?m ?w] =>
      let Hp := fresh "Hp" in
      let Hm := fresh "Hm" in
      destruct (plot_metric s ms fo d m w) as [[?|?] ?] eqn:Hp; [|done];
      apply plot_metric_run in Hp as (? & Hm & _ & -> & ->);
      injection Hm as <-; cbn [outside figures]
  end.

Lemma test_fingerprint_size_inv
    (df_mols : molecules) (df_y : gmap string Series) (model : estimator)
    (colname : string) (num_sizes_to_test min_size max_size cv : Z) (makeplots write : bool)
    (w w' : study_world) (sizes : list Z) (frames : study_frames) :
  np_linspace min_size max_size num_sizes_to_test = Returned sizes →
  test_fingerprint_size df_mols df_y model colname num_sizes_to_test min_size max_size cv
    makeplots write w = (Done frames, w') →
  ∃ res,
    filled df_mols df_y model colname cv
      ["f1_micro"; "f1_macro"; "f1"; "roc_auc"; "recall"; "precision"; "average_precision"]
      sizes (length sizes) 0 res ∧
    frames =
      {| df_results_rocauc_size_SVC :=
           {| frame_columns := sizes; frame_values := results_rocauc res |};
         df_results_precision_size_SVC :=
           {| frame_columns := sizes; frame_values := results_precision res |};
         df_results_recall_size_SVC :=
           {| frame_columns := sizes; frame_values := results_recall res |};
         df_results_av_prec_size_SVC :=
           {| frame_columns := sizes; frame_values := results_average_precision res |};
         df_results_f1_size_SVC :=
           {| frame_columns := sizes; frame_values := results_f1 res |};
         df_results_f1_micro_size_SVC :=
           {| frame_columns := sizes; frame_values := results_f1_micro res |};
         df_results_f1_macro_size_SVC :=
           {| frame_columns := sizes; frame_values := results_f1_macro res |} |} ∧
    figures w' =
      figures w ++ (if write then written_files else []) ++
      (if makeplots
       then figure_of sizes (results_rocauc res) "f1_micro" ++
            figure_of sizes (results_precision res) "f1_macro" ++
            figure_of sizes (results_recall res) "f1" ++
            figure_of sizes (results_average_precision res) "roc_auc" ++
            figure_of sizes (results_f1 res) "recall" ++
            figure_of sizes (results_f1_micro res) "precision" ++
            figure_of sizes (results_f1_macro res) "average_precision"
       else []).
Proof.
  intros Hsizes. unfold test_fingerprint_size.
  rewrite study_bind, study_lift_run, Hsizes. cbv beta iota zeta.
  rewrite study_bind.
  destruct (study_for sizes _ _ w) as [[[[res fo] c]|x] w1] eqn:Hloop; [|done].
  apply (score_sizes_loop _ _ _ _ _ _ sizes sizes []) in Hloop as [Hfig Hfilled];
    [|done|apply filled_zeros].
  rewrite study_bind, written_run. cbv beta iota. rewrite study_bind.
  destruct makeplots; unfold study_when.
  - rewrite study_bind. cbn [study_for]. do 7 plot_step.
    rewrite !study_ret. intros [= <- <-]. exists res. split_and!; [done..|].
    cbn [outside figures]. rewrite Hfig, <- !app_assoc. reflexivity.
  - rewrite !study_ret. intros [= <- <-]. exists res. split_and!; [done..|].
    cbn [outside figures]. by rewrite Hfig, app_nil_r.
Qed.

(** X29.  The figures of the study.  With [makeplots], a run that returns has
    drawn seven figures after the files were written, one per returned
    frame in the order of the returned tuple, each showing the four rows of
    its frame against the lengths.  The titles and axis labels are taken
    from the tuple of scoring names at the same position, and that tuple is
    in another order: the figure of the ROC-AUC frame is titled [f1_micro],
    the one of the precision frame [f1_macro], the one of the recall frame
    [f1], the one of the average-precision frame [roc_auc], the one of the
    F1 frame [recall], the one of the micro-F1 frame [precision] and the
    one of the macro-F1 frame [average_precision].  No figure carries the
    name of the metric it shows. *)
Theorem test_fingerprint_size_figures
    (df_mols : molecules) (df_y : gmap string Series) (model : estimator)
    (colname : string) (num_sizes_to_test min_size max_size cv : Z) (write : bool)
    (w w' : study_world) (sizes : list Z) (frames : study_frames) :
  np_linspace min_size max_size num_sizes_to_test = Returned sizes →
  test_fingerprint_size df_mols df_y model colname num_sizes_to_test min_size max_size cv
    true write w = (Done frames, w') →
  figures w' =
    figures w ++ (if write then written_files else []) ++
    figure_of sizes (frame_values (df_results_rocauc_size_SVC frames)) "f1_micro" ++
    figure_of sizes (frame_values (df_results_precision_size_SVC frames)) "f1_macro" ++
    figure_of sizes (frame_values (df_results_recall_size_SVC frames)) "f1" ++
    figure_of sizes (frame_values (df_results_av_prec_size_SVC frames)) "roc_auc" ++
    figure_of sizes (frame_values (df_results_f1_size_SVC frames)) "recall" ++
    figure_of sizes (frame_values (df_results_f1_micro_size_SVC frames)) "precision" ++
    figure_of sizes (frame_values (df_results_f1_macro_size_SVC frames)) "average_precision".
Proof.
  intros Hsizes Hrun.
  destruct (test_fingerprint_size_inv _ _ _ _ _ _ _ _ _ _ _ _ _ _ Hsizes Hrun)
    as (res & _ & -> & Hfig).
  exact Hfig.
Qed.

(** X30.  The frames of the study.  When it returns, each of the seven frames has
    the lengths as its column labels, and for every length and every kind of
    fingerprint there is a cross-validation of the model, on the fingerprint
    of that kind created at that length and on the target column
    [colname], whose scores fill the cell of that kind and that length in
    all seven frames: the cell of a frame holds the mean of the scores of
    its own metric, or zero when the scores have no entry for it. *)
Theorem test_fingerprint_size_cells
    (df_mols : molecules) (df_y : gmap string Series) (model : estimator)
    (colname : string) (num_sizes_to_test min_size max_size cv : Z) (makeplots write : bool)
    (w w' : study_world) (sizes : list Z) (frames : study_frames) :
  np_linspace min_size max_size num_sizes_to_test = Returned sizes →
  test_fingerprint_size df_mols df_y model colname num_sizes_to_test min_size max_size cv
    makeplots write w = (Done frames, w') →
  (∀ get key, (get, key) ∈ study_mapping → frame_columns (get frames) = sizes) ∧
  ∀ r c, r < 4 → c < length sizes →
    ∃ scores,
      scored df_mols df_y model colname cv
        ["f1_micro"; "f1_macro"; "f1"; "roc_auc"; "recall"; "precision"; "average_precision"]
        sizes r c scores ∧
      ∀ get key, (get, key) ∈ study_mapping →
        cell (frame_values (get frames)) r c
        = Some (from_option np_mean float_zero (scores !! key)).
Proof.
  intros Hsizes Hrun.
  destruct (test_fingerprint_size_inv _ _ _ _ _ _ _ _ _ _ _ _ _ _ Hsizes Hrun)
    as (res & Hfilled & -> & _).
  split.
  - intros get key Hin. unfold study_mapping in Hin.
    repeat (apply elem_of_cons in Hin as [[= -> ->]|Hin]; [done|]).
    by apply not_elem_of_nil in Hin.
  - intros r c Hr Hc. destruct (Hfilled r c Hr Hc) as [Hin _].
    destruct Hin as (scores & Hscored & Hcells); [unfold visited; lia|].
    exists scores. split; [done|]. intros get key Hin. unfold study_mapping in Hin.
    apply elem_of_cons in Hin as [[= -> ->]|Hin]; [by apply (Hcells 0)|].
    apply elem_of_cons in Hin as [[= -> ->]|Hin]; [by apply (Hcells 1)|].
    apply elem_of_cons in Hin as [[= -> ->]|Hin]; [by apply (Hcells 2)|].
    apply elem_of_cons in Hin as [[= -> ->]|Hin]; [by apply (Hcells 3)|].
    apply elem_of_cons in Hin as [[= -> ->]|Hin]; [by apply (Hcells 4)|].
    apply elem_of_cons in Hin as [[= -> ->]|Hin]; [by apply (Hcells 5)|].
    apply elem_of_cons in Hin as [[= -> ->]|Hin]; [by apply (Hcells 6)|].
    by apply not_elem_of_nil in Hin.
Qed.

End StudyProperties.

(** * The further properties on the small instance *)

(** Feature selection on the three descriptors with the targets of the
    first label: the mask keeps the first two columns. *)
Lemma select_best_descriptors_by_mask_witness :
  SelectKBest_get_support (Vs := Sample.values) () 2 Sample.desc_train [0; 1; 1]%Z
  = Returned [true; true; false] ∧
  select_best_descriptors (Vs := Sample.values) Sample.desc_train [0; 1; 1]%Z () 2
  = Returned ["MolWt"; "LogP"].
Proof.
  assert (SelectKBest_get_support (Vs := Sample.values) () 2 Sample.desc_train [0; 1; 1]%Z
          = Returned [true; true; false]) as Hmask by reflexivity.
  split; [exact Hmask|].
  destruct (select_best_descriptors_by_mask (Vs := Sample.values) _ _ _ _ _ Hmask)
    as (_ & _ & Hsel).
  destruct Hsel as (sel & Hrun & -> & _); [reflexivity|discriminate|exact Hrun].
Defined.

(** The union of the selections of the two labels stays within the three
    descriptor columns. *)
Lemma select_best_descriptors_multi_within_columns_witness :
  select_best_descriptors_multi (Vs := Sample.values) Sample.desc_train Sample.y_train
    Sample.labels () 2 (Sample.start 0)
  = (Returned (Some ["MolWt"; "LogP"; "TPSA"]), Sample.start 0) ∧
  ∀ c, c ∈ ["MolWt"; "LogP"; "TPSA"] → c ∈ columns Sample.desc_train.
Proof.
  assert (select_best_descriptors_multi (Vs := Sample.values) Sample.desc_train
            Sample.y_train Sample.labels () 2 (Sample.start 0)
          = (Returned (Some ["MolWt"; "LogP"; "TPSA"]), Sample.start 0)) as Hrun
    by reflexivity.
  split; [exact Hrun|].
  exact (select_best_descriptors_multi_within_columns (Vs := Sample.values) _ _ _ _ _ _ _ _
           Hrun).
Defined.

(** A label without targets. *)
Lemma select_best_descriptors_multi_missing_label_witness :
  "Skin disorders" ∈ ["Cardiac disorders"; "Skin disorders"] ∧
  Sample.y_train !! "Skin disorders" = None ∧
  ∃ e, select_best_descriptors_multi (Vs := Sample.values) Sample.desc_train Sample.y_train
         ["Cardiac disorders"; "Skin disorders"] () 2 (Sample.start 0)
       = (Raised e, Sample.start 0).
Proof.
  assert ("Skin disorders" ∈ ["Cardiac disorders"; "Skin disorders"]) as Hin
    by (apply list_elem_of_further, list_elem_of_here).
  assert (Sample.y_train !! "Skin disorders" = None) as Hnone by reflexivity.
  split; [exact Hin|]. split; [exact Hnone|].
  exact (select_best_descriptors_multi_missing_label (Vs := Sample.values)
           Sample.desc_train Sample.y_train _ () 2 (Sample.start 0) _ Hin Hnone).
Defined.

(** The three dictionaries of the two labels. *)
Lemma create_dataframes_dic_keys_witness :
  ∃ d,
    create_dataframes_dic (Vs := Sample.values) Sample.desc_train Sample.desc_test
      Sample.fp_train Sample.fp_test Sample.y_train Sample.labels () 2 = Returned d ∧
    dom (train_series_dic d) = list_to_set Sample.labels ∧
    dom (test_series_dic d) = list_to_set Sample.labels ∧
    dom (selected_name d) = list_to_set Sample.labels.
Proof.
  eexists.
  match goal with
  | |- ?run ∧ _ => assert run as Hrun by reflexivity; split; [exact Hrun|]
  end.
  exact (create_dataframes_dic_keys (Vs := Sample.values) _ _ _ _ _ _ _ _ _ Hrun).
Defined.

(** Both labels have targets and a mask that fits, and the test descriptors
    have the columns of the training descriptors. *)
Lemma create_dataframes_dic_returns_witness :
  (∀ name, name ∈ Sample.labels →
     ∃ y mask,
       Sample.y_train !! name = Some y ∧
       SelectKBest_get_support (Vs := Sample.values) () 2 Sample.desc_train y
       = Returned mask ∧
       length mask = n_columns Sample.desc_train ∧
       filter (eq true) mask ≠ []) ∧
  (∀ c, c ∈ columns Sample.desc_train → c ∈ columns Sample.desc_test) ∧
  ∃ d, create_dataframes_dic (Vs := Sample.values) Sample.desc_train Sample.desc_test
         Sample.fp_train Sample.fp_test Sample.y_train Sample.labels () 2 = Returned d.
Proof.
  assert (∀ name, name ∈ Sample.labels →
            ∃ y mask,
              Sample.y_train !! name = Some y ∧
              SelectKBest_get_support (Vs := Sample.values) () 2 Sample.desc_train y
              = Returned mask ∧
              length mask = n_columns Sample.desc_train ∧
              filter (eq true) mask ≠ []) as Hlabels.
  { intros name [->|[->|Hin]%elem_of_cons]%elem_of_cons.
    - exists [0; 1; 1]%Z, [true; true; false]. by split_and!.
    - exists [1; 0; 1]%Z, [false; true; true]. by split_and!.
    - by apply not_elem_of_nil in Hin. }
  assert (∀ c, c ∈ columns Sample.desc_train → c ∈ columns Sample.desc_test) as Hcols
    by (intros c Hc; exact Hc).
  split; [exact Hlabels|]. split; [exact Hcols|].
  exact (create_dataframes_dic_returns (Vs := Sample.values) Sample.desc_train
           Sample.desc_test Sample.fp_train Sample.fp_test Sample.y_train Sample.labels () 2
           Hlabels Hcols).
Defined.

(** Test descriptors without [LogP], which the first label selects. *)
Lemma create_dataframes_dic_test_lacks_column_witness :
  "Cardiac disorders" ∈ Sample.labels ∧
  Sample.y_train !! "Cardiac disorders" = Some [0; 1; 1]%Z ∧
  select_best_descriptors (Vs := Sample.values) Sample.desc_train [0; 1; 1]%Z () 2
  = Returned ["MolWt"; "LogP"] ∧
  "LogP" ∈ ["MolWt"; "LogP"] ∧
  ("LogP" ∉ columns SampleStudy.desc_test_without_LogP) ∧
  is_Raised (create_dataframes_dic (Vs := Sample.values) Sample.desc_train
               SampleStudy.desc_test_without_LogP Sample.fp_train Sample.fp_test
               Sample.y_train Sample.labels () 2).
Proof.
  assert ("Cardiac disorders" ∈ Sample.labels) as Hin by apply list_elem_of_here.
  assert (Sample.y_train !! "Cardiac disorders" = Some [0; 1; 1]%Z) as Hy by reflexivity.
  assert (select_best_descriptors (Vs := Sample.values) Sample.desc_train [0; 1; 1]%Z () 2
          = Returned ["MolWt"; "LogP"]) as Hsel by reflexivity.
  assert ("LogP" ∈ ["MolWt"; "LogP"]) as Hc
    by (apply list_elem_of_further, list_elem_of_here).
  assert ("LogP" ∉ columns SampleStudy.desc_test_without_LogP) as Hnot
    by (apply (bool_decide_unpack _); by vm_compute).
  split_and!; [exact Hin|exact Hy|exact Hsel|exact Hc|exact Hnot|].
  exact (create_dataframes_dic_test_lacks_column (Vs := Sample.values) Sample.desc_train
           SampleStudy.desc_test_without_LogP Sample.fp_train Sample.fp_test Sample.y_train
           Sample.labels () 2 _ _ _ _ Hin Hy Hsel Hc Hnot).
Defined.

(** The two labels are resampled. *)
Lemma balance_dataset_entries_witness :
  ∃ bal w',
    balance_dataset (Vs := Sample.values) Sample.X_train_dic Sample.y_train Sample.labels
      None (-1) false (Sample.start 0) = (Returned bal, w') ∧
    trace w' = [] ∧
    dom (y_dic_bal bal) = list_to_set Sample.labels.
Proof.
  eexists _, _.
  match goal with
  | |- ?run ∧ _ => assert run as Hrun by reflexivity; split; [exact Hrun|]
  end.
  destruct (balance_dataset_entries (Vs := Sample.values) _ _ _ _ _ _ _ _ Hrun)
    as (Htrace & _ & Hdom & _).
  split; [exact Htrace|exact Hdom].
Defined.

(** A label without a matrix. *)
Lemma balance_dataset_missing_label_witness :
  "Skin disorders" ∈ ["Skin disorders"] ∧
  (Sample.X_train_dic !! "Skin disorders" = None ∨
   Sample.y_train !! "Skin disorders" = None) ∧
  is_Raised (balance_dataset (Vs := Sample.values) Sample.X_train_dic Sample.y_train
               ["Skin disorders"] None (-1) true (Sample.start 0)).1.
Proof.
  assert ("Skin disorders" ∈ ["Skin disorders"]) as Hin by apply list_elem_of_here.
  assert (Sample.X_train_dic !! "Skin disorders" = None ∨
          Sample.y_train !! "Skin disorders" = None) as Hnone by (left; reflexivity).
  split; [exact Hin|]. split; [exact Hnone|].
  exact (balance_dataset_missing_label (Vs := Sample.values) _ _ _ None (-1) true
           (Sample.start 0) _ Hin Hnone).
Defined.

(** Under [verbose] the same two labels give six more lines. *)
Lemma balance_dataset_verbose_only_prints_witness :
  ∃ bal w' lines,
    balance_dataset (Vs := Sample.values) Sample.X_train_dic Sample.y_train Sample.labels
      None (-1) false (Sample.start 0) = (Returned bal, w') ∧
    balance_dataset (Vs := Sample.values) Sample.X_train_dic Sample.y_train Sample.labels
      None (-1) true (Sample.start 0) = (Returned bal, after w' lines) ∧
    length lines = 6.
Proof.
  eassert (balance_dataset (Vs := Sample.values) Sample.X_train_dic Sample.y_train
             Sample.labels None (-1) false (Sample.start 0) = (Returned _, _)) as Hrun
    by reflexivity.
  destruct (balance_dataset_verbose_only_prints (Vs := Sample.values) _ _ _ _ _ _ _ _ Hrun)
    as (lines & Hverbose & Hlen).
  eexists _, _, lines. split; [exact Hrun|]. split; [exact Hverbose|exact Hlen].
Defined.

(** A grid search over two candidates, under [verbose]. *)
Lemma grid_search_verbose_witness :
  GridSearchCV_fit (Vs := Sample.values)
    (searched_estimator false (UserModel "svc") (Some 0%Z) (-1)) Sample.two_configs
    {| n_splits := 5; kf_random_state := Some 0%Z |} (-1) true "f1"
    (Frame Sample.fp_train) [0; 1; 1]%Z 0
  = (Returned (Sample.a_search {[ "C" := 1%Z ]} Sample.two_configs), 0) ∧
  (grid_search (Vs := Sample.values) (Frame Sample.fp_train) [0; 1; 1]%Z (UserModel "svc")
     Sample.two_configs (Some Sample.fp_test) (Some [0; 1]%Z) false 5 "f1" (-1) true
     (Some 0%Z) (Sample.start 0)).1
  = Raised (ValueError "The truth value of a DataFrame is ambiguous").
Proof.
  assert (GridSearchCV_fit (Vs := Sample.values)
            (searched_estimator false (UserModel "svc") (Some 0%Z) (-1)) Sample.two_configs
            {| n_splits := 5; kf_random_state := Some 0%Z |} (-1) true "f1"
            (Frame Sample.fp_train) [0; 1; 1]%Z 0
          = (Returned (Sample.a_search {[ "C" := 1%Z ]} Sample.two_configs), 0)) as Hfit
    by reflexivity.
  split; [exact Hfit|].
  destruct (grid_search_verbose (Vs := Sample.values) (Frame Sample.fp_train) [0; 1; 1]%Z
              (UserModel "svc") Sample.two_configs (Some [0; 1]%Z) false 5 "f1" (-1)
              (Some 0%Z) (Sample.start 0) _ _ Hfit) as [_ Hheld].
  by rewrite Hheld.
Defined.

(** A randomized search over the same candidates, under [verbose]. *)
Lemma random_search_verbose_witness :
  RandomizedSearchCV_fit (Vs := Sample.values)
    (searched_estimator false (UserModel "svc") (Some 0%Z) (-1)) Sample.two_configs 1
    {| n_splits := 5; kf_random_state := Some 0%Z |} (-1) true "f1" None
    (as_array (Frame Sample.fp_train)) [0; 1; 1]%Z 0
  = (Returned (Sample.a_search {[ "C" := 1%Z ]} [{[ "C" := 1%Z ]}]), 1) ∧
  (random_search (Vs := Sample.values) (Frame Sample.fp_train) [0; 1; 1]%Z
     (UserModel "svc") Sample.two_configs (Some Sample.fp_test) (Some [0; 1]%Z) false 1 5
     "f1" (-1) true (Some 0%Z) (Sample.start 0)).1
  = Raised (ValueError "The truth value of a DataFrame is ambiguous").
Proof.
  assert (RandomizedSearchCV_fit (Vs := Sample.values)
            (searched_estimator false (UserModel "svc") (Some 0%Z) (-1)) Sample.two_configs 1
            {| n_splits := 5; kf_random_state := Some 0%Z |} (-1) true "f1" None
            (as_array (Frame Sample.fp_train)) [0; 1; 1]%Z 0
          = (Returned (Sample.a_search {[ "C" := 1%Z ]} [{[ "C" := 1%Z ]}]), 1)) as Hfit
    by reflexivity.
  split; [exact Hfit|].
  destruct (random_search_verbose (Vs := Sample.values) (Frame Sample.fp_train)
              [0; 1; 1]%Z (UserModel "svc") Sample.two_configs (Some [0; 1]%Z) false 1 5
              "f1" (-1) (Some 0%Z) (Sample.start 0) _ _ Hfit) as [_ Hheld].
  by rewrite Hheld.
Defined.

(** The grid searches of the two labels. *)
Lemma multi_label_grid_search_entries_witness :
  ∃ best w',
    multi_label_grid_search (Vs := Sample.values) Sample.X_train_dic Sample.y_train
      Sample.labels (UserModel "svc") SampleStudy.params_by_label false None None 5 "f1"
      (-1) false None (Sample.start 0) = (Returned best, w') ∧
    dom best = list_to_set Sample.labels ∧
    trace w' = flat_map (announcement (Vs := Sample.values)) Sample.labels.
Proof.
  eexists _, _.
  match goal with
  | |- ?run ∧ _ => assert run as Hrun by reflexivity; split; [exact Hrun|]
  end.
  destruct (multi_label_grid_search_entries (Vs := Sample.values) _ _ _ _ _ _ _ _ _ _ _ _ _
              _ _ _ Hrun) as (Hdom & _ & Htrace).
  split; [exact Hdom|]. exact (Htrace eq_refl).
Defined.

(** The randomized searches of the two labels. *)
Lemma multi_label_random_search_entries_witness :
  ∃ best w',
    multi_label_random_search (Vs := Sample.values) Sample.X_train_dic Sample.y_train
      Sample.labels (UserModel "svc") SampleStudy.params_by_label false None None 1 5 "f1"
      (-1) false None (Sample.start 0) = (Returned best, w') ∧
    dom best = list_to_set Sample.labels ∧
    trace w' = flat_map (announcement (Vs := Sample.values)) Sample.labels.
Proof.
  eexists _, _.
  match goal with
  | |- ?run ∧ _ => assert run as Hrun by reflexivity; split; [exact Hrun|]
  end.
  destruct (multi_label_random_search_entries (Vs := Sample.values) _ _ _ _ _ _ _ _ _ _ _ _
              _ _ _ _ _ Hrun) as (Hdom & _ & Htrace).
  split; [exact Hdom|]. exact (Htrace eq_refl).
Defined.

(** No parameter space for any label. *)
Lemma multi_label_searches_missing_label_witness :
  "Cardiac disorders" ∈ Sample.labels ∧
  (Sample.X_train_dic !! "Cardiac disorders" = None ∨
   Sample.y_train !! "Cardiac disorders" = None ∨
   (∅ : gmap string (list (gmap string Z))) !! "Cardiac disorders" = None) ∧
  is_Raised (multi_label_grid_search (Vs := Sample.values) Sample.X_train_dic
               Sample.y_train Sample.labels (UserModel "svc") ∅ false None None 5 "f1" (-1)
               false None (Sample.start 0)).1 ∧
  is_Raised (multi_label_random_search (Vs := Sample.values) Sample.X_train_dic
               Sample.y_train Sample.labels (UserModel "svc") ∅ false None None 1 5 "f1"
               (-1) false None (Sample.start 0)).1.
Proof.
  assert ("Cardiac disorders" ∈ Sample.labels) as Hin by apply list_elem_of_here.
  assert (Sample.X_train_dic !! "Cardiac disorders" = None ∨
          Sample.y_train !! "Cardiac disorders" = None ∨
          (∅ : gmap string (list (gmap string Z))) !! "Cardiac disorders" = None) as Hnone
    by (right; right; reflexivity).
  split; [exact Hin|]. split; [exact Hnone|].
  exact (multi_label_searches_missing_label (Vs := Sample.values) Sample.X_train_dic
           Sample.y_train Sample.labels (UserModel "svc") ∅ false None None 1 5 "f1" (-1)
           false None (Sample.start 0) _ Hin Hnone).
Defined.

(** Held-out frames and targets for both labels, under [verbose]. *)
Lemma multi_label_searches_verbose_held_out_witness :
  Sample.labels ≠ [] ∧
  test_set_given (Some SampleStudy.held_out_frames) (Some (TargetDict Sample.y_test))
  ≠ Returned false ∧
  is_Raised (multi_label_grid_search (Vs := Sample.values) Sample.X_train_dic
               Sample.y_train Sample.labels (UserModel "svc") SampleStudy.params_by_label
               false (Some SampleStudy.held_out_frames) (Some (TargetDict Sample.y_test)) 5
               "f1" (-1) true None (Sample.start 0)).1 ∧
  is_Raised (multi_label_random_search (Vs := Sample.values) Sample.X_train_dic
               Sample.y_train Sample.labels (UserModel "svc") SampleStudy.params_by_label
               false (Some SampleStudy.held_out_frames) (Some (TargetDict Sample.y_test)) 1
               5 "f1" (-1) true None (Sample.start 0)).1.
Proof.
  assert (Sample.labels ≠ []) as Hnames by discriminate.
  assert (test_set_given (Some SampleStudy.held_out_frames)
            (Some (TargetDict Sample.y_test)) ≠ Returned false) as Hgiven
    by (vm_compute; discriminate).
  split; [exact Hnames|]. split; [exact Hgiven|].
  exact (multi_label_searches_verbose_held_out (Vs := Sample.values) Sample.X_train_dic
           Sample.y_train Sample.labels (UserModel "svc") SampleStudy.params_by_label false
           (Some SampleStudy.held_out_frames) (Some (TargetDict Sample.y_test)) 1 5 "f1"
           (-1) None (Sample.start 0) Hnames Hgiven).
Defined.

(** The scores of a fitted classifier on two held-out compounds. *)
Lemma score_report_metrics_of_predictions_witness :
  ∃ scores w',
    score_report (Vs := Sample.values) Sample.a_fitted (Frame Sample.fp_test) [0; 1]%Z
      false false None (Sample.start 0) = (Returned scores, w') ∧
    holds (Vs := Sample.values) scores "auc_score"
      (roc_auc_score (Vs := Sample.values) [0; 1]%Z [0; 1; 1]%Z).
Proof.
  eexists _, _.
  match goal with
  | |- ?run ∧ _ => assert run as Hrun by reflexivity; split; [exact Hrun|]
  end.
  destruct (score_report_metrics_of_predictions (Vs := Sample.values) _ _ _ _ _ _ _ _ _
              Hrun) as (_ & y_pred & Hpred & _ & _ & _ & Hauc & _).
  injection Hpred as <-. exact Hauc.
Defined.

(** The same scores under [plot]. *)
Lemma score_report_verbose_and_plot_witness :
  ∃ scores w',
    score_report (Vs := Sample.values) Sample.a_fitted (Frame Sample.fp_test) [0; 1]%Z
      false true (Some "Eye disorders") (Sample.start 0) = (Returned scores, w') ∧
    score_report (Vs := Sample.values) Sample.a_fitted (Frame Sample.fp_test) [0; 1]%Z
      false false (Some "Eye disorders") (Sample.start 0) = (Returned scores, Sample.start 0) ∧
    env w' = 0.
Proof.
  eexists _, _.
  match goal with
  | |- ?run ∧ _ => assert run as Hrun by reflexivity; split; [exact Hrun|]
  end.
  destruct (score_report_verbose_and_plot (Vs := Sample.values) _ _ _ _ _ _ _ _ _ Hrun)
    as (Hquiet & Henv & _).
  split; [exact Hquiet|exact Henv].
Defined.

(** Cross-validation with the seven default metrics. *)
Lemma cv_report_means_and_deviations_witness :
  cross_validate (Vs := Sample.values)
    (searched_estimator false (UserModel "svc") None (-1)) (as_array (Frame Sample.fp_train))
    [0; 1; 1]%Z scoring_metrics_default {| n_splits := 5; kf_random_state := None |} (-1)
    false 0
  = (Returned (Sample.cv_scores scoring_metrics_default), 0) ∧
  (∀ key, key ∈ cv_keys → is_Some (Sample.cv_scores scoring_metrics_default !! key)) ∧
  ∃ report,
    cv_report (Vs := Sample.values) (UserModel "svc") (Frame Sample.fp_train) [0; 1; 1]%Z
      false 5 scoring_metrics_default None (-1) false (Sample.start 0)
    = (Returned report, Sample.start 0) ∧
    report !! "f1_score" = Some 1%Z.
Proof.
  assert (cross_validate (Vs := Sample.values)
            (searched_estimator false (UserModel "svc") None (-1))
            (as_array (Frame Sample.fp_train)) [0; 1; 1]%Z scoring_metrics_default
            {| n_splits := 5; kf_random_state := None |} (-1) false 0
          = (Returned (Sample.cv_scores scoring_metrics_default), 0)) as Hcv by reflexivity.
  assert (∀ key, key ∈ cv_keys →
            is_Some (Sample.cv_scores scoring_metrics_default !! key)) as Hkeys.
  { intros key Hkey. unfold cv_keys in Hkey.
    repeat (apply elem_of_cons in Hkey as [->|Hkey]; [by eexists|]).
    by apply not_elem_of_nil in Hkey. }
  split; [exact Hcv|]. split; [exact Hkeys|].
  destruct (cv_report_means_and_deviations (Vs := Sample.values) (UserModel "svc")
              (Frame Sample.fp_train) [0; 1; 1]%Z false 5 scoring_metrics_default None (-1)
              false (Sample.start 0) _ _ Hcv Hkeys)
    as (report & lines & Hrun & _ & Hlen & _ & Hmeans & _).
  destruct lines; [|discriminate Hlen].
  exists report. split; [exact Hrun|].
  refine (Hmeans "f1_score" "test_f1" _).
  do 2 apply list_elem_of_further. apply list_elem_of_here.
Defined.

(** Cross-validation with the metric [f1] alone. *)
Lemma cv_report_needs_the_default_metrics_witness :
  cross_validate (Vs := Sample.values)
    (searched_estimator false (UserModel "svc") None (-1)) (as_array (Frame Sample.fp_train))
    [0; 1; 1]%Z ["f1"] {| n_splits := 5; kf_random_state := None |} (-1) false 0
  = (Returned (Sample.cv_scores ["f1"]), 0) ∧
  "test_f1_micro" ∈ cv_keys ∧
  Sample.cv_scores ["f1"] !! "test_f1_micro" = None ∧
  is_Raised (cv_report (Vs := Sample.values) (UserModel "svc") (Frame Sample.fp_train)
               [0; 1; 1]%Z false 5 ["f1"] None (-1) false (Sample.start 0)).1.
Proof.
  assert (cross_validate (Vs := Sample.values)
            (searched_estimator false (UserModel "svc") None (-1))
            (as_array (Frame Sample.fp_train)) [0; 1; 1]%Z ["f1"]
            {| n_splits := 5; kf_random_state := None |} (-1) false 0
          = (Returned (Sample.cv_scores ["f1"]), 0)) as Hcv by reflexivity.
  assert ("test_f1_micro" ∈ cv_keys) as Hkey by apply list_elem_of_here.
  assert (Sample.cv_scores ["f1"] !! "test_f1_micro" = None) as Hnone by reflexivity.
  split; [exact Hcv|]. split; [exact Hkey|]. split; [exact Hnone|].
  destruct (cv_report_needs_the_default_metrics (Vs := Sample.values) (UserModel "svc")
              (Frame Sample.fp_train) [0; 1; 1]%Z false 5 ["f1"] None (-1) false
              (Sample.start 0) _ _ _ Hcv Hkey Hnone) as (missing & _ & _ & Hrun).
  by rewrite Hrun.
Defined.

(** The cross-validated report of the two labels. *)
Lemma cv_multi_report_rows_witness :
  ∃ report w',
    cv_multi_report (Vs := Sample.values) Sample.X_train_dic Sample.y_train Sample.labels
      (UserModel "svc") false None NoParams None 5 (-1) false (Sample.start 0)
    = (Returned (Some report), w') ∧
    ∃ scores,
      row_of (Vs := Sample.values) cv_mapping scores report "Eye disorders".
Proof.
  eexists _, _.
  match goal with
  | |- ?run ∧ _ => assert run as Hrun by reflexivity; split; [exact Hrun|]
  end.
  destruct (cv_multi_report_rows (Vs := Sample.values) _ _ _ _ _ _ _ _ _ _ _ _ _ _ Hrun
              "Eye disorders") as (est & X & y & w1 & scores & w2 & _ & _ & _ & _ & Hrow).
  { apply list_elem_of_further, list_elem_of_here. }
  exists scores. exact Hrow.
Defined.

(** The held-out report of the two labels. *)
Lemma test_score_multi_report_rows_witness :
  ∃ report w',
    test_score_multi_report (Vs := Sample.values) Sample.X_train_dic Sample.y_train
      Sample.X_test_dic Sample.y_test Sample.labels (UserModel "svc") None NoParams false
      None false false (-1) (Sample.start 0)
    = (Returned (Some report), w') ∧
    ∃ scores,
      row_of (Vs := Sample.values) test_mapping scores report "Eye disorders".
Proof.
  eexists _, _.
  match goal with
  | |- ?run ∧ _ => assert run as Hrun by reflexivity; split; [exact Hrun|]
  end.
  destruct (test_score_multi_report_rows (Vs := Sample.values) _ _ _ _ _ _ _ _ _ _ _ _ _ _
              _ _ Hrun "Eye disorders")
    as (est & X & y & Xt & yt & e & f & e' & w1 & scores & w2 & _ & _ & _ & _ & _ & _ & _
        & Hrow).
  { apply list_elem_of_further, list_elem_of_here. }
  exists scores. exact Hrow.
Defined.

(** Parameters for both labels, and no tags. *)
Lemma reports_with_spec_params_need_the_tag_witness :
  truth_of_spec_params (Vs := Sample.values) (ByLabel Sample.svc_params) = true ∧
  modelname_at None "Cardiac disorders" = Raised not_subscriptable ∧
  cv_multi_report (Vs := Sample.values) Sample.X_train_dic Sample.y_train Sample.labels
    NoneModel false None (ByLabel Sample.svc_params) None 5 (-1) false (Sample.start 0)
  = (Raised not_subscriptable, Sample.start 0).
Proof.
  assert (truth_of_spec_params (Vs := Sample.values) (ByLabel Sample.svc_params) = true)
    as Htruth by (vm_compute; reflexivity).
  assert (modelname_at None "Cardiac disorders" = Raised not_subscriptable) as Htag
    by reflexivity.
  split; [exact Htruth|]. split; [exact Htag|].
  destruct (reports_with_spec_params_need_the_tag (Vs := Sample.values) Sample.X_train_dic
              Sample.X_test_dic Sample.y_train Sample.y_test "Cardiac disorders"
              ["Eye disorders"] NoneModel false None
              (ByLabel (Vs := Sample.values) Sample.svc_params) None 5 (-1) false false
              (Sample.start 0) _ Htruth Htag) as [Hcv _].
  exact Hcv.
Defined.

(** The default arguments of the held-out report. *)
Lemma test_score_multi_report_without_a_model_witness :
  truth_of_spec_params (Vs := Sample.values) NoParams = false ∧
  test_score_multi_report (Vs := Sample.values) Sample.X_train_dic Sample.y_train
    Sample.X_test_dic Sample.y_test Sample.labels NoneModel None NoParams false None false
    false (-1) (Sample.start 0)
  = (Raised (AttributeError "fit"), Sample.start 0).
Proof.
  assert (truth_of_spec_params (Vs := Sample.values) NoParams = false) as Htruth
    by reflexivity.
  split; [exact Htruth|].
  exact (test_score_multi_report_without_a_model (Vs := Sample.values) Sample.X_train_dic
           Sample.X_test_dic Sample.y_train Sample.y_test "Cardiac disorders"
           ["Eye disorders"] None (NoParams (Vs := Sample.values)) None (-1) false false
           (Sample.start 0) Htruth).
Defined.

(** The file lists one compound, under the first label. *)
Lemma create_offside_df_requests_witness :
  read_offsides (Vs := Sample.values) 0
  = (Returned [("CID000085", "Cardiac disorders")], 0) ∧
  create_offside_df (Vs := Sample.values) Sample.labels false (Sample.start 0)
  = (Returned [("smiles", [Str "CCO"]); ("Cardiac disorders", [Int 1]);
               ("Eye disorders", [Int 0])],
     {| env := 0; trace := [HttpGet (smiles_url "85")] |}) ∧
  ∃ evs,
    [HttpGet (Vs := Sample.values) (smiles_url "85")] = evs ∧
    filter (λ ev, is_request ev) evs = [HttpGet (Vs := Sample.values) (smiles_url "85")].
Proof.
  assert (read_offsides (Vs := Sample.values) 0
          = (Returned [("CID000085", "Cardiac disorders")], 0)) as Hread by reflexivity.
  assert (create_offside_df (Vs := Sample.values) Sample.labels false (Sample.start 0)
          = (Returned [("smiles", [Str "CCO"]); ("Cardiac disorders", [Int 1]);
                       ("Eye disorders", [Int 0])],
             {| env := 0; trace := [HttpGet (smiles_url "85")] |})) as Hrun
    by (vm_compute; reflexivity).
  split; [exact Hread|]. split; [exact Hrun|].
  destruct (create_offside_df_requests (Vs := Sample.values) Sample.labels false
              (Sample.start 0) _ _ _ _ Hread Hrun) as (evs & Htrace & Hreq & _).
  exists evs. split; [exact Htrace|exact Hreq].
Defined.

(** The table of that file for the two labels. *)
Lemma create_offside_df_table_witness :
  read_offsides (Vs := Sample.values) 0
  = (Returned [("CID000085", "Cardiac disorders")], 0) ∧
  ("stitch_id" ∉ Sample.labels) ∧
  create_offside_df (Vs := Sample.values) Sample.labels false (Sample.start 0)
  = (Returned [("smiles", [Str "CCO"]); ("Cardiac disorders", [Int 1]);
               ("Eye disorders", [Int 0])],
     {| env := 0; trace := [HttpGet (smiles_url "85")] |}) ∧
  column_of [("smiles", [Str "CCO"]); ("Cardiac disorders", [Int 1]);
             ("Eye disorders", [Int 0])] "Eye disorders"
  = Returned (indicator [("CID000085", "Cardiac disorders")] "Eye disorders"
                <$> ["CID000085"]).
Proof.
  assert (read_offsides (Vs := Sample.values) 0
          = (Returned [("CID000085", "Cardiac disorders")], 0)) as Hread by reflexivity.
  assert ("stitch_id" ∉ Sample.labels) as Hid
    by (apply (bool_decide_unpack _); by vm_compute).
  assert (create_offside_df (Vs := Sample.values) Sample.labels false (Sample.start 0)
          = (Returned [("smiles", [Str "CCO"]); ("Cardiac disorders", [Int 1]);
                       ("Eye disorders", [Int 0])],
             {| env := 0; trace := [HttpGet (smiles_url "85")] |})) as Hrun
    by (vm_compute; reflexivity).
  split; [exact Hread|]. split; [exact Hid|]. split; [exact Hrun|].
  destruct (create_offside_df_table (Vs := Sample.values) Sample.labels false
              (Sample.start 0) _ _ _ _ Hread Hid Hrun) as (_ & Hcells & _).
  apply (Hcells "Eye disorders"). apply list_elem_of_further, list_elem_of_here.
Defined.

(** No length at all. *)
Lemma test_fingerprint_size_without_sizes_witness :
  np_linspace (Chemistry := SampleStudy.chemistry) 100 2048 0 = Returned [] ∧
  test_fingerprint_size (Chem := SampleStudy.chemistry) () Sample.y_train (UserModel "svc")
    "Cardiac disorders" 0 100 2048 10 true false SampleStudy.study_start
  = (Failed (UnboundLocalError "fingerprints"), {| outside := 0; figures := [Figure] |}).
Proof.
  assert (np_linspace (Chemistry := SampleStudy.chemistry) 100 2048 0 = Returned []) as Hsizes
    by reflexivity.
  split; [exact Hsizes|].
  exact (proj2 (test_fingerprint_size_without_sizes (Chem := SampleStudy.chemistry) ()
                  Sample.y_train (UserModel "svc") "Cardiac disorders" 0 100 2048 10 false
                  SampleStudy.study_start Hsizes)).
Defined.

(** Two lengths, with the plots. *)
Lemma test_fingerprint_size_figures_witness :
  np_linspace (Chemistry := SampleStudy.chemistry) 100 2048 2 = Returned [100; 2048]%Z ∧
  ∃ frames w',
    test_fingerprint_size (Chem := SampleStudy.chemistry) () Sample.y_train
      (UserModel "svc") "Cardiac disorders" 2 100 2048 10 true false
      SampleStudy.study_start = (Done frames, w') ∧
    figures w' =
      figure_of [100; 2048]%Z (frame_values (df_results_rocauc_size_SVC frames)) "f1_micro" ++
      figure_of [100; 2048]%Z (frame_values (df_results_precision_size_SVC frames))
        "f1_macro" ++
      figure_of [100; 2048]%Z (frame_values (df_results_recall_size_SVC frames)) "f1" ++
      figure_of [100; 2048]%Z (frame_values (df_results_av_prec_size_SVC frames))
        "roc_auc" ++
      figure_of [100; 2048]%Z (frame_values (df_results_f1_size_SVC frames)) "recall" ++
      figure_of [100; 2048]%Z (frame_values (df_results_f1_micro_size_SVC frames))
        "precision" ++
      figure_of [100; 2048]%Z (frame_values (df_results_f1_macro_size_SVC frames))
        "average_precision".
Proof.
  assert (np_linspace (Chemistry := SampleStudy.chemistry) 100 2048 2 = Returned [100; 2048]%Z)
    as Hsizes by reflexivity.
  split; [exact Hsizes|].
  destruct (test_fingerprint_size (Chem := SampleStudy.chemistry) () Sample.y_train
              (UserModel "svc") "Cardiac disorders" 2 100 2048 10 true false
              SampleStudy.study_start) as [[frames|x] w'] eqn:Hrun.
  - exists frames, w'. split; [reflexivity|].
    exact (test_fingerprint_size_figures (Chem := SampleStudy.chemistry) _ _ _ _ _ _ _ _ _
             _ _ _ _ Hsizes Hrun).
  - exfalso. revert Hrun. vm_compute. discriminate.
Defined.

(** Two lengths, without plots and files. *)
Lemma test_fingerprint_size_cells_witness :
  np_linspace (Chemistry := SampleStudy.chemistry) 100 2048 2 = Returned [100; 2048]%Z ∧
  ∃ frames w' (scores : gmap string (list Z)),
    test_fingerprint_size (Chem := SampleStudy.chemistry) () Sample.y_train
      (UserModel "svc") "Cardiac disorders" 2 100 2048 10 false false
      SampleStudy.study_start = (Done frames, w') ∧
    frame_columns (df_results_recall_size_SVC frames) = [100; 2048]%Z ∧
    cell (Vs := Sample.values) (frame_values (df_results_recall_size_SVC frames)) 3 1
    = Some (from_option (np_mean (Vs := Sample.values)) 0%Z (scores !! "test_recall")).
Proof.
  assert (np_linspace (Chemistry := SampleStudy.chemistry) 100 2048 2 = Returned [100; 2048]%Z)
    as Hsizes by reflexivity.
  split; [exact Hsizes|].
  destruct (test_fingerprint_size (Chem := SampleStudy.chemistry) () Sample.y_train
              (UserModel "svc") "Cardiac disorders" 2 100 2048 10 false false
              SampleStudy.study_start) as [[frames|x] w'] eqn:Hrun.
  - destruct (test_fingerprint_size_cells (Chem := SampleStudy.chemistry) _ _ _ _ _ _ _ _ _
                _ _ _ _ _ Hsizes Hrun) as [Hcols Hcells].
    destruct (Hcells 3 1) as (scores & _ & Hcell); [lia|cbn; lia|].
    exists frames, w', scores. split; [reflexivity|]. split.
    + apply (Hcols _ "test_recall"). do 2 apply list_elem_of_further.
      apply list_elem_of_here.
    + apply (Hcell _ "test_recall"). do 2 apply list_elem_of_further.
      apply list_elem_of_here.
  - exfalso. revert Hrun. vm_compute. discriminate.
Defined.
